(** * sar_tracker: the dashboard renderer of [static/app.js]

    A shallow embedding of the browser-side script: the three field
    normalisers ([formatTimestamp], [formatStatusCode],
    [formatLocationStatus]), the table builder [makeTable], the assembler
    [renderState] and the controller ([fetchState], [refresh]), together
    with the part of the JavaScript run time they rest on (strings, numbers,
    conversions, property lookup, [Date]).

    Conventions.
    - A JavaScript string is a sequence of code units; the embedding carries
      the code units below 256 as [ascii], so a [string] of Rocq is a
      JavaScript string over that range.
    - A JavaScript number is an IEEE-754 binary64 value, carried as a
      [spec_float] with precision 53 and maximal exponent 1024.
    - A JSON object is a finite map from property names to values.
    - An exception is a value of [error]; code that can throw returns a
      [result]. *)

From Stdlib Require Import ZArith String Ascii List Lia Bool.
From Stdlib Require Import Floats.SpecFloat DecimalString.
From stdpp Require Import gmap strings list sorting.

Local Open Scope Z_scope.

(** ** Strings as sequences of code units *)

Module Str.

Definition code (c : ascii) : Z := Z.of_N (N_of_ascii c).

Definition chars (s : string) : list ascii := list_ascii_of_string s.
Definition of_chars (l : list ascii) : string := string_of_list_ascii l.

(** [String.prototype.startsWith] *)
Definition startsWith (s p : string) : bool := String.prefix p s.

(** [String.prototype.endsWith] *)
Definition endsWith (s p : string) : bool :=
  String.prefix (of_chars (rev (chars p))) (of_chars (rev (chars s))).

(** [s.split(sep)] for a separator of one code unit: the pieces between
    consecutive occurrences of the separator, empty pieces included. *)
Fixpoint split_chars (sep : ascii) (cur : list ascii) (l : list ascii)
  : list string :=
  match l with
  | [] => [of_chars (rev cur)]
  | c :: r =>
      if Ascii.eqb c sep then of_chars (rev cur) :: split_chars sep [] r
      else split_chars sep (c :: cur) r
  end.

Definition split (sep : ascii) (s : string) : list string :=
  split_chars sep [] (chars s).

(** [s.replace(c, by)] with a string pattern of one code unit: only the
    first occurrence is replaced. *)
Fixpoint replace_first (c : ascii) (by_ : string) (s : string) : string :=
  match s with
  | EmptyString => EmptyString
  | String a r =>
      if Ascii.eqb a c then by_ +:+ r else String a (replace_first c by_ r)
  end.

Definition is_digit (c : ascii) : bool :=
  (48 <=? code c) && (code c <=? 57).

Definition digit_value (c : ascii) : Z := code c - 48.

Definition digit_char (d : Z) : ascii := ascii_of_N (Z.to_N (48 + d)).

(** Decimal numeral of a natural number, without leading zeros. *)
Definition of_N (n : N) : string := NilZero.string_of_uint (N.to_uint n).

(** The [k] low decimal digits of [n], most significant first. *)
Fixpoint digits (k : nat) (n : Z) : list ascii :=
  match k with
  | O => []
  | S k' => digits k' (n / 10) ++ [digit_char (n mod 10)]
  end.

Definition pad (k : nat) (n : Z) : string := of_chars (digits k n).

Definition zeros (k : Z) : string := of_chars (repeat "0"%char (Z.to_nat k)).

End Str.

(** ** Numbers *)

Module Num.

Definition number := spec_float.
Definition prec : Z := 53.
Definition emax : Z := 1024.

Definition NaN : number := S754_nan.

(** The number denoted by an integer literal. *)
Definition of_Z (z : Z) : number := binary_normalize prec emax z 0 false.

(** [Number.isNaN] *)
Definition isNaN (x : number) : bool :=
  match x with S754_nan => true | _ => false end.

(** [x === y] on numbers: [NaN] differs from itself, the two zeros are
    equal. *)
Definition eqb (x y : number) : bool := SFeqb x y.

Definition is_zero (x : number) : bool :=
  match x with S754_zero _ => true | _ => false end.

Definition sub (x y : number) : number := SFsub prec emax x y.

(** [m * 10 ^ e], rounded to the nearest number, ties to even. *)
Definition round_decimal (neg : bool) (m : positive) (e : Z) : number :=
  if 0 <=? e then binary_round prec emax neg (m * Z.to_pos (10 ^ e)) 0
  else
    let '(q, e', l) :=
      SFdiv_core_binary prec emax (Zpos m) 0 (10 ^ (- e)) 0 in
    binary_round_aux prec emax neg q e' l.

(** The same with the magnitude checked first, so that a literal with an
    astronomic exponent is never expanded. *)
Definition of_decimal (neg : bool) (m : Z) (e : Z) : number :=
  match m with
  | Zpos p =>
      let l := Z.log2 m in
      if 310 <? (l * 3) / 10 + e then S754_infinity neg
      else if l / 3 + 1 + e <? -330 then S754_zero neg
      else round_decimal neg p e
  | _ => S754_zero neg
  end.

(** *** [StringToNumber]: the grammar [StringNumericLiteral] *)

Definition StrWhiteSpaceChar (c : ascii) : bool :=
  existsb (Z.eqb (Str.code c)) [9; 10; 11; 12; 13; 32; 160].

Fixpoint skip_ws (l : list ascii) : list ascii :=
  match l with
  | c :: r => if StrWhiteSpaceChar c then skip_ws r else l
  | [] => []
  end.

Definition trim (l : list ascii) : list ascii :=
  rev (skip_ws (rev (skip_ws l))).

Definition digit_in (base : Z) (c : ascii) : option Z :=
  let n := Str.code c in
  let d :=
    if (48 <=? n) && (n <=? 57) then n - 48
    else if (97 <=? n) && (n <=? 102) then n - 87
    else if (65 <=? n) && (n <=? 70) then n - 55
    else base in
  if d <? base then Some d else None.

(** Value of a numeral all of whose characters are digits of [base]. *)
Fixpoint numeral (base : Z) (l : list ascii) (acc : Z) : option Z :=
  match l with
  | [] => Some acc
  | c :: r =>
      match digit_in base c with
      | Some d => numeral base r (acc * base + d)
      | None => None
      end
  end.

Definition nonempty_numeral (base : Z) (l : list ascii) : option Z :=
  match l with [] => None | _ => numeral base l 0 end.

Fixpoint span_digits (l : list ascii) : list ascii * list ascii :=
  match l with
  | c :: r =>
      if Str.is_digit c then
        let '(d, rest) := span_digits r in (c :: d, rest)
      else ([], l)
  | [] => ([], [])
  end.

Definition take_sign (l : list ascii) : bool * list ascii :=
  match l with
  | "+"%char :: r => (false, r)
  | "-"%char :: r => (true, r)
  | _ => (false, l)
  end.

(** [ExponentPart], or nothing. *)
Definition ExponentPart (l : list ascii) : option Z :=
  match l with
  | [] => Some 0
  | c :: r =>
      if Ascii.eqb c "e" || Ascii.eqb c "E" then
        let '(neg, ds) := take_sign r in
        match nonempty_numeral 10 ds with
        | Some n => Some (if neg then - n else n)
        | None => None
        end
      else None
  end.

(** [StrUnsignedDecimalLiteral] other than [Infinity]: mantissa and
    decimal exponent. *)
Definition StrUnsignedDecimalLiteral (l : list ascii) : option (Z * Z) :=
  let '(ip, r1) := span_digits l in
  let '(fp, r2) :=
    match r1 with
    | "."%char :: r => span_digits r
    | _ => ([], r1)
    end in
  match ip ++ fp with
  | [] => None
  | ds =>
      match numeral 10 ds 0, ExponentPart r2 with
      | Some m, Some e => Some (m, e - Z.of_nat (length fp))
      | _, _ => None
      end
  end.

Definition StrDecimalLiteral (l : list ascii) : number :=
  let '(neg, r) := take_sign l in
  if String.eqb (Str.of_chars r) "Infinity" then S754_infinity neg
  else
    match StrUnsignedDecimalLiteral r with
    | Some (m, e) => of_decimal neg m e
    | None => NaN
    end.

Definition NonDecimalIntegerLiteral (l : list ascii) : option number :=
  match l with
  | "0"%char :: p :: ds =>
      let base :=
        if Ascii.eqb p "x" || Ascii.eqb p "X" then 16
        else if Ascii.eqb p "o" || Ascii.eqb p "O" then 8
        else if Ascii.eqb p "b" || Ascii.eqb p "B" then 2
        else 0 in
      if base =? 0 then None
      else option_map of_Z (nonempty_numeral base ds)
  | _ => None
  end.

Definition StringToNumber (s : string) : number :=
  match trim (Str.chars s) with
  | [] => S754_zero false
  | l =>
      match NonDecimalIntegerLiteral l with
      | Some x => x
      | None => StrDecimalLiteral l
      end
  end.

(** *** [Number::toString] in radix 10 *)

(** The value [m * 2 ^ e] as a fraction. *)
Definition fraction (m : positive) (e : Z) : Z * Z :=
  if 0 <=? e then (Zpos m * 2 ^ e, 1) else (Zpos m, 2 ^ (- e)).

(** [p / q < 10 ^ n] *)
Definition below_pow10 (p q n : Z) : bool :=
  if 0 <=? n then p <? q * 10 ^ n else p * 10 ^ (- n) <? q.

Fixpoint search_decade (fuel : nat) (p q n : Z) : Z :=
  match fuel with
  | O => n
  | S f => if below_pow10 p q n then n else search_decade f p q (n + 1)
  end.

(** The [n] with [10 ^ (n - 1) <= p / q < 10 ^ n]. *)
Definition decade (p q : Z) : Z :=
  let b := Z.log2 p - Z.log2 q in
  search_decade 8 p q ((b * 30103) / 100000 - 1).

(** [p / q] scaled by [10 ^ j], as a fraction. *)
Definition scaled (p q j : Z) : Z * Z :=
  if 0 <=? j then (p * 10 ^ j, q) else (p, q * 10 ^ (- j)).

(** The shortest digit string [s] of [k] digits with [s * 10 ^ (n - k)]
    rounding to [x], searched from [k] upwards; the nearer of the two
    neighbours when both round to [x]. *)
Fixpoint search_digits (fuel : nat) (x : number) (p q n k : Z)
  : Z * Z * Z :=
  let '(num, den) := scaled p q (k - n) in
  let lo := num / den in
  let hi := lo + 1 in
  match fuel with
  | O => (lo, k, n)
  | S f =>
      let ok_lo :=
        match lo with
        | Zpos l => eqb (round_decimal false l (n - k)) x
        | _ => false
        end in
      let ok_hi := eqb (round_decimal false (Z.to_pos hi) (n - k)) x in
      let pick_hi :=
        if hi =? 10 ^ k then (1, 1, n + 1) else (hi, k, n) in
      if ok_lo && ok_hi then
        match 2 * (num mod den) ?= den with
        | Lt => (lo, k, n)
        | Gt => pick_hi
        | Eq => if Z.even lo then (lo, k, n) else pick_hi
        end
      else if ok_lo then (lo, k, n)
      else if ok_hi then pick_hi
      else search_digits f x p q n (k + 1)
  end.

Definition shortest (m : positive) (e : Z) : Z * Z * Z :=
  let '(p, q) := fraction m e in
  search_digits 17 (S754_finite false m e) p q (decade p q) 1.

Definition render_digits (s k n : Z) : string :=
  let ds := Str.pad (Z.to_nat k) s in
  if (-5 <=? n) && (n <=? 21) then
    if k <=? n then ds +:+ Str.zeros (n - k)
    else if 0 <? n then
      String.substring 0 (Z.to_nat n) ds +:+ "." +:+
      String.substring (Z.to_nat n) (Z.to_nat (k - n)) ds
    else "0." +:+ Str.zeros (- n) +:+ ds
  else
    let ex := n - 1 in
    let tail :=
      "e" +:+ (if ex <? 0 then "-" else "+") +:+ Str.of_N (Z.to_N (Z.abs ex)) in
    if k =? 1 then ds +:+ tail
    else
      String.substring 0 1 ds +:+ "." +:+
      String.substring 1 (Z.to_nat (k - 1)) ds +:+ tail.

Definition NumberToString (x : number) : string :=
  match x with
  | S754_nan => "NaN"
  | S754_zero _ => "0"
  | S754_infinity s => (if s then "-" else "") +:+ "Infinity"
  | S754_finite s m e =>
      let '(d, k, n) := shortest m e in
      (if s then "-" else "") +:+ render_digits d k n
  end.

End Num.

(** ** Exceptions *)

Inductive error :=
| TypeError
| RangeError
| SyntaxError
| Error (message : string).

Inductive result (A : Type) :=
| Ok (a : A)
| Throw (e : error).
Arguments Ok {A} a.
Arguments Throw {A} e.

Definition rbind {A B} (r : result A) (f : A -> result B) : result B :=
  match r with
  | Ok a => f a
  | Throw e => Throw e
  end.

Notation "'let*' x ':=' r 'in' k" := (rbind r (fun x => k))
  (at level 10, x name, r at level 100, k at level 200).

Fixpoint mapM {A B} (f : A -> result B) (l : list A) : result (list B) :=
  match l with
  | [] => Ok []
  | a :: r => let* b := f a in let* bs := mapM f r in Ok (b :: bs)
  end.

(** ** Values *)

(** The values a parsed JSON document is made of, and [undefined], which a
    lookup of an absent property yields. *)
#[warnings="-register-all"]
Inductive value :=
| VUndefined
| VNull
| VBool (b : bool)
| VNum (x : Num.number)
| VStr (s : string)
| VArr (l : list value)
| VObj (o : gmap string value).

(** What a lookup can find on the prototype chain instead: a built-in
    prototype object (through the accessor [__proto__]) or a built-in
    function.  Such objects never occur inside a parsed document. *)
Inductive kind := KObject | KArray | KString | KNumber | KBoolean.

Inductive builtin :=
| Prototype (k : kind)
| Native (name : string).

Inductive jsval :=
| Json (v : value)
| Builtin (b : builtin).
Coercion Json : value >-> jsval.

Module Js.

Definition typeof_string (v : value) : bool :=
  match v with VStr _ => true | _ => false end.

Definition ToBoolean (v : value) : bool :=
  match v with
  | VUndefined | VNull => false
  | VBool b => b
  | VNum x => negb (Num.is_zero x || Num.isNaN x)
  | VStr s => negb (String.eqb s "")
  | VArr _ | VObj _ => true
  end.

(** [v === ''] *)
Definition is_empty_string (v : value) : bool :=
  match v with VStr s => String.eqb s "" | _ => false end.

(** [v === 0] *)
Definition is_number_zero (v : value) : bool :=
  match v with VNum x => Num.eqb x (Num.of_Z 0) | _ => false end.

Definition is_nullish (v : value) : bool :=
  match v with VUndefined | VNull => true | _ => false end.

Definition join (sep : string) (l : list string) : string :=
  match l with
  | [] => ""
  | a :: r => fold_left (fun acc x => acc +:+ sep +:+ x) r a
  end.

(** [ToString].  An array is joined with commas, [null] and [undefined]
    elements giving the empty string ([Array.prototype.join]).  A plain
    object gives ["[object Object]"], unless it has an own property
    [toString]: a property of a parsed document is not callable, so
    [OrdinaryToPrimitive] finds no method that returns a primitive and
    throws. *)
Fixpoint ToString (v : value) : result string :=
  match v with
  | VUndefined => Ok "undefined"
  | VNull => Ok "null"
  | VBool b => Ok (if b then "true" else "false")
  | VNum x => Ok (Num.NumberToString x)
  | VStr s => Ok s
  | VArr l =>
      let element (x : value) : result string :=
        match x with
        | VUndefined | VNull => Ok ""
        | _ => ToString x
        end in
      let* parts :=
        (fix go (l : list value) : result (list string) :=
           match l with
           | [] => Ok []
           | x :: r =>
               let* s := element x in let* ss := go r in Ok (s :: ss)
           end) l in
      Ok (join "," parts)
  | VObj o =>
      match o !! "toString" with
      | Some _ => Throw TypeError
      | None => Ok "[object Object]"
      end
  end.

(** [ToNumber]; [Number(v)] is the same on these values. *)
Definition ToNumber (v : value) : result Num.number :=
  match v with
  | VUndefined => Ok Num.NaN
  | VNull => Ok (Num.of_Z 0)
  | VBool b => Ok (Num.of_Z (if b then 1 else 0))
  | VNum x => Ok x
  | VStr s => Ok (Num.StringToNumber s)
  | VArr _ | VObj _ => let* s := ToString v in Ok (Num.StringToNumber s)
  end.

(** *** Property lookup *)

(** The property names the script reads with a constant name.  No
    built-in prototype defines any of them, none is an index and none is
    [length]: on a value that is not an object with that own property the
    lookup gives [undefined]. *)
Inductive field :=
| status_by_team | location_by_team | transmissions
| timestamp | location | location_status | transit | status_code
| dest | src | msg.

Definition field_name (f : field) : string :=
  match f with
  | status_by_team => "status_by_team"
  | location_by_team => "location_by_team"
  | transmissions => "transmissions"
  | timestamp => "timestamp"
  | location => "location"
  | location_status => "location_status"
  | transit => "transit"
  | status_code => "status_code"
  | dest => "dest"
  | src => "src"
  | msg => "msg"
  end.

(** [v.f] *)
Definition Get (v : value) (f : field) : result value :=
  match v with
  | VUndefined | VNull => Throw TypeError
  | VObj o => Ok (default VUndefined (o !! field_name f))
  | _ => Ok VUndefined
  end.

(** A canonical array index: a decimal numeral without leading zero,
    below [2 ^ 32 - 1]. *)
Definition array_index (k : string) : option nat :=
  match Str.chars k with
  | [] => None
  | c :: r =>
      if forallb Str.is_digit (c :: r)
         && (negb (Ascii.eqb c "0") || (length r =? 0)%nat)
      then
        match Num.numeral 10 (c :: r) 0 with
        | Some n => if n <? 2 ^ 32 - 1 then Some (Z.to_nat n) else None
        | None => None
        end
      else None
  end.

Definition index_names (n : nat) : list string :=
  map (fun i => Str.of_N (N.of_nat i)) (seq 0 n).

Definition char_at (s : string) (i : nat) : option value :=
  match String.get i s with
  | Some c => Some (VStr (String c EmptyString))
  | None => None
  end.

(** [Object.keys(v)]: the own enumerable property names. *)
Definition keys (v : value) : result (list string) :=
  match v with
  | VUndefined | VNull => Throw TypeError
  | VObj o => Ok (map fst (map_to_list o))
  | VArr l => Ok (index_names (length l))
  | VStr s => Ok (index_names (String.length s))
  | VBool _ | VNum _ => Ok []
  end.

(** [v[k]] for a name [k] that [Object.keys(v)] lists, or that no
    built-in prototype defines (a numeral). *)
Definition GetOwn (v : value) (k : string) : value :=
  match v with
  | VObj o => default VUndefined (o !! k)
  | VArr l =>
      match array_index k with
      | Some i => default VUndefined (l !! i)
      | None => VUndefined
      end
  | VStr s =>
      match array_index k with
      | Some i => default VUndefined (char_at s i)
      | None => VUndefined
      end
  | _ => VUndefined
  end.

(** [v.length] *)
Definition Get_length (v : value) : result value :=
  match v with
  | VUndefined | VNull => Throw TypeError
  | VArr l => Ok (VNum (Num.of_Z (Z.of_nat (length l))))
  | VStr s => Ok (VNum (Num.of_Z (Z.of_nat (String.length s))))
  | VObj o => Ok (default VUndefined (o !! "length"))
  | VBool _ | VNum _ => Ok VUndefined
  end.

(** The property names of the built-in prototypes (ECMAScript 2023 with
    its annex B), [constructor] and [__proto__] apart. *)
Definition members (k : kind) : list string :=
  match k with
  | KObject =>
      ["hasOwnProperty"; "isPrototypeOf"; "propertyIsEnumerable";
       "toLocaleString"; "toString"; "valueOf"; "__defineGetter__";
       "__defineSetter__"; "__lookupGetter__"; "__lookupSetter__"]
  | KArray =>
      ["at"; "concat"; "copyWithin"; "entries"; "every"; "fill"; "filter";
       "find"; "findIndex"; "findLast"; "findLastIndex"; "flat"; "flatMap";
       "forEach"; "includes"; "indexOf"; "join"; "keys"; "lastIndexOf";
       "map"; "pop"; "push"; "reduce"; "reduceRight"; "reverse"; "shift";
       "slice"; "some"; "sort"; "splice"; "toLocaleString"; "toReversed";
       "toSorted"; "toSpliced"; "toString"; "unshift"; "values"; "with"]
  | KString =>
      ["at"; "charAt"; "charCodeAt"; "codePointAt"; "concat"; "endsWith";
       "includes"; "indexOf"; "lastIndexOf"; "localeCompare"; "match";
       "matchAll"; "normalize"; "padEnd"; "padStart"; "repeat"; "replace";
       "replaceAll"; "search"; "slice"; "split"; "startsWith"; "substring";
       "toLocaleLowerCase"; "toLocaleUpperCase"; "toLowerCase"; "toString";
       "toUpperCase"; "trim"; "trimEnd"; "trimStart"; "valueOf"; "substr";
       "anchor"; "big"; "blink"; "bold"; "fixed"; "fontcolor"; "fontsize";
       "italics"; "link"; "small"; "strike"; "sub"; "sup"; "trimLeft";
       "trimRight"]
  | KNumber =>
      ["toExponential"; "toFixed"; "toLocaleString"; "toPrecision";
       "toString"; "valueOf"]
  | KBoolean => ["toString"; "valueOf"]
  end.

Definition constructor_name (k : kind) : string :=
  match k with
  | KObject => "Object"
  | KArray => "Array"
  | KString => "String"
  | KNumber => "Number"
  | KBoolean => "Boolean"
  end.

Definition mem (k : string) (l : list string) : bool :=
  existsb (String.eqb k) l.

(** The [name] property of the function found under a member name. *)
Definition function_name (m : string) : string :=
  if String.eqb m "trimLeft" then "trimStart"
  else if String.eqb m "trimRight" then "trimEnd"
  else m.

(** Lookup of [name] on the prototype chain of a value of kind [k]. *)
Definition inherited (k : kind) (name : string) : jsval :=
  if String.eqb name "__proto__" then Builtin (Prototype k)
  else if String.eqb name "constructor" then
    Builtin (Native (constructor_name k))
  else if mem name (members k) || mem name (members KObject) then
    Builtin (Native (function_name name))
  else Json VUndefined.

(** [v[k]] for an arbitrary property name. *)
Definition GetV (v : value) (k : string) : result jsval :=
  match v with
  | VUndefined | VNull => Throw TypeError
  | VObj o =>
      match o !! k with
      | Some x => Ok (Json x)
      | None => Ok (inherited KObject k)
      end
  | VArr l =>
      match array_index k with
      | Some i =>
          Ok (Json (default VUndefined (l !! i)))
      | None =>
          if String.eqb k "length"
          then Ok (Json (VNum (Num.of_Z (Z.of_nat (length l)))))
          else Ok (inherited KArray k)
      end
  | VStr s =>
      match array_index k with
      | Some i => Ok (Json (default VUndefined (char_at s i)))
      | None =>
          if String.eqb k "length"
          then Ok (Json (VNum (Num.of_Z (Z.of_nat (String.length s)))))
          else Ok (inherited KString k)
      end
  | VNum _ => Ok (inherited KNumber k)
  | VBool _ => Ok (inherited KBoolean k)
  end.

(** Truth value and string conversion of whatever a lookup gave. *)
Definition truthy (j : jsval) : bool :=
  match j with
  | Json v => ToBoolean v
  | Builtin _ => true
  end.

(** The source text of a built-in function is implementation-defined;
    this is the layout of V8 and JavaScriptCore. *)
Definition builtin_text (b : builtin) : string :=
  match b with
  | Prototype KObject => "[object Object]"
  | Prototype KArray => ""
  | Prototype KString => ""
  | Prototype KNumber => "0"
  | Prototype KBoolean => "false"
  | Native name => "function " +:+ name +:+ "() { [native code] }"
  end.

Definition ToStringJ (j : jsval) : result string :=
  match j with
  | Json v => ToString v
  | Builtin b => Ok (builtin_text b)
  end.

End Js.

(** ** Dates

    Time values are integers (milliseconds since the epoch); every quantity
    that occurs for a four-digit year is far below [2 ^ 53], so the integer
    arithmetic is the arithmetic of the numbers. *)

Module Date.

Definition msPerDay : Z := 86400000.
Definition msPerHour : Z := 3600000.
Definition msPerMinute : Z := 60000.
Definition msPerSecond : Z := 1000.

Definition Day (t : Z) : Z := t / msPerDay.
Definition TimeWithinDay (t : Z) : Z := t mod msPerDay.

Definition is_leap (y : Z) : bool :=
  ((y mod 4 =? 0) && negb (y mod 100 =? 0)) || (y mod 400 =? 0).

Definition DaysInYear (y : Z) : Z := if is_leap y then 366 else 365.

Definition DayFromYear (y : Z) : Z :=
  365 * (y - 1970) + (y - 1969) / 4 - (y - 1901) / 100 + (y - 1601) / 400.

Definition TimeFromYear (y : Z) : Z := msPerDay * DayFromYear y.

(** The year of a day number: the largest [y] with [DayFromYear y <= d].
    An estimate from the mean length of a year is off by one at most. *)
Definition YearFromDay (d : Z) : Z :=
  let y := 1970 + (400 * d) / 146097 in
  if DayFromYear (y + 1) <=? d then y + 1
  else if DayFromYear y <=? d then y
  else y - 1.

Definition YearFromTime (t : Z) : Z := YearFromDay (Day t).

Definition InLeapYear (t : Z) : Z :=
  if is_leap (YearFromTime t) then 1 else 0.

Definition DayWithinYear (t : Z) : Z :=
  Day t - DayFromYear (YearFromTime t).

(** Number of days before the first day of month [m] (0 to 11) in a year
    with leap-day count [leap]. *)
Definition days_before (m leap : Z) : Z :=
  match m with
  | 0 => 0
  | 1 => 31
  | 2 => 59 + leap
  | 3 => 90 + leap
  | 4 => 120 + leap
  | 5 => 151 + leap
  | 6 => 181 + leap
  | 7 => 212 + leap
  | 8 => 243 + leap
  | 9 => 273 + leap
  | 10 => 304 + leap
  | 11 => 334 + leap
  | _ => 365 + leap
  end.

Definition MonthFromTime (t : Z) : Z :=
  let d := DayWithinYear t in
  let l := InLeapYear t in
  if d <? 31 then 0
  else if d <? 59 + l then 1
  else if d <? 90 + l then 2
  else if d <? 120 + l then 3
  else if d <? 151 + l then 4
  else if d <? 181 + l then 5
  else if d <? 212 + l then 6
  else if d <? 243 + l then 7
  else if d <? 273 + l then 8
  else if d <? 304 + l then 9
  else if d <? 334 + l then 10
  else 11.

Definition DateFromTime (t : Z) : Z :=
  DayWithinYear t - days_before (MonthFromTime t) (InLeapYear t) + 1.

Definition HourFromTime (t : Z) : Z := (t / msPerHour) mod 24.
Definition MinFromTime (t : Z) : Z := (t / msPerMinute) mod 60.
Definition SecFromTime (t : Z) : Z := (t / msPerSecond) mod 60.
Definition msFromTime (t : Z) : Z := t mod msPerSecond.

Definition MakeTime (hour min sec ms : Z) : Z :=
  hour * msPerHour + min * msPerMinute + sec * msPerSecond + ms.

(** The day number of the first day of month [month] of [year], plus
    [date - 1]; a month outside 0..11 carries into the year. *)
Definition MakeDay (year month date : Z) : Z :=
  let ym := year + month / 12 in
  let mn := month mod 12 in
  DayFromYear ym + days_before mn (if is_leap ym then 1 else 0) + date - 1.

Definition MakeDate (day time : Z) : Z := day * msPerDay + time.

Definition MakeFullYear (year : Z) : Z :=
  if (0 <=? year) && (year <=? 99) then 1900 + year else year.

(** [None] is the time value [NaN] of an invalid date. *)
Definition TimeClip (t : Z) : option Z :=
  if 8640000000000000 <? Z.abs t then None else Some t.

(** [Date.UTC(year, month, date, hours, minutes, seconds)] *)
Definition UTC (year month date hours minutes seconds : Z) : option Z :=
  TimeClip
    (MakeDate (MakeDay (MakeFullYear year) month date)
              (MakeTime hours minutes seconds 0)).

Definition year_string (y : Z) : string :=
  if (0 <=? y) && (y <=? 9999) then Str.pad 4 y
  else (if y <? 0 then "-" else "+") +:+ Str.pad 6 (Z.abs y).

(** [Date.prototype.toISOString] *)
Definition toISOString (tv : option Z) : result string :=
  match tv with
  | None => Throw RangeError
  | Some t =>
      Ok (year_string (YearFromTime t) +:+ "-" +:+
          Str.pad 2 (MonthFromTime t + 1) +:+ "-" +:+
          Str.pad 2 (DateFromTime t) +:+ "T" +:+
          Str.pad 2 (HourFromTime t) +:+ ":" +:+
          Str.pad 2 (MinFromTime t) +:+ ":" +:+
          Str.pad 2 (SecFromTime t) +:+ "." +:+
          Str.pad 3 (msFromTime t) +:+ "Z")
  end.

End Date.

(** ** The document and the console *)

Record cell := { text : string; monospace : bool }.

Record table := { thead : list string; tbody : list (list cell) }.

(** The children of the three containers and the text of the status line. *)
Record document := {
  el_current_status : list table;
  el_status_history : list table;
  el_transmissions : list table;
  el_last_updated : string
}.

Inductive container := CurrentStatus | StatusHistory | Transmissions.

Definition children (c : container) (d : document) : list table :=
  match c with
  | CurrentStatus => el_current_status d
  | StatusHistory => el_status_history d
  | Transmissions => el_transmissions d
  end.

Definition set_children (c : container) (ts : list table) (d : document)
  : document :=
  match c with
  | CurrentStatus =>
      {| el_current_status := ts; el_status_history := el_status_history d;
         el_transmissions := el_transmissions d;
         el_last_updated := el_last_updated d |}
  | StatusHistory =>
      {| el_current_status := el_current_status d; el_status_history := ts;
         el_transmissions := el_transmissions d;
         el_last_updated := el_last_updated d |}
  | Transmissions =>
      {| el_current_status := el_current_status d;
         el_status_history := el_status_history d; el_transmissions := ts;
         el_last_updated := el_last_updated d |}
  end.

Definition set_last_updated (s : string) (d : document) : document :=
  {| el_current_status := el_current_status d;
     el_status_history := el_status_history d;
     el_transmissions := el_transmissions d;
     el_last_updated := s |}.

(** One call of [console.error(label, e)]. *)
Record log_entry := { label : string; logged : error }.

Record world := { doc : document; console : list log_entry }.

(** Code that reads and writes a state and can throw. *)
Definition M (S A : Type) : Type := S -> S * result A.

Definition ret {S A} (a : A) : M S A := fun s => (s, Ok a).

Definition throw {S A} (e : error) : M S A := fun s => (s, Throw e).

Definition bind {S A B} (m : M S A) (f : A -> M S B) : M S B :=
  fun s =>
    match m s with
    | (s', Ok a) => f a s'
    | (s', Throw e) => (s', Throw e)
    end.

Definition lift {S A} (r : result A) : M S A := fun s => (s, r).

Definition modify {S} (f : S -> S) : M S unit := fun s => (f s, Ok tt).

(** [try { m } catch (e) { h e }] *)
Definition try_catch {S A} (m : M S A) (h : error -> M S A) : M S A :=
  fun s =>
    match m s with
    | (s', Ok a) => (s', Ok a)
    | (s', Throw e) => h e s'
    end.

Notation "'do' x '<-' m ';' k" := (bind m (fun x => k))
  (at level 10, x name, m at level 100, k at level 200).
Notation "'do_' m ';' k" := (bind m (fun _ => k))
  (at level 10, m at level 100, k at level 200).

(** [l.forEach(body)] *)
Fixpoint forEach {S A} (body : A -> M S unit) (l : list A) : M S unit :=
  match l with
  | [] => ret tt
  | a :: r => do_ body a; forEach body r
  end.

(** [rows.push(r)] on a local array of rows. *)
Definition push {A} (r : A) : M (list A) unit :=
  modify (fun rows => rows ++ [r]).

Definition console_error (l : string) (e : error) : M world unit :=
  modify (fun w =>
    {| doc := doc w; console := console w ++ [{| label := l; logged := e |}] |}).

Definition update_doc (f : document -> document) : M world unit :=
  modify (fun w => {| doc := f (doc w); console := console w |}).

(** ** [makeTable] *)

(** The three identifiers the script passes to [document.getElementById]
    name the three containers of the page. *)
Definition make_cell (c : jsval) : result cell :=
  match c with
  | Json VNull | Json VUndefined => Ok {| text := ""; monospace := false |}
  | Json (VStr s) =>
      if Str.startsWith s "{" && Str.endsWith s "}"
      then Ok {| text := s; monospace := true |}
      else Ok {| text := s; monospace := false |}
  | _ =>
      let* s := Js.ToStringJ c in Ok {| text := s; monospace := false |}
  end.

Definition makeTable (containerId : container) (headers : list string)
  (rows : list (list jsval)) : M world unit :=
  do_ update_doc (set_children containerId []);
  do body <- lift (mapM (mapM make_cell) rows);
  update_doc (fun d =>
    set_children containerId
      (children containerId d ++ [{| thead := headers; tbody := body |}]) d).

(** ** The normalisers *)

(** The regular expression of [formatTimestamp],
    [/^(\d{4})(\d{2})(\d{2})T(\d{2})(\d{2})(\d{2})Z$/]. *)
Module Re.

(** [\d{n}] as a capturing group: the captured text and what follows. *)
Fixpoint group (n : nat) (l : list ascii) : option (string * list ascii) :=
  match n, l with
  | O, _ => Some (EmptyString, l)
  | S n', c :: r =>
      if Str.is_digit c then
        match group n' r with
        | Some (g, rest) => Some (String c g, rest)
        | None => None
        end
      else None
  | S _, [] => None
  end.

Definition literal (c : ascii) (l : list ascii) : option (list ascii) :=
  match l with
  | a :: r => if Ascii.eqb a c then Some r else None
  | [] => None
  end.

(** The six captured groups, when the whole string matches. *)
Definition exec (s : string) : option (list string) :=
  match group 4 (Str.chars s) with
  | None => None
  | Some (g1, l1) =>
  match group 2 l1 with
  | None => None
  | Some (g2, l2) =>
  match group 2 l2 with
  | None => None
  | Some (g3, l3) =>
  match literal "T" l3 with
  | None => None
  | Some l4 =>
  match group 2 l4 with
  | None => None
  | Some (g4, l5) =>
  match group 2 l5 with
  | None => None
  | Some (g5, l6) =>
  match group 2 l6 with
  | None => None
  | Some (g6, l7) =>
  match literal "Z" l7 with
  | Some [] => Some [g1; g2; g3; g4; g5; g6]
  | _ => None
  end end end end end end end end.

(** [+g] for a captured group [g], a string of decimal digits. *)
Definition to_int (g : string) : Z :=
  fold_left (fun acc c => acc * 10 + Str.digit_value c) (Str.chars g) 0.

End Re.

Definition formatTimestamp (ts : value) : result value :=
  if negb (Js.ToBoolean ts) then Ok (VStr "")
  else
    match ts with
    | VStr s =>
        match Re.exec s with
        | Some [g1; g2; g3; g4; g5; g6] =>
            let d :=
              Date.UTC (Re.to_int g1) (Re.to_int g2 - 1) (Re.to_int g3)
                       (Re.to_int g4) (Re.to_int g5) (Re.to_int g6) in
            let* iso := Date.toISOString d in
            Ok (VStr (Str.replace_first "Z" " UTC"
                        (Str.replace_first "T" " " iso)))
        | _ => Ok ts
        end
    | _ => Throw TypeError
    end.

Definition formatStatusCode (code : value) : result value :=
  if Js.is_nullish code || Js.is_empty_string code then Ok (VStr "")
  else
    let* n := Js.ToNumber code in
    if negb (Num.isNaN n) then
      if Num.eqb n (Num.of_Z 4) then Ok (VStr "4 - ok")
      else if Num.eqb n (Num.of_Z 6) then Ok (VStr "6 - not ok")
      else Ok (VStr (Num.NumberToString n))
    else
      let* s := Js.ToString code in Ok (VStr s).

Definition formatLocationStatus (ls : value) : result value :=
  if negb (Js.ToBoolean ls) && negb (Js.is_number_zero ls) then Ok (VStr "")
  else
    match ls with
    | VStr s =>
        if Str.startsWith s "percentage " then
          match Str.split " " s with
          | _ :: t :: _ => if String.eqb t "" then Ok ls else Ok (VStr t)
          | _ => Ok ls
          end
        else Ok ls
    | _ => let* s := Js.ToString ls in Ok (VStr s)
    end.

(** ** [renderState] *)

(** [keys.sort()]: ascending order of code units, which is the order
    [String.le] of strings. *)
Definition sort_keys (l : list string) : list string :=
  merge_sort String.le l.

(** [v || d] *)
Definition or_else (v d : value) : value := if Js.ToBoolean v then v else d.

Definition or_elseJ (j : jsval) (d : value) : jsval :=
  if Js.truthy j then j else Json d.

(** [history.length ? history[history.length-1] : null].  The length of an
    array or of a string is an integer below [2 ^ 32], so the index is
    exact; any other value goes through the conversions. *)
Definition current_of (history : value) : result value :=
  match history with
  | VArr l => Ok (default VNull (last l))
  | VStr s =>
      Ok (default VNull (Js.char_at s (String.length s - 1)%nat))
  | _ =>
      let* len := Js.Get_length history in
      if Js.ToBoolean len then
        let* n := Js.ToNumber len in
        Ok (Js.GetOwn history (Num.NumberToString (Num.sub n (Num.of_Z 1))))
      else Ok VNull
  end.

Definition currentHeaders : list string :=
  ["Team"; "Current Location"; "Location Status"; "Transit"; "Status Code";
   "Updated"].

Definition histHeaders : list string :=
  ["Team"; "Timestamp"; "Location"; "Location Status"; "Transit";
   "Status Code"].

Definition txHeaders : list string := ["Timestamp"; "Dest"; "Src"; "Message"].

(** The row pushed for one team of the Current Status table. *)
Definition current_row (s locs : value) (team : string)
  : result (list jsval) :=
  let history := or_else (Js.GetOwn s team) (VArr []) in
  let* current := current_of history in
  if Js.ToBoolean current then
    let* ts := Js.Get current Js.timestamp in
    let* updated := formatTimestamp ts in
    let* loc := Js.GetV locs team in
    let* ls := Js.Get current Js.location_status in
    let* fls := formatLocationStatus ls in
    let* tr := Js.Get current Js.transit in
    let* sc := Js.Get current Js.status_code in
    let* fsc := formatStatusCode sc in
    Ok [Json (VStr team); or_elseJ loc (VStr ""); Json fls; Json tr;
        Json fsc; Json updated]
  else
    let* loc := Js.GetV locs team in
    Ok [Json (VStr team); or_elseJ loc (VStr ""); Json (VStr "");
        Json (VStr ""); Json (VStr ""); Json (VStr "")].

(** The row pushed for one event of the Status History table. *)
Definition history_row (team : string) (e : value) : result (list jsval) :=
  let* ts := Js.Get e Js.timestamp in
  let* fts := formatTimestamp ts in
  let* loc := Js.Get e Js.location in
  let* ls := Js.Get e Js.location_status in
  let* fls := formatLocationStatus ls in
  let* tr := Js.Get e Js.transit in
  let* sc := Js.Get e Js.status_code in
  let* fsc := formatStatusCode sc in
  Ok [Json (VStr team); Json fts; Json loc; Json fls; Json tr; Json fsc].

(** The row of one transmission. *)
Definition transmission_row (t : value) : result (list jsval) :=
  let* ts := Js.Get t Js.timestamp in
  let* fts := formatTimestamp ts in
  let* d := Js.Get t Js.dest in
  let* s := Js.Get t Js.src in
  let* m := Js.Get t Js.msg in
  Ok [Json fts; Json d; Json s; Json m].

(** The receiver of [forEach] or [map]: only an array has these methods
    (an own property of that name in a parsed document is not callable). *)
Definition as_array (v : value) : result (list value) :=
  match v with
  | VArr l => Ok l
  | _ => Throw TypeError
  end.

(** The body of a loop that builds a row for an element and pushes it. *)
Definition push_each {A B} (f : A -> result B) : A -> M (list B) unit :=
  fun a => do row <- lift (f a); push row.

(** The loop that fills [currentRows]. *)
Definition current_loop (s locs : value) (teams : list string)
  : M (list (list jsval)) unit :=
  forEach (push_each (current_row s locs)) teams.

(** The loop that fills [histRows], the body of the [try] block. *)
Definition history_loop (s : value) (teams : list string)
  : M (list (list jsval)) unit :=
  forEach (fun team =>
             do es <- lift (as_array (or_else (Js.GetOwn s team) (VArr [])));
             forEach (push_each (history_row team)) es) teams.

(** [now] is the text of [(new Date()).toLocaleString()] at the call. *)
Definition renderState (now : string) (data : value) : M world unit :=
  if negb (Js.ToBoolean data) then ret tt
  else
    do sv <- lift (Js.Get data Js.status_by_team);
    do lv <- lift (Js.Get data Js.location_by_team);
    let s := or_else sv (VObj ∅) in
    let locs := or_else lv (VObj ∅) in
    do ks <- lift (Js.keys s);
    let teams := sort_keys ks in
    let '(currentRows, r) := current_loop s locs teams [] in
    do_ lift r;
    do_ makeTable CurrentStatus currentHeaders currentRows;
    let '(histRows, r) := history_loop s teams [] in
    do_ match r with
        | Throw err => console_error "Error building status history rows" err
        | Ok _ => ret tt
        end;
    do_ makeTable StatusHistory histHeaders histRows;
    do tv <- lift (Js.Get data Js.transmissions);
    do ts <- lift (as_array (or_else tv (VArr [])));
    do txRows <- lift (mapM transmission_row ts);
    do_ makeTable Transmissions txHeaders txRows;
    update_doc (set_last_updated ("Last loaded: " +:+ now)).

(** ** [fetchState] and [refresh] *)

(** What [res.json()] settles to. *)
Inductive body :=
| Parsed (v : value)
| Malformed.

(** What [fetch('/state')] settles to: a rejection (transport failure) or a
    response with its [ok] flag, status text and body. *)
Inductive fetched :=
| Rejected
| Response (ok : bool) (statusText : string) (b : body).

Definition fetchState (f : fetched) : M world value :=
  try_catch
    (match f with
     | Rejected => throw TypeError
     | Response ok statusText b =>
         if negb ok then throw (Error statusText)
         else
           match b with
           | Parsed v => ret v
           | Malformed => throw SyntaxError
           end
     end)
    (fun e => do_ console_error "fetchState failed" e; ret VNull).

Definition refresh (f : fetched) (now : string) : M world unit :=
  do data <- fetchState f;
  if Js.ToBoolean data then renderState now data else ret tt.

(** ** Definitions used to state the properties *)

(** Construction of documents; of two entries with the same key the first
    is the one kept. *)
Definition obj (l : list (string * value)) : value := VObj (list_to_map l).
Definition num (z : Z) : value := VNum (Num.of_Z z).

(** *** Timestamps *)

Definition DaysInMonth (y m : Z) : Z :=
  match m with
  | 2 => if Date.is_leap y then 29 else 28
  | 4 | 6 | 9 | 11 => 30
  | _ => 31
  end.

(** The fields of a calendar date and time of day, year 100 onwards. *)
Definition valid_datetime (y mo d h mi s : Z) : Prop :=
  100 <= y <= 9999 /\ 1 <= mo <= 12 /\ 1 <= d <= DaysInMonth y mo /\
  0 <= h <= 23 /\ 0 <= mi <= 59 /\ 0 <= s <= 59.

(** The stored form [YYYYMMDDTHHMMSSZ] of the fields. *)
Definition stamp (y mo d h mi s : Z) : string :=
  Str.pad 4 y +:+ Str.pad 2 mo +:+ Str.pad 2 d +:+ "T" +:+
  Str.pad 2 h +:+ Str.pad 2 mi +:+ Str.pad 2 s +:+ "Z".

(** The displayed form [YYYY-MM-DD HH:MM:SS.000 UTC] of the fields. *)
Definition rendering (y mo d h mi s : Z) : string :=
  Str.pad 4 y +:+ "-" +:+ Str.pad 2 mo +:+ "-" +:+ Str.pad 2 d +:+ " " +:+
  Str.pad 2 h +:+ ":" +:+ Str.pad 2 mi +:+ ":" +:+ Str.pad 2 s +:+ ".000 UTC".

Definition leap_days (y : Z) : Z := if Date.is_leap y then 1 else 0.

(** The time value [Date.UTC] computes from valid fields. *)
Definition instant (y mo d h mi s : Z) : Z :=
  Date.MakeDate (Date.MakeDay y (mo - 1) d) (Date.MakeTime h mi s 0).

(** The pattern [YYYYMMDDTHHMMSSZ] read off character by character: four
    digits, two, two, the letter T, two digits three times, the letter Z,
    and nothing else. *)
Definition matches_pattern (s : string) : bool :=
  match Str.chars s with
  | [y1; y2; y3; y4; m1; m2; d1; d2; t; h1; h2; n1; n2; s1; s2; z] =>
      forallb Str.is_digit [y1; y2; y3; y4; m1; m2; d1; d2; h1; h2; n1; n2; s1; s2]
      && Ascii.eqb t "T" && Ascii.eqb z "Z"
  | _ => false
  end.

#[local] Instance spec_float_eq_dec : EqDecision spec_float.
Proof. solve_decision. Defined.

(** *** Status codes and location statuses *)

(** Empty or null input. *)
Definition empty_or_null (v : value) : Prop :=
  v = VNull \/ v = VUndefined \/ v = VStr "".

(** White space, as [\s] and [String.prototype.trim] understand it. *)
Definition is_whitespace (c : ascii) : bool := Num.StrWhiteSpaceChar c.

(** The whitespace-delimited tokens of a string: its maximal runs of
    characters that are not white space. *)
Fixpoint ws_tokens_chars (cur : list ascii) (l : list ascii) : list string :=
  match l with
  | [] => match cur with [] => [] | _ => [Str.of_chars (rev cur)] end
  | c :: r =>
      if is_whitespace c then
        match cur with
        | [] => ws_tokens_chars [] r
        | _ => Str.of_chars (rev cur) :: ws_tokens_chars [] r
        end
      else ws_tokens_chars (c :: cur) r
  end.

Definition ws_tokens (s : string) : list string :=
  ws_tokens_chars [] (Str.chars s).

(** The text of [l] up to its first occurrence of [c]. *)
Fixpoint up_to (c : ascii) (l : list ascii) : list ascii :=
  match l with
  | [] => []
  | a :: r => if Ascii.eqb a c then [] else a :: up_to c r
  end.

(** The text between the first space of a string and the next one. *)
Definition second_piece (rest : string) : string :=
  Str.of_chars (up_to " " (Str.chars rest)).

Definition tab : ascii := "009"%char.

(** *** Snapshots *)

(** The cells of the rows handed to [makeTable]. *)
Definition cells (rows : list (list jsval)) : result (list (list cell)) :=
  mapM (mapM make_cell) rows.

(** The property [f] of a JSON object, [undefined] when absent. *)
Definition field_of (v : value) (f : Js.field) : value :=
  match v with
  | VObj o => default VUndefined (o !! Js.field_name f)
  | _ => VUndefined
  end.

(** The map a snapshot carries under [status_by_team], from team to
    history, and the one under [location_by_team]. *)
Definition as_map (v : value) : gmap string value :=
  match v with VObj o => o | _ => ∅ end.

Definition teams (data : value) : gmap string value :=
  as_map (field_of data Js.status_by_team).

Definition locations (data : value) : gmap string value :=
  as_map (field_of data Js.location_by_team).

(** The events of a history, in stored order. *)
Definition events (h : value) : list value :=
  match h with VArr l => l | _ => [] end.

Definition history_of (data : value) (team : string) : list value :=
  events (default VNull (teams data !! team)).

(** Values of the data model: a field holds a string, a number, a boolean,
    [null] or nothing; a timestamp holds a string or nothing. *)
Definition scalar (v : value) : bool :=
  match v with VArr _ | VObj _ => false | _ => true end.

Definition text_or_absent (v : value) : bool :=
  match v with VStr _ | VUndefined | VNull => true | _ => false end.

Definition wf_event (e : value) : bool :=
  match e with
  | VObj _ =>
      text_or_absent (field_of e Js.timestamp)
      && scalar (field_of e Js.location)
      && scalar (field_of e Js.location_status)
      && scalar (field_of e Js.transit)
      && scalar (field_of e Js.status_code)
  | _ => false
  end.

Definition wf_history (h : value) : bool :=
  match h with
  | VArr l => forallb wf_event l
  | VNull => true
  | _ => false
  end.

Definition wf_transmission (t : value) : bool :=
  match t with
  | VObj _ =>
      text_or_absent (field_of t Js.timestamp)
      && scalar (field_of t Js.dest)
      && scalar (field_of t Js.src)
      && scalar (field_of t Js.msg)
  | _ => false
  end.

Definition absent (v : value) : bool :=
  match v with VUndefined | VNull => true | _ => false end.

(** A well-formed snapshot: an object whose [status_by_team] maps teams to
    sequences of events, whose [location_by_team] maps teams to scalars and
    whose [transmissions] is a sequence of transmissions; each of the three
    may be absent. *)
Definition wf_snapshot (data : value) : bool :=
  match data with
  | VObj _ =>
      let s := field_of data Js.status_by_team in
      let l := field_of data Js.location_by_team in
      let t := field_of data Js.transmissions in
      (absent s ||
       match s with
       | VObj o => forallb (fun kv => wf_history kv.2) (map_to_list o)
       | _ => false
       end)
      && (absent l ||
          match l with
          | VObj o => forallb (fun kv => scalar kv.2) (map_to_list o)
          | _ => false
          end)
      && (absent t ||
          match t with
          | VArr ts => forallb wf_transmission ts
          | _ => false
          end)
  | _ => false
  end.

(** The Current Location column of a team: what [location_by_team] gives
    for it, the empty string when that is falsy. *)
Definition current_location (data : value) (team : string) : jsval :=
  match Js.GetV (VObj (locations data)) team with
  | Ok j => or_elseJ j (VStr "")
  | Throw _ => Json (VStr "")
  end.

(** The row of the Current Status table for a team. *)
Definition CurrentRowSpec (data : value) (team : string) (row : list jsval)
  : Prop :=
  exists ls tr sc ts : value,
    row = [Json (VStr team); current_location data team; Json ls; Json tr;
           Json sc; Json ts] /\
    match last (history_of data team) with
    | None => ls = VStr "" /\ tr = VStr "" /\ sc = VStr "" /\ ts = VStr ""
    | Some e =>
        formatLocationStatus (field_of e Js.location_status) = Ok ls /\
        tr = field_of e Js.transit /\
        formatStatusCode (field_of e Js.status_code) = Ok sc /\
        formatTimestamp (field_of e Js.timestamp) = Ok ts
    end.

(** The row of the Status History table for an event of a team. *)
Definition HistoryRowSpec (te : string * value) (row : list jsval) : Prop :=
  exists ts ls sc : value,
    row = [Json (VStr te.1); Json ts; Json (field_of te.2 Js.location);
           Json ls; Json (field_of te.2 Js.transit); Json sc] /\
    formatTimestamp (field_of te.2 Js.timestamp) = Ok ts /\
    formatLocationStatus (field_of te.2 Js.location_status) = Ok ls /\
    formatStatusCode (field_of te.2 Js.status_code) = Ok sc.

(** The (team, event) pairs of a snapshot, team by team in the given
    order, the events of a team in stored order. *)
Definition pairs (data : value) (ts : list string) : list (string * value) :=
  flat_map (fun team => map (pair team) (history_of data team)) ts.

(** The text of the cells of the three tables. *)
Definition visible_text (d : document) : list (list (list (list string))) :=
  map (map (fun t => map (map text) (tbody t)))
      [el_current_status d; el_status_history d; el_transmissions d].

Definition tables (d : document) : list table * list table * list table :=
  (el_current_status d, el_status_history d, el_transmissions d).

(** *** The phases of [renderState] *)

Definition status_of (data : value) : value :=
  match Js.Get data Js.status_by_team with
  | Ok sv => or_else sv (VObj ∅)
  | Throw _ => VObj ∅
  end.

Definition locs_of (data : value) : value :=
  match Js.Get data Js.location_by_team with
  | Ok lv => or_else lv (VObj ∅)
  | Throw _ => VObj ∅
  end.

Definition sorted_teams (data : value) : list string :=
  match Js.keys (status_of data) with
  | Ok ks => sort_keys ks
  | Throw _ => []
  end.

Definition current_rows (data : value) : result (list (list jsval)) :=
  mapM (current_row (status_of data) (locs_of data)) (sorted_teams data).

(** What the [try] block leaves in [histRows], and the exception it ended
    with, if any. *)
Definition history_rows (data : value) : list (list jsval) * result unit :=
  history_loop (status_of data) (sorted_teams data) [].

Definition transmission_rows (data : value) : result (list (list jsval)) :=
  let* tv := Js.Get data Js.transmissions in
  let* ts := as_array (or_else tv (VArr [])) in
  mapM transmission_row ts.

(** An item of the history loop: an event of a team, or a team whose
    history cannot be iterated. *)
Inductive item :=
| Event (team : string) (e : value)
| NotIterable (team : string).

Definition items_of (s : value) (team : string) : list item :=
  match as_array (or_else (Js.GetOwn s team) (VArr [])) with
  | Ok es => map (Event team) es
  | Throw _ => [NotIterable team]
  end.

Definition items (data : value) : list item :=
  flat_map (items_of (status_of data)) (sorted_teams data).

Definition build (i : item) : result (list jsval) :=
  match i with
  | Event team e => history_row team e
  | NotIterable _ => Throw TypeError
  end.

(** Each row built under its own [try]: the rows of the items that can be
    built, the others skipped. *)
Definition rows_skipping_failures (l : list item) : list (list jsval) :=
  flat_map (fun i => match build i with Ok r => [r] | Throw _ => [] end) l.

Definition with_doc (w : world) (d : document) : world :=
  {| doc := d; console := console w |}.

Definition with_log (w : world) (l : string) (e : error) : world :=
  {| doc := doc w; console := console w ++ [{| label := l; logged := e |}] |}.

Definition table_of (h : list string) (b : list (list cell)) : table :=
  {| thead := h; tbody := b |}.

(** *** Fetching *)

(** A transport failure or a response whose status is not a success. *)
Definition fetch_failed (f : fetched) : bool :=
  match f with
  | Rejected => true
  | Response ok _ _ => negb ok
  end.

(** The error the fetch step sees in that case. *)
Definition failure_of (f : fetched) : error :=
  match f with
  | Rejected => TypeError
  | Response _ statusText _ => Error statusText
  end.

(** *** Sample documents *)

Definition blank : world :=
  {| doc := {| el_current_status := []; el_status_history := [];
               el_transmissions := []; el_last_updated := "" |};
     console := [] |}.

Definition sample_event : value :=
  obj [("timestamp", VStr "20240101T000000Z");
       ("location_status", VStr "percentage 50%");
       ("transit", VStr "bus");
       ("status_code", num 4)].

(** One team with one event and a location. *)
Definition sample_snapshot : value :=
  obj [("status_by_team", obj [("A", VArr [sample_event])]);
       ("location_by_team", obj [("A", VStr "HQ")]);
       ("transmissions", VArr [])].

(** Team A has a [null] entry between two events; team B has one event. *)
Definition snapshot_with_null_event : value :=
  obj [("status_by_team",
        obj [("A", VArr [sample_event; VNull; sample_event]);
             ("B", VArr [sample_event])]);
       ("location_by_team", obj [("A", VStr "HQ")]);
       ("transmissions", VArr [])].

(** A team called [constructor], without events and without a location. *)
Definition snapshot_team_constructor : value :=
  obj [("status_by_team", obj [("constructor", VArr [])]);
       ("location_by_team", obj []);
       ("transmissions", VArr [])].

Definition plain (s : string) : cell := {| text := s; monospace := false |}.

Definition sample_history_row (team : string) : list jsval :=
  [Json (VStr team); Json (VStr "2024-01-01 00:00:00.000 UTC");
   Json VUndefined; Json (VStr "50%"); Json (VStr "bus"); Json (VStr "4 - ok")].

Definition sample_current_row (team loc : string) : list jsval :=
  [Json (VStr team); Json (VStr loc); Json (VStr "50%"); Json (VStr "bus");
   Json (VStr "4 - ok"); Json (VStr "2024-01-01 00:00:00.000 UTC")].

(** *** Values that can be turned into text *)

(** No object with an own property [toString] is reached through arrays. *)
Fixpoint printable (v : value) : bool :=
  match v with
  | VArr l => forallb printable l
  | VObj o => match o !! "toString" with Some _ => false | None => true end
  | _ => true
  end.

Definition printableJ (j : jsval) : bool :=
  match j with
  | Json v => printable v
  | Builtin _ => true
  end.

(** A string that [makeTable] shows in the fixed-width style. *)
Definition braced (s : string) : bool :=
  Str.startsWith s "{" && Str.endsWith s "}".

Definition has_space (s : string) : bool :=
  existsb (Ascii.eqb " ") (Str.chars s).

(** *** Transmissions *)



(** *** The page *)

(** One run of [refresh]: what the fetch settles to and the clock text at
    the time of the rendering.  A refresh acts on the page in one step, when
    its fetch has settled, so refreshes that overlap in time act in the
    order in which their fetches settle. *)
Definition request : Type := fetched * string.

(** The page after a refresh; an exception that leaves [refresh] is an
    unhandled rejection and the page stays as the refresh left it. *)
Definition after_refresh (w : world) (r : request) : world :=
  (refresh r.1 r.2 w).1.

Definition session (rs : list request) (w : world) : world :=
  fold_left after_refresh rs w.










(** A fetch that gives [refresh] nothing to render: a failure, a body that
    is not JSON, or a falsy JSON value. *)
Definition no_data (f : fetched) : bool :=
  match f with
  | Response true _ (Parsed v) => negb (Js.ToBoolean v)
  | _ => true
  end.

(** A snapshot one of whose teams' timestamp is a number. *)
Definition snapshot_numeric_timestamp : value :=
  obj [("status_by_team",
        obj [("A", VArr [sample_event]);
             ("B", VArr [obj [("timestamp", num 20240101)]])]);
       ("location_by_team", obj [("A", VStr "HQ")]);
       ("transmissions", VArr [])].

(** A snapshot whose [transmissions] is an object instead of an array. *)
Definition snapshot_transmissions_object : value :=
  obj [("status_by_team", obj [("A", VArr [sample_event])]);
       ("location_by_team", obj [("A", VStr "HQ")]);
       ("transmissions", obj [("0", sample_event)])].

Definition populated : world :=
  {| doc := {| el_current_status := [table_of currentHeaders [[plain "old"]]];
               el_status_history := [table_of histHeaders [[plain "old"]]];
               el_transmissions := [table_of txHeaders [[plain "old"]]];
               el_last_updated := "Last loaded: earlier" |};
     console := [] |}.

(** *** Integer status codes *)

Definition decimal (n : Z) : string := Str.of_N (Z.to_N n).

(** The text shown for an integer status code. *)
Definition code_label (n : Z) : string :=
  if n =? 4 then "4 - ok" else if n =? 6 then "6 - not ok" else decimal n.

Definition is_text (r : result value) (s : string) : bool :=
  match r with
  | Ok (VStr t) => String.eqb t s
  | _ => false
  end.

(** *** The tables of a container *)

Definition headers_of (c : container) : list string :=
  match c with
  | CurrentStatus => currentHeaders
  | StatusHistory => histHeaders
  | Transmissions => txHeaders
  end.

(** The only entry [renderState] writes to the console. *)
Definition history_log_entry : log_entry :=
  {| label := "Error building status history rows"; logged := TypeError |}.

(** *** Status codes, by kind of input *)

(** The text of a number used as a status code. *)
Definition number_label (x : Num.number) : string :=
  if Num.eqb x (Num.of_Z 4) then "4 - ok"
  else if Num.eqb x (Num.of_Z 6) then "6 - not ok"
  else Num.NumberToString x.

(** A string no numeric literal can be: its first character is neither
    white space, nor a digit, nor a sign, nor a point, nor the [I] of
    [Infinity]. *)
Definition not_numeric (s : string) : bool :=
  match s with
  | String c _ =>
      negb (is_whitespace c || Str.is_digit c
            || existsb (Ascii.eqb c) ["+"; "-"; "."; "I"]%char)
  | EmptyString => false
  end.

(** *** The text of the status tables *)

(** The text a cell shows for a value of the data model: nothing for a
    missing value, a string as it is, a number or a boolean in its string
    form. *)
Definition display_text (v : value) : string :=
  match v with
  | VStr s => s
  | VNum x => Num.NumberToString x
  | VBool b => if b then "true" else "false"
  | _ => ""
  end.




(** The cells of the Status History row of an event of a team. *)
Definition HistoryCellsSpec (te : string * value) (cs : list cell) : Prop :=
  exists ts ls sc : value,
    map text cs = [te.1; display_text ts; display_text (field_of te.2 Js.location);
                   display_text ls; display_text (field_of te.2 Js.transit);
                   display_text sc] /\
    formatTimestamp (field_of te.2 Js.timestamp) = Ok ts /\
    formatLocationStatus (field_of te.2 Js.location_status) = Ok ls /\
    formatStatusCode (field_of te.2 Js.status_code) = Ok sc.

(** Four teams, listed out of order: two events, one event, no event and
    a [null] history; a location for two of them, one of these empty. *)
Definition roster_snapshot : value :=
  obj [("status_by_team",
        obj [("bravo",
              VArr [sample_event;
                    obj [("timestamp", VStr "20240102T030405Z");
                         ("location", VStr "Ridge");
                         ("location_status", VStr "percentage 75% done");
                         ("transit", VStr "foot");
                         ("status_code", VStr "6")]]);
             ("alpha",
              VArr [obj [("timestamp", VStr "yesterday");
                         ("location", VStr "Camp");
                         ("location_status", num 0);
                         ("transit", num 12);
                         ("status_code", num 7)]]);
             ("Charlie", VArr []);
             ("delta", VNull)]);
       ("location_by_team", obj [("alpha", VStr "HQ"); ("bravo", VStr "")]);
       ("transmissions", VArr [])].

(** * Properties *)

Ltac Zify.zify_post_hook ::= Z.div_mod_to_equations.

(** ** Strings, the regular expression and dates *)

Section StrFacts.
Lemma chars_app a b : Str.chars (a +:+ b) = Str.chars a ++ Str.chars b.
Proof. induction a as [|c a IH]; simpl; [reflexivity|]. unfold Str.chars in *. simpl. by rewrite IH. Qed.

Lemma of_chars_app a b : Str.of_chars (a ++ b) = Str.of_chars a +:+ Str.of_chars b.
Proof. induction a as [|c a IH]; simpl; [reflexivity|]. unfold Str.of_chars in *. simpl. by rewrite IH. Qed.

Lemma chars_of_chars l : Str.chars (Str.of_chars l) = l.
Proof. apply list_ascii_of_string_of_list_ascii. Qed.

Lemma of_chars_chars s : Str.of_chars (Str.chars s) = s.
Proof. apply string_of_list_ascii_of_string. Qed.

Lemma chars_pad k n : Str.chars (Str.pad k n) = Str.digits k n.
Proof. apply chars_of_chars. Qed.

Lemma code_digit_char d : 0 <= d < 10 -> Str.code (Str.digit_char d) = 48 + d.
Proof.
  intros H. unfold Str.code, Str.digit_char.
  rewrite N_ascii_embedding; lia.
Qed.

Lemma is_digit_digit_char d : 0 <= d < 10 -> Str.is_digit (Str.digit_char d) = true.
Proof. intros H. unfold Str.is_digit. rewrite code_digit_char by done. lia. Qed.

Lemma digits_length k n : length (Str.digits k n) = k.
Proof. revert n. induction k as [|k IH]; intros n; simpl; [done|]. rewrite length_app, IH. simpl. lia. Qed.

Lemma digits_all_digit k n : Forall (fun c => Str.is_digit c = true) (Str.digits k n).
Proof.
  revert n. induction k as [|k IH]; intros n; simpl; [constructor|].
  apply Forall_app. split; [apply IH|]. constructor; [|constructor].
  apply is_digit_digit_char. apply Z.mod_pos_bound. lia.
Qed.
End StrFacts.

Section ReFacts.
Lemma group_digits ds rest :
  Forall (fun c => Str.is_digit c = true) ds ->
  Re.group (length ds) (ds ++ rest) = Some (Str.of_chars ds, rest).
Proof.
  induction 1 as [|c ds Hc _ IH]; simpl; [done|].
  by rewrite Hc, IH.
Qed.

Lemma group_pad k n rest :
  Re.group k (Str.digits k n ++ rest) = Some (Str.pad k n, rest).
Proof.
  pose proof (group_digits (Str.digits k n) rest (digits_all_digit k n)) as H.
  by rewrite digits_length in H.
Qed.

Lemma to_int_digits k n acc :
  fold_left (fun a c => a * 10 + Str.digit_value c) (Str.digits k n) acc
  = acc * 10 ^ Z.of_nat k + n mod 10 ^ Z.of_nat k.
Proof.
  revert n acc. induction k as [|k IH]; intros n acc.
  - simpl. rewrite Z.mod_1_r. lia.
  - cbn [Str.digits]. rewrite fold_left_app, IH. cbn [fold_left].
    unfold Str.digit_value. rewrite code_digit_char by (apply Z.mod_pos_bound; lia).
    rewrite Nat2Z.inj_succ, Z.pow_succ_r by lia.
    assert (H10 : 0 < 10 ^ Z.of_nat k) by (apply Z.pow_pos_nonneg; lia).
    rewrite (Z.rem_mul_r n 10 (10 ^ Z.of_nat k)) by lia.
    lia.
Qed.

Lemma to_int_pad k n : 0 <= n < 10 ^ Z.of_nat k -> Re.to_int (Str.pad k n) = n.
Proof.
  intros H. unfold Re.to_int. rewrite chars_pad, to_int_digits.
  rewrite Z.mod_small by lia. lia.
Qed.
End ReFacts.

Section ExecFacts.
Lemma exec_stamp y mo d h mi s :
  Re.exec (stamp y mo d h mi s) =
  Some [Str.pad 4 y; Str.pad 2 mo; Str.pad 2 d; Str.pad 2 h; Str.pad 2 mi; Str.pad 2 s].
Proof.
  unfold Re.exec, stamp.
  repeat rewrite chars_app. repeat rewrite chars_pad.
  rewrite group_pad. rewrite group_pad. rewrite group_pad.
  cbn [Str.chars list_ascii_of_string app Re.literal Ascii.eqb Bool.eqb].
  cbv iota beta.
  rewrite group_pad. rewrite group_pad. rewrite group_pad.
  reflexivity.
Qed.
End ExecFacts.

Section DateFacts.
Import Date.

Ltac floor_bounds :=
  repeat match goal with
  | |- context [ ?a / ?b ] =>
      let q := fresh "q" in
      pose proof (Z.mul_div_le a b ltac:(lia));
      pose proof (Z.mul_succ_div_gt a b ltac:(lia));
      set (q := a / b) in *; clearbody q
  end.

Lemma DayFromYear_bounds z :
  146097 * (z - 1970) - 1200 <= 400 * DayFromYear z <= 146097 * (z - 1970) + 1200.
Proof. unfold DayFromYear. floor_bounds. lia. Qed.

Lemma DayFromYear_succ z : DayFromYear (z + 1) = DayFromYear z + DaysInYear z.
Proof.
  unfold DayFromYear, DaysInYear, is_leap.
  repeat match goal with |- context [ ?a =? ?b ] => destruct (Z.eqb_spec a b) end;
    cbn [andb orb negb]; lia.
Qed.

Lemma DayFromYear_lt z : DayFromYear z < DayFromYear (z + 1).
Proof. rewrite DayFromYear_succ. unfold DaysInYear. destruct (is_leap z); lia. Qed.

Lemma DayFromYear_mono a b : a <= b -> DayFromYear a <= DayFromYear b.
Proof.
  intros H. replace b with (a + Z.of_nat (Z.to_nat (b - a))) by lia.
  induction (Z.to_nat (b - a)) as [|n IH]; [replace (a + Z.of_nat 0) with a by lia; lia|].
  rewrite Nat2Z.inj_succ. replace (a + Z.succ (Z.of_nat n)) with (a + Z.of_nat n + 1) by lia.
  pose proof (DayFromYear_lt (a + Z.of_nat n)). lia.
Qed.

Lemma YearFromDay_spec d :
  DayFromYear (YearFromDay d) <= d < DayFromYear (YearFromDay d + 1).
Proof.
  unfold YearFromDay.
  set (y := 1970 + 400 * d / 146097).
  assert (Hy : 146097 * (y - 1970) <= 400 * d < 146097 * (y - 1970) + 146097).
  { subst y. pose proof (Z.mul_div_le (400 * d) 146097 ltac:(lia)).
    pose proof (Z.mul_succ_div_gt (400 * d) 146097 ltac:(lia)). lia. }
  clearbody y.
  pose proof (DayFromYear_bounds (y - 1)). pose proof (DayFromYear_bounds (y + 2)).
  destruct (Z.leb_spec (DayFromYear (y + 1)) d);
    [replace (y + 1 + 1) with (y + 2) by lia; lia|].
  destruct (Z.leb_spec (DayFromYear y) d); [lia|].
  replace (y - 1 + 1) with y by lia. lia.
Qed.

Lemma YearFromDay_unique y d :
  DayFromYear y <= d < DayFromYear (y + 1) -> YearFromDay d = y.
Proof.
  intros H. pose proof (YearFromDay_spec d) as Hs.
  destruct (Z.lt_trichotomy (YearFromDay d) y) as [Hlt|[->|Hgt]]; [|done|].
  - pose proof (DayFromYear_mono (YearFromDay d + 1) y ltac:(lia)). lia.
  - pose proof (DayFromYear_mono (y + 1) (YearFromDay d) ltac:(lia)). lia.
Qed.
End DateFacts.

Section DateRoundTrip.
Import Date.

Ltac month_cases m :=
  let H := fresh "Hm" in
  assert (m = 1 \/ m = 2 \/ m = 3 \/ m = 4 \/ m = 5 \/ m = 6 \/ m = 7 \/
          m = 8 \/ m = 9 \/ m = 10 \/ m = 11 \/ m = 12) as H by lia;
  repeat (destruct H as [-> | H]); try subst m.

Ltac eval_days_before :=
  repeat match goal with
  | |- context [days_before ?a ?b] =>
      let v := eval vm_compute in (days_before a b) in
      change (days_before a b) with v
  end.

Lemma valid_day_range y mo d :
  1 <= mo <= 12 -> 1 <= d <= DaysInMonth y mo ->
  0 <= days_before (mo - 1) (leap_days y) + d - 1 < DaysInYear y.
Proof.
  intros Hmo. unfold DaysInYear, DaysInMonth, leap_days.
  destruct (is_leap y); month_cases mo; cbn; eval_days_before; lia.
Qed.

Lemma month_of_day y mo d :
  1 <= mo <= 12 -> 1 <= d <= DaysInMonth y mo ->
  let dd := days_before (mo - 1) (leap_days y) + d - 1 in
  let l := leap_days y in
  (if dd <? 31 then 0 else if dd <? 59 + l then 1 else if dd <? 90 + l then 2
   else if dd <? 120 + l then 3 else if dd <? 151 + l then 4
   else if dd <? 181 + l then 5 else if dd <? 212 + l then 6
   else if dd <? 243 + l then 7 else if dd <? 273 + l then 8
   else if dd <? 304 + l then 9 else if dd <? 334 + l then 10 else 11) = mo - 1.
Proof.
  intros Hmo. unfold DaysInMonth, leap_days.
  destruct (is_leap y); month_cases mo; cbn; eval_days_before; intros Hd;
    repeat match goal with |- context [ ?a <? ?b ] => destruct (Z.ltb_spec a b) end;
    lia.
Qed.

Lemma MakeTime_range h mi s :
  0 <= h <= 23 -> 0 <= mi <= 59 -> 0 <= s <= 59 ->
  0 <= MakeTime h mi s 0 < msPerDay.
Proof. unfold MakeTime, msPerDay, msPerHour, msPerMinute, msPerSecond. lia. Qed.

Lemma MakeDay_in_year y mo d :
  1 <= mo <= 12 ->
  MakeDay y (mo - 1) d = DayFromYear y + days_before (mo - 1) (leap_days y) + d - 1.
Proof.
  intros Hmo. unfold MakeDay, leap_days.
  replace ((mo - 1) / 12) with 0 by lia.
  replace ((mo - 1) mod 12) with (mo - 1) by lia.
  by rewrite Z.add_0_r.
Qed.

Variables y mo d h mi s : Z.
Hypothesis valid : valid_datetime y mo d h mi s.

Local Abbreviation t := (instant y mo d h mi s).

Lemma round_trip_Day : Day t = MakeDay y (mo - 1) d.
Proof.
  destruct valid as (_ & _ & _ & Hh & Hmi & Hs).
  pose proof (MakeTime_range h mi s Hh Hmi Hs) as Ht.
  unfold instant, Day, MakeDate. unfold msPerDay in *. lia.
Qed.

Lemma round_trip_year : YearFromTime t = y.
Proof.
  destruct valid as (_ & Hmo & Hd & _).
  unfold YearFromTime. rewrite round_trip_Day, MakeDay_in_year by done.
  apply YearFromDay_unique. rewrite DayFromYear_succ.
  pose proof (valid_day_range y mo d Hmo Hd). lia.
Qed.

Lemma round_trip_leap : InLeapYear t = leap_days y.
Proof. unfold InLeapYear. by rewrite round_trip_year. Qed.

Lemma round_trip_DayWithinYear :
  DayWithinYear t = days_before (mo - 1) (leap_days y) + d - 1.
Proof.
  destruct valid as (_ & Hmo & _).
  unfold DayWithinYear.
  rewrite round_trip_year, round_trip_Day, MakeDay_in_year by done. lia.
Qed.

Lemma round_trip_month : MonthFromTime t = mo - 1.
Proof.
  destruct valid as (_ & Hmo & Hd & _).
  unfold MonthFromTime. rewrite round_trip_DayWithinYear, round_trip_leap.
  by apply month_of_day.
Qed.

Lemma round_trip_date : DateFromTime t = d.
Proof.
  unfold DateFromTime.
  rewrite round_trip_month, round_trip_DayWithinYear, round_trip_leap. lia.
Qed.

Lemma round_trip_clock :
  HourFromTime t = h /\ MinFromTime t = mi /\
  SecFromTime t = s /\ msFromTime t = 0.
Proof.
  destruct valid as (_ & _ & _ & Hh & Hmi & Hs).
  unfold HourFromTime, MinFromTime, SecFromTime, msFromTime, instant, MakeDate,
    MakeTime, msPerDay, msPerHour, msPerMinute, msPerSecond.
  generalize (MakeDay y (mo - 1) d). intros D. lia.
Qed.

Lemma round_trip_clip : TimeClip t = Some t.
Proof.
  unfold TimeClip.
  destruct (Z.ltb_spec 8640000000000000 (Z.abs t)) as [H|H]; [|done].
  exfalso. revert H. destruct valid as (Hy & Hmo & Hd & Hh & Hmi & Hs).
  unfold instant, MakeDate. rewrite MakeDay_in_year by done.
  pose proof (MakeTime_range h mi s Hh Hmi Hs).
  pose proof (valid_day_range y mo d Hmo Hd).
  pose proof (DayFromYear_bounds y).
  unfold DaysInYear, msPerDay in *.
  destruct (is_leap y); lia.
Qed.
End DateRoundTrip.

Section ReplaceFacts.
Lemma replace_first_digits c b ds rest :
  Forall (fun a => Str.is_digit a = true) ds -> Str.is_digit c = false ->
  Str.replace_first c b (Str.of_chars ds +:+ rest)
  = Str.of_chars ds +:+ Str.replace_first c b rest.
Proof.
  intros Hds Hc. induction Hds as [|a ds Ha _ IH]; [done|].
  change (Str.of_chars (a :: ds) +:+ rest) with (String a (Str.of_chars ds +:+ rest)).
  cbn [Str.replace_first].
  destruct (Ascii.eqb_spec a c) as [->|_]; [congruence|].
  by rewrite IH.
Qed.

Lemma replace_first_pad c b k n rest :
  Str.is_digit c = false ->
  Str.replace_first c b (Str.pad k n +:+ rest)
  = Str.pad k n +:+ Str.replace_first c b rest.
Proof. intros. apply replace_first_digits; [apply digits_all_digit|done]. Qed.

Lemma replace_first_skip c b a rest :
  Ascii.eqb a c = false ->
  Str.replace_first c b (String a "" +:+ rest)
  = String a "" +:+ Str.replace_first c b rest.
Proof.
  intros H. change (String a "" +:+ rest) with (String a rest).
  cbn [Str.replace_first]. by rewrite H.
Qed.

Lemma replace_first_hit c b rest :
  Str.replace_first c b (String c "" +:+ rest) = b +:+ rest.
Proof.
  change (String c "" +:+ rest) with (String c rest).
  cbn [Str.replace_first]. by rewrite Ascii.eqb_refl.
Qed.
End ReplaceFacts.

Lemma DaysInMonth_le y m : DaysInMonth y m <= 31.
Proof. unfold DaysInMonth. repeat case_match; lia. Qed.

(** C1, amended.  For every input [YYYYMMDDTHHMMSSZ] whose fields are a
    calendar date from year 0100 on and a time of day, [formatTimestamp]
    returns [YYYY-MM-DD HH:MM:SS.000 UTC] with the same fields: the
    milliseconds are part of the rendering. *)
Theorem formatTimestamp_valid (y mo d h mi s : Z) :
  valid_datetime y mo d h mi s ->
  formatTimestamp (VStr (stamp y mo d h mi s)) = Ok (VStr (rendering y mo d h mi s)).
Proof.
  intros Hv.
  assert (Hne : Js.ToBoolean (VStr (stamp y mo d h mi s)) = true).
  { unfold Js.ToBoolean, stamp. destruct (String.eqb_spec (Str.pad 4 y +:+ Str.pad 2 mo +:+ Str.pad 2 d +:+ "T" +:+
  Str.pad 2 h +:+ Str.pad 2 mi +:+ Str.pad 2 s +:+ "Z") "") as [E|]; [|done].
    apply (f_equal Str.chars) in E. rewrite chars_app, chars_pad in E.
    apply (f_equal (@length _)) in E. rewrite length_app, digits_length in E. 
    simpl in E. lia. }
  unfold formatTimestamp. rewrite Hne. cbn [negb].
  rewrite exec_stamp.
  destruct Hv as (Hy & Hmo & Hd & Hh & Hmi & Hs).
  assert (Hd31 : d <= 31).
  { pose proof (DaysInMonth_le y mo). lia. }
  rewrite (to_int_pad 4 y), (to_int_pad 2 mo), (to_int_pad 2 d), (to_int_pad 2 h),
    (to_int_pad 2 mi), (to_int_pad 2 s) by (simpl; lia).
  unfold Date.UTC, Date.MakeFullYear.
  replace ((0 <=? y) && (y <=? 99)) with false by lia.
  fold (instant y mo d h mi s).
  assert (Hv : valid_datetime y mo d h mi s) by (repeat split; lia).
  rewrite (round_trip_clip _ _ _ _ _ _ Hv).
  unfold Date.toISOString.
  rewrite (round_trip_year _ _ _ _ _ _ Hv), (round_trip_month _ _ _ _ _ _ Hv),
    (round_trip_date _ _ _ _ _ _ Hv).
  destruct (round_trip_clock _ _ _ _ _ _ Hv) as (-> & -> & -> & ->).
  unfold Date.year_string. replace ((0 <=? y) && (y <=? 9999)) with true by lia.
  replace (mo - 1 + 1) with mo by lia.
  cbn [rbind]. unfold rendering.
  repeat first [ rewrite (replace_first_pad "T") by done
               | rewrite (replace_first_skip "T") by done ].
  rewrite (replace_first_hit "T").
  change (" " +:+ ?x) with (String " " "" +:+ x).
  repeat first [ rewrite (replace_first_pad "Z") by done
               | rewrite (replace_first_skip "Z") by done ].
  reflexivity.
Qed.

Lemma formatTimestamp_valid_witness :
  valid_datetime 2024 1 15 13 30 0 /\
  formatTimestamp (VStr "20240115T133000Z")
  = Ok (VStr "2024-01-15 13:30:00.000 UTC").
Proof.
  assert (H : valid_datetime 2024 1 15 13 30 0).
  { unfold valid_datetime. cbn. lia. }
  split; [exact H|]. exact (formatTimestamp_valid 2024 1 15 13 30 0 H).
Defined.

(** The input of the specification is rendered with its milliseconds; a
    year below 100 is read as a year of the twentieth century, and a month
    13 carries into the next year. *)
Lemma formatTimestamp_keeps_milliseconds :
  formatTimestamp (VStr "20240115T133000Z")
  = Ok (VStr "2024-01-15 13:30:00.000 UTC") /\
  formatTimestamp (VStr "20240115T133000Z")
  <> Ok (VStr "2024-01-15 13:30:00 UTC") /\
  formatTimestamp (VStr "00500101T000000Z")
  = Ok (VStr "1950-01-01 00:00:00.000 UTC") /\
  formatTimestamp (VStr "20241301T000000Z")
  = Ok (VStr "2025-01-01 00:00:00.000 UTC").
Proof.
  refine (conj _ (conj _ (conj _ _))); try (vm_compute; reflexivity).
  vm_compute. discriminate.
Qed.

Section PatternFacts.
Lemma group_Some n l g r :
  Re.group n l = Some (g, r) ->
  exists ds, l = ds ++ r /\ length ds = n /\
             Forall (fun c => Str.is_digit c = true) ds /\ g = Str.of_chars ds.
Proof.
  revert l g r. induction n as [|n IH]; intros l g r H.
  - cbn in H. simplify_eq. by exists [].
  - destruct l as [|c l]; [done|]. cbn in H.
    destruct (Str.is_digit c) eqn:Hc; [|done].
    destruct (Re.group n l) as [[g' r']|] eqn:Hg; [|done]. simplify_eq.
    destruct (IH _ _ _ Hg) as (ds & -> & <- & Hds & ->).
    exists (c :: ds). repeat split; auto.
Qed.

Lemma literal_Some c l r : Re.literal c l = Some r -> l = c :: r.
Proof.
  destruct l as [|a l]; [done|]. cbn.
  destruct (Ascii.eqb_spec a c) as [->|]; [|done]. by intros [= ->].
Qed.

Lemma exec_Some_pattern s gs : Re.exec s = Some gs -> matches_pattern s = true.
Proof.
  unfold Re.exec, matches_pattern. generalize (Str.chars s). intros l H.
  destruct (Re.group 4 l) as [[g1 l1]|] eqn:H1; [|done].
  destruct (Re.group 2 l1) as [[g2 l2]|] eqn:H2; [|done].
  destruct (Re.group 2 l2) as [[g3 l3]|] eqn:H3; [|done].
  destruct (Re.literal "T" l3) as [l4|] eqn:H4; [|done].
  destruct (Re.group 2 l4) as [[g4 l5]|] eqn:H5; [|done].
  destruct (Re.group 2 l5) as [[g5 l6]|] eqn:H6; [|done].
  destruct (Re.group 2 l6) as [[g6 l7]|] eqn:H7; [|done].
  destruct (Re.literal "Z" l7) as [[|? ?]|] eqn:H8; [|done..].
  apply group_Some in H1 as (d1 & -> & L1 & F1 & _).
  apply group_Some in H2 as (d2 & -> & L2 & F2 & _).
  apply group_Some in H3 as (d3 & -> & L3 & F3 & _).
  apply literal_Some in H4 as ->.
  apply group_Some in H5 as (d4 & -> & L4 & F4 & _).
  apply group_Some in H6 as (d5 & -> & L5 & F5 & _).
  apply group_Some in H7 as (d6 & -> & L6 & F6 & _).
  apply literal_Some in H8 as ->.
  repeat match goal with
  | L : length ?d = _ |- _ =>
      (destruct d as [|? [|? [|? [|? [|? ?]]]]]; try discriminate L); clear L
  end.
  cbn [app].
  repeat match goal with
  | F : Forall _ (_ :: _) |- _ => apply Forall_cons_1 in F as [? F]
  | F : Forall _ [] |- _ => clear F
  end.
  cbn [forallb]. 
  repeat match goal with E : Str.is_digit _ = true |- _ => rewrite E; clear E end.
  reflexivity.
Qed.

Lemma pattern_exec_Some s :
  matches_pattern s = true -> exists gs, Re.exec s = Some gs.
Proof.
  unfold Re.exec, matches_pattern. generalize (Str.chars s). intros l.
  do 16 (destruct l as [|? l]; [discriminate|]).
  destruct l; [|discriminate].
  cbn [forallb]. intros H.
  repeat match goal with
  | H : _ && _ = true |- _ => apply andb_prop in H as [? ?]
  end.
  repeat match goal with
  | E : Ascii.eqb _ _ = true |- _ => apply Ascii.eqb_eq in E as ->
  end.
  repeat first
    [ match goal with
      | E : Str.is_digit ?c = true |- context [Str.is_digit ?c] => rewrite E
      end
    | progress cbn ].
  eauto.
Qed.

Lemma exec_matches_pattern s :
  matches_pattern s = false <-> Re.exec s = None.
Proof.
  split; intros H.
  - destruct (Re.exec s) as [gs|] eqn:E; [|done].
    apply exec_Some_pattern in E. congruence.
  - destruct (matches_pattern s) eqn:E; [|done].
    apply pattern_exec_Some in E as [gs E]. congruence.
Qed.
End PatternFacts.

Section TimestampTotal.
Import Date.

Lemma to_int_bound ds acc :
  Forall (fun c => Str.is_digit c = true) ds -> 0 <= acc ->
  acc * 10 ^ Z.of_nat (length ds)
  <= fold_left (fun a c => a * 10 + Str.digit_value c) ds acc
  < (acc + 1) * 10 ^ Z.of_nat (length ds).
Proof.
  intros H. revert acc. induction H as [|c ds Hc _ IH]; intros acc Hacc.
  - cbn. lia.
  - cbn [fold_left length]. rewrite Nat2Z.inj_succ, Z.pow_succ_r by lia.
    assert (0 <= Str.digit_value c <= 9).
    { unfold Str.is_digit, Str.digit_value in *. lia. }
    specialize (IH (acc * 10 + Str.digit_value c) ltac:(lia)).
    assert (0 < 10 ^ Z.of_nat (length ds)) by (apply Z.pow_pos_nonneg; lia).
    nia.
Qed.

Lemma group_to_int n l g r :
  Re.group n l = Some (g, r) -> 0 <= Re.to_int g < 10 ^ Z.of_nat n.
Proof.
  intros H. apply group_Some in H as (ds & _ & <- & Hds & ->).
  unfold Re.to_int. rewrite chars_of_chars.
  pose proof (to_int_bound ds 0 Hds ltac:(lia)). lia.
Qed.

Lemma exec_Some_groups s gs :
  Re.exec s = Some gs ->
  exists g1 g2 g3 g4 g5 g6,
    gs = [g1; g2; g3; g4; g5; g6] /\
    0 <= Re.to_int g1 < 10000 /\ 0 <= Re.to_int g2 < 100 /\
    0 <= Re.to_int g3 < 100 /\ 0 <= Re.to_int g4 < 100 /\
    0 <= Re.to_int g5 < 100 /\ 0 <= Re.to_int g6 < 100.
Proof.
  unfold Re.exec. generalize (Str.chars s). intros l H.
  destruct (Re.group 4 l) as [[g1 l1]|] eqn:H1; [|done].
  destruct (Re.group 2 l1) as [[g2 l2]|] eqn:H2; [|done].
  destruct (Re.group 2 l2) as [[g3 l3]|] eqn:H3; [|done].
  destruct (Re.literal "T" l3) as [l4|] eqn:H4; [|done].
  destruct (Re.group 2 l4) as [[g4 l5]|] eqn:H5; [|done].
  destruct (Re.group 2 l5) as [[g5 l6]|] eqn:H6; [|done].
  destruct (Re.group 2 l6) as [[g6 l7]|] eqn:H7; [|done].
  destruct (Re.literal "Z" l7) as [[|? ?]|] eqn:H8; [|done..].
  simplify_eq. exists g1, g2, g3, g4, g5, g6. split; [done|].
  apply group_to_int in H1, H2, H3, H5, H6, H7.
  change (10 ^ Z.of_nat 4) with 10000 in *.
  change (10 ^ Z.of_nat 2) with 100 in *. done.
Qed.

Lemma days_before_range m l : 0 <= l <= 1 -> 0 <= days_before m l <= 366.
Proof. intros H. unfold days_before. repeat case_match; lia. Qed.

Lemma UTC_in_range y mo d h mi s :
  0 <= y < 10000 -> 0 <= mo < 100 -> 0 <= d < 100 ->
  0 <= h < 100 -> 0 <= mi < 100 -> 0 <= s < 100 ->
  exists t, UTC y (mo - 1) d h mi s = Some t.
Proof.
  intros Hy Hmo Hd Hh Hmi Hs. unfold UTC, TimeClip.
  match goal with |- context [Z.abs ?x] => set (t := x) end.
  destruct (Z.ltb_spec 8640000000000000 (Z.abs t)) as [H|H]; [|by eexists].
  exfalso. revert H. subst t. unfold MakeDate, MakeDay, MakeTime.
  set (ym := MakeFullYear y + (mo - 1) / 12).
  assert (-1 <= ym <= 10007).
  { subst ym. unfold MakeFullYear. case_match; lia. }
  pose proof (DayFromYear_bounds ym).
  pose proof (days_before_range ((mo - 1) mod 12) (if is_leap ym then 1 else 0)
                ltac:(destruct (is_leap ym); lia)).
  unfold msPerDay, msPerHour, msPerMinute, msPerSecond. lia.
Qed.

Lemma formatTimestamp_string s :
  exists r, formatTimestamp (VStr s) = Ok (VStr r).
Proof.
  unfold formatTimestamp. destruct (Js.ToBoolean (VStr s)); cbn [negb]; [|by eexists].
  destruct (Re.exec s) as [gs|] eqn:E; [|by eexists].
  apply exec_Some_groups in E as (g1 & g2 & g3 & g4 & g5 & g6 & -> & B1 & B2 & B3 & B4 & B5 & B6).
  destruct (UTC_in_range _ _ _ _ _ _ B1 B2 B3 B4 B5 B6) as [t ->].
  cbn. by eexists.
Qed.
End TimestampTotal.


(** [+g] on a captured group is its decimal value: the conversion of the
    engine and [Re.to_int] agree on every group the expression can capture. *)
Lemma captured_group_value_all :
  forallb (fun n => bool_decide (Num.StringToNumber (Str.pad 4 n) = Num.of_Z n)
                    && bool_decide (Num.StringToNumber (Str.pad 2 (n mod 100)) = Num.of_Z (n mod 100)))
          (seqZ 0 10000) = true.
Proof. vm_compute. reflexivity. Qed.

Lemma captured_group_value k n :
  (k = 2%nat \/ k = 4%nat) -> 0 <= n < 10 ^ Z.of_nat k ->
  Num.StringToNumber (Str.pad k n) = Num.of_Z (Re.to_int (Str.pad k n)).
Proof.
  intros Hk Hn. rewrite to_int_pad by done.
  pose proof captured_group_value_all as H.
  rewrite forallb_forall in H.
  destruct Hk as [-> | ->].
  - specialize (H n). rewrite <- list_elem_of_In, elem_of_seqZ in H.
    change (10 ^ Z.of_nat 2) with 100 in Hn.
    specialize (H ltac:(lia)). apply andb_prop in H as [_ H].
    apply bool_decide_eq_true in H. by rewrite Z.mod_small in H by lia.
  - specialize (H n). rewrite <- list_elem_of_In, elem_of_seqZ in H.
    change (10 ^ Z.of_nat 4) with 10000 in Hn.
    specialize (H ltac:(lia)). apply andb_prop in H as [H _].
    by apply bool_decide_eq_true in H.
Qed.

(** C2, amended.  For every string that does not match the pattern
    [formatTimestamp] returns the string itself, and for every falsy value
    ([null], [undefined], the empty string, zero, [NaN], [false]) it
    returns the empty string; in neither case does it throw. *)
Theorem formatTimestamp_passthrough (s : string) (v : value)
  (Hs : matches_pattern s = false) (Hv : Js.ToBoolean v = false) :
  formatTimestamp (VStr s) = Ok (VStr s) /\ formatTimestamp v = Ok (VStr "").
Proof.
  split.
  - unfold formatTimestamp. apply exec_matches_pattern in Hs. rewrite Hs.
    destruct (Js.ToBoolean (VStr s)) eqn:E; cbn [negb]; [done|].
    cbn in E. destruct (String.eqb_spec s ""); [by subst|done].
  - unfold formatTimestamp. by rewrite Hv.
Qed.

Lemma formatTimestamp_passthrough_witness :
  formatTimestamp (VStr "not-a-date") = Ok (VStr "not-a-date") /\
  formatTimestamp VNull = Ok (VStr "").
Proof. apply formatTimestamp_passthrough; reflexivity. Defined.

(** A truthy value that is not a string has no method [match]. *)
Lemma formatTimestamp_non_string (v : value) :
  Js.ToBoolean v = true -> Js.typeof_string v = false ->
  formatTimestamp v = Throw TypeError.
Proof. intros Hb Ht. unfold formatTimestamp. rewrite Hb. by destruct v. Qed.

(** [null] comes back as the empty string, and a number that is not zero
    has no method [match]. *)
Lemma formatTimestamp_null_and_number :
  matches_pattern "" = false /\
  formatTimestamp VNull = Ok (VStr "") /\
  formatTimestamp VNull <> Ok VNull /\
  formatTimestamp (num 5) = Throw TypeError.
Proof.
  refine (conj _ (conj _ (conj _ _))); try (vm_compute; reflexivity).
  discriminate.
Qed.
(** ** [formatStatusCode] and [formatLocationStatus] *)

Section Conversions.
Lemma eqb_not_NaN n x : Num.eqb n x = true -> Num.isNaN n = false.
Proof. by destruct n. Qed.

Lemma eqb_finite_inj n s ma mb e :
  SFeqb n (S754_finite s ma e) = true ->
  SFeqb n (S754_finite s mb e) = true -> ma = mb.
Proof.
  unfold SFeqb. destruct n as [s'|s'| |s' m e']; cbn [SFcompare].
  - destruct s; discriminate.
  - destruct s'; discriminate.
  - discriminate.
  - destruct s', s; try discriminate;
      (destruct (Z.compare e' e); try discriminate;
       destruct (PosDef.Pos.compare_cont Eq m ma) eqn:E1; try discriminate;
       destruct (PosDef.Pos.compare_cont Eq m mb) eqn:E2; try discriminate;
       apply Pos.compare_eq in E1, E2; congruence).
Qed.
Lemma four_is_not_six n :
  Num.eqb n (Num.of_Z 4) = true -> Num.eqb n (Num.of_Z 6) = false.
Proof.
  intros H4. destruct (Num.eqb n (Num.of_Z 6)) eqn:H6; [|done].
  exfalso. unfold Num.eqb in *.
  assert (E4 : Num.of_Z 4 = S754_finite false 4503599627370496 (-50)) by (vm_compute; reflexivity).
  assert (E6 : Num.of_Z 6 = S754_finite false 6755399441055744 (-50)) by (vm_compute; reflexivity).
  rewrite E4 in H4. rewrite E6 in H6.
  pose proof (eqb_finite_inj _ _ _ _ _ H4 H6) as E.
  assert (N : Pos.eqb 4503599627370496 6755399441055744 = false) by (vm_compute; reflexivity).
  rewrite E, Pos.eqb_refl in N. discriminate N.
Qed.

Lemma ToNumber_ToString v n :
  Js.ToNumber v = Ok n -> exists s, Js.ToString v = Ok s.
Proof.
  destruct v; cbn [Js.ToNumber]; intros H; try (by eexists).
  - destruct (Js.ToString (VArr l)); [by eexists|done].
  - destruct (Js.ToString (VObj o)); [by eexists|done].
Qed.

Lemma empty_or_null_test v :
  empty_or_null v <-> Js.is_nullish v || Js.is_empty_string v = true.
Proof.
  unfold empty_or_null. split.
  - by intros [-> | [-> | ->]].
  - destruct v; cbn; try done; auto.
    destruct (String.eqb_spec s ""); [subst; auto|done].
Qed.
End Conversions.

Example formatStatusCode_examples :
  formatStatusCode (num 4) = Ok (VStr "4 - ok") /\
  formatStatusCode (num 6) = Ok (VStr "6 - not ok") /\
  formatStatusCode (num 7) = Ok (VStr "7") /\
  formatStatusCode (VStr "") = Ok (VStr "") /\
  formatStatusCode VNull = Ok (VStr "") /\
  formatStatusCode (VStr "4") = Ok (VStr "4 - ok") /\
  formatStatusCode (VStr "n/a") = Ok (VStr "n/a").
Proof. repeat split; reflexivity. Qed.
Section SplitFacts.
Lemma split_chars_head sep cur l :
  exists tl,
    Str.split_chars sep cur l = Str.of_chars (rev cur ++ up_to sep l) :: tl.
Proof.
  revert cur. induction l as [|c l IH]; intros cur; cbn [Str.split_chars up_to].
  - exists []. by rewrite app_nil_r.
  - destruct (Ascii.eqb c sep).
    + eexists. by rewrite app_nil_r.
    + destruct (IH (c :: cur)) as [tl ->]. exists tl.
      cbn [rev]. by rewrite <- app_assoc.
Qed.

Lemma split_percentage rest :
  exists tl,
    Str.split " " ("percentage " +:+ rest) = "percentage" :: second_piece rest :: tl.
Proof.
  unfold Str.split. rewrite chars_app.
  destruct (split_chars_head " " [] (Str.chars rest)) as [tl Htl].
  exists tl. cbn. by rewrite Htl.
Qed.

Lemma startsWith_app p rest : Str.startsWith (p +:+ rest) p = true.
Proof.
  unfold Str.startsWith. induction p as [|c p IH].
  - change ("" +:+ rest) with rest. by destruct rest.
  - change (String c p +:+ rest) with (String c (p +:+ rest)).
    cbn [String.prefix]. destruct (ascii_dec c c); [done|congruence].
Qed.
End SplitFacts.

(** C5, amended.  [formatLocationStatus] gives the empty string for a falsy
    input other than the number zero and ["0"] for the number zero; for a
    string that starts with ["percentage "] it gives the text between that
    first space and the next space (or the end), and the whole string when
    that text is empty; any other string is returned as it is and any other
    value in its string form. *)
Theorem formatLocationStatus_spec (ls : value) :
  (Js.ToBoolean ls = false -> Js.is_number_zero ls = false ->
   formatLocationStatus ls = Ok (VStr "")) /\
  (Js.is_number_zero ls = true -> formatLocationStatus ls = Ok (VStr "0")) /\
  (forall rest, ls = VStr ("percentage " +:+ rest) ->
   formatLocationStatus ls =
   Ok (VStr (if String.eqb (second_piece rest) "" then "percentage " +:+ rest
             else second_piece rest))) /\
  (forall s, ls = VStr s -> s <> "" -> Str.startsWith s "percentage " = false ->
   formatLocationStatus ls = Ok (VStr s)) /\
  (forall s, Js.typeof_string ls = false -> Js.ToBoolean ls = true ->
   Js.ToString ls = Ok s -> formatLocationStatus ls = Ok (VStr s)).
Proof.
  unfold formatLocationStatus. repeat split.
  - by intros -> ->.
  - intros H. rewrite H, andb_false_r.
    destruct ls as [| | |x| | |]; try discriminate H.
    destruct x as [s|s| |s m e]; [reflexivity|exfalso..];
      revert H; unfold Js.is_number_zero, Num.eqb, SFeqb;
      change (Num.of_Z 0) with (S754_zero false); cbn [SFcompare];
      try destruct s; discriminate.
  - intros rest ->.
    assert (Js.ToBoolean (VStr ("percentage " +:+ rest)) = true) as -> by done.
    cbn [negb andb]. rewrite startsWith_app.
    destruct (split_percentage rest) as [tl ->].
    by destruct (String.eqb (second_piece rest) "").
  - intros s -> Hs Hp. rewrite Hp.
    assert (Js.ToBoolean (VStr s) = true) as ->; [|done].
    cbn. by destruct (String.eqb_spec s "").
  - intros s Ht Hb Hs. rewrite Hb. cbn [negb andb].
    destruct ls; try discriminate Ht; by rewrite Hs.
Qed.

Lemma formatLocationStatus_spec_witness :
  formatLocationStatus (VStr "percentage 60%") = Ok (VStr "60%") /\
  formatLocationStatus (VStr "percentage") = Ok (VStr "percentage") /\
  formatLocationStatus VNull = Ok (VStr "") /\
  formatLocationStatus (num 0) = Ok (VStr "0") /\
  formatLocationStatus (num 12) = Ok (VStr "12").
Proof.
  refine (conj _ (conj _ (conj _ (conj _ _)))).
  - exact (proj1 (proj2 (proj2 (formatLocationStatus_spec _))) "60%" eq_refl).
  - apply (proj1 (proj2 (proj2 (proj2 (formatLocationStatus_spec _)))) _ eq_refl);
      [discriminate|reflexivity].
  - apply (proj1 (formatLocationStatus_spec _)); reflexivity.
  - apply (proj1 (proj2 (formatLocationStatus_spec _))); reflexivity.
  - apply (proj2 (proj2 (proj2 (proj2 (formatLocationStatus_spec _))))); reflexivity.
Defined.

(** The input ["percentage 60%<TAB>ok"]: its second whitespace-delimited
    token is ["60%"], but the result keeps everything up to the next
    space. *)
Lemma formatLocationStatus_not_whitespace_token :
  ws_tokens ("percentage 60%" +:+ String tab "ok")
  = ["percentage"; "60%"; "ok"] /\
  formatLocationStatus (VStr ("percentage 60%" +:+ String tab "ok"))
  = Ok (VStr ("60%" +:+ String tab "ok")) /\
  formatLocationStatus (VStr ("percentage 60%" +:+ String tab "ok"))
  <> Ok (VStr "60%").
Proof. refine (conj _ (conj _ _)); [reflexivity..|discriminate]. Qed.
(** ** Loops and the table builder *)

Section Loops.
Context {A B : Type} (f : A -> result B).

Lemma forEach_push_ok l rows acc :
  mapM f l = Ok rows -> forEach (push_each f) l acc = (acc ++ rows, Ok tt).
Proof.
  revert rows acc. induction l as [|a l IH]; intros rows acc H; cbn in H.
  - simplify_eq. cbn. by rewrite app_nil_r.
  - destruct (f a) as [b|] eqn:Ha; [|done]. cbn in H.
    destruct (mapM f l) as [bs|] eqn:Hl; [|done]. cbn in H. simplify_eq.
    cbn [forEach]. unfold bind, push_each at 1, bind, lift, push, modify.
    rewrite Ha. rewrite (IH bs) by done. by rewrite <- app_assoc.
Qed.

Lemma forEach_push_throw l e acc :
  mapM f l = Throw e -> exists acc', forEach (push_each f) l acc = (acc', Throw e).
Proof.
  revert acc. induction l as [|a l IH]; intros acc H; cbn in H; [done|].
  cbn [forEach]. unfold bind, push_each at 1, bind, lift, push, modify.
  destruct (f a) as [b|] eqn:Ha.
  - cbn in H. destruct (mapM f l) as [bs|] eqn:Hl; [done|]. cbn in H.
    simplify_eq. apply IH. done.
  - cbn in H. simplify_eq. by eexists.
Qed.

(** The loop stops at the first element whose row cannot be built and
    keeps the rows pushed before. *)
Lemma forEach_push_prefix pre a post rows e acc :
  mapM f pre = Ok rows -> f a = Throw e ->
  forEach (push_each f) (pre ++ a :: post) acc = (acc ++ rows, Throw e).
Proof.
  revert rows acc. induction pre as [|x pre IH]; intros rows acc H Ha; cbn in H.
  - simplify_eq. cbn [app forEach]. unfold bind, push_each at 1, bind, lift.
    rewrite Ha. by rewrite app_nil_r.
  - destruct (f x) as [b|] eqn:Hx; [|done]. cbn in H.
    destruct (mapM f pre) as [bs|] eqn:Hl; [|done]. cbn in H. simplify_eq.
    cbn [app forEach]. unfold bind, push_each at 1, bind, lift, push, modify.
    rewrite Hx. rewrite (IH bs) by done. by rewrite <- app_assoc.
Qed.

Lemma mapM_app l1 l2 r1 r2 :
  mapM f l1 = Ok r1 -> mapM f l2 = Ok r2 -> mapM f (l1 ++ l2) = Ok (r1 ++ r2).
Proof.
  revert r1. induction l1 as [|a l1 IH]; intros r1 H1 H2; cbn in *.
  - by simplify_eq.
  - destruct (f a); [|done]. cbn in *.
    destruct (mapM f l1) eqn:E; [|done]. cbn in *. simplify_eq.
    by rewrite (IH _ eq_refl H2).
Qed.

Lemma mapM_length l rows : mapM f l = Ok rows -> length rows = length l.
Proof.
  revert rows. induction l as [|a l IH]; intros rows H; cbn in H.
  - by simplify_eq.
  - destruct (f a); [|done]. cbn in H.
    destruct (mapM f l) eqn:E; [|done]. cbn in H. simplify_eq.
    cbn. by rewrite (IH _ eq_refl).
Qed.

Lemma mapM_Forall2 l rows :
  mapM f l = Ok rows -> Forall2 (fun a b => f a = Ok b) l rows.
Proof.
  revert rows. induction l as [|a l IH]; intros rows H; cbn in H.
  - simplify_eq. constructor.
  - destruct (f a) eqn:Ea; [|done]. cbn in H.
    destruct (mapM f l) eqn:E; [|done]. cbn in H. simplify_eq.
    constructor; auto.
Qed.

Lemma mapM_total l :
  Forall (fun a => exists b, f a = Ok b) l -> exists rows, mapM f l = Ok rows.
Proof.
  induction 1 as [|a l [b Hb] _ [rows IH]]; cbn; [by eexists|].
  rewrite Hb, IH. cbn. by eexists.
Qed.
End Loops.

Section TableBuilder.
Lemma set_children_twice c x y d :
  set_children c x (set_children c y d) = set_children c x d.
Proof. by destruct c. Qed.

Lemma children_set c x d : children c (set_children c x d) = x.
Proof. by destruct c. Qed.

(** [makeTable] empties the container and, when every cell can be
    rendered, leaves exactly the new table in it. *)
Lemma makeTable_eq c h rows w :
  makeTable c h rows w =
  match cells rows with
  | Ok b => (with_doc w (set_children c [table_of h b] (doc w)), Ok tt)
  | Throw e => (with_doc w (set_children c [] (doc w)), Throw e)
  end.
Proof.
  unfold makeTable, bind, update_doc, modify, lift, cells.
  destruct (mapM (mapM make_cell) rows); cbn; [|done].
  unfold with_doc. cbn. by rewrite children_set, set_children_twice.
Qed.
End TableBuilder.
(** ** The phases of [renderState] *)

Section Phases.
Lemma truthy_Get data f :
  Js.ToBoolean data = true -> Js.Get data f = Ok (match data with
                                                  | VObj o => default VUndefined (o !! Js.field_name f)
                                                  | _ => VUndefined end).
Proof. by destruct data. Qed.

Lemma truthy_keys v : Js.ToBoolean v = true -> exists ks, Js.keys v = Ok ks.
Proof. destruct v; cbn; try done; by eexists. Qed.

Lemma or_else_truthy v d : Js.ToBoolean d = true -> Js.ToBoolean (or_else v d) = true.
Proof. intros H. unfold or_else. by destruct (Js.ToBoolean v) eqn:E. Qed.

Lemma status_of_truthy data : Js.ToBoolean (status_of data) = true.
Proof. unfold status_of. destruct (Js.Get data Js.status_by_team); [|done]. by apply or_else_truthy. Qed.

Lemma current_loop_eq data :
  match current_rows data with
  | Ok rows => current_loop (status_of data) (locs_of data) (sorted_teams data) [] = (rows, Ok tt)
  | Throw e => exists acc, current_loop (status_of data) (locs_of data) (sorted_teams data) [] = (acc, Throw e)
  end.
Proof.
  unfold current_rows, current_loop.
  destruct (mapM _ _) eqn:E.
  - by rewrite (forEach_push_ok _ _ _ [] E).
  - by apply forEach_push_throw.
Qed.

(** [renderState] as the sequence of its phases. *)
Lemma renderState_phases now data w :
  renderState now data w =
  if negb (Js.ToBoolean data) then (w, Ok tt)
  else
    match current_rows data with
    | Throw e => (w, Throw e)
    | Ok crows =>
        match makeTable CurrentStatus currentHeaders crows w with
        | (w1, Throw e) => (w1, Throw e)
        | (w1, Ok _) =>
            let w2 :=
              match (history_rows data).2 with
              | Throw err => with_log w1 "Error building status history rows" err
              | Ok _ => w1
              end in
            match makeTable StatusHistory histHeaders (history_rows data).1 w2 with
            | (w3, Throw e) => (w3, Throw e)
            | (w3, Ok _) =>
                match transmission_rows data with
                | Throw e => (w3, Throw e)
                | Ok trows =>
                    match makeTable Transmissions txHeaders trows w3 with
                    | (w4, Throw e) => (w4, Throw e)
                    | (w4, Ok _) =>
                        (with_doc w4 (set_last_updated ("Last loaded: " +:+ now) (doc w4)),
                         Ok tt)
                    end
                end
            end
        end
    end.
Proof.
  destruct (Js.ToBoolean data) eqn:Hd; cbn [negb];
    [|by unfold renderState; rewrite Hd].
  pose proof (current_loop_eq data) as Hc.
  pose proof (status_of_truthy data) as Hs.
  destruct (truthy_keys _ Hs) as [ks Hks].
  assert (Hteams : sorted_teams data = sort_keys ks).
  { unfold sorted_teams. by rewrite Hks. }
  unfold current_rows, history_rows, transmission_rows in *.
  rewrite Hteams in *. clear Hteams.
  revert Hc Hks. unfold status_of, locs_of, renderState.
  rewrite Hd. cbn [negb].
  rewrite !(truthy_Get data) by done.
  set (sv := match data with VObj o => default VUndefined (o !! Js.field_name Js.status_by_team) | _ => VUndefined end).
  set (lv := match data with VObj o => default VUndefined (o !! Js.field_name Js.location_by_team) | _ => VUndefined end).
  set (tv := match data with VObj o => default VUndefined (o !! Js.field_name Js.transmissions) | _ => VUndefined end).
  intros Hc Hks.
  unfold bind, lift, ret, console_error, update_doc, modify. rewrite Hks.
  cbn [rbind].
  destruct (mapM _ (sort_keys ks)) as [crows|e] eqn:Hm.
  - rewrite Hc.
    destruct (makeTable CurrentStatus currentHeaders crows w) as [w1 [[]|e1]]; [|done].
    destruct (history_loop (or_else sv (VObj ∅)) (sort_keys ks) []) as [hrows [[]|herr]];
      cbn [fst snd]; unfold with_log;
      (destruct (makeTable StatusHistory histHeaders hrows _) as [w3 [[]|e3]]; [|done]);
      (destruct (as_array (or_else tv (VArr []))) as [ts|e4]; cbn [rbind]; [|done]);
      (destruct (mapM transmission_row ts) as [trows|e5]; [|done]);
      (destruct (makeTable Transmissions txHeaders trows w3) as [w4 [[]|e6]]; done).
  - by destruct Hc as [acc ->].
Qed.
End Phases.
(** ** The controller *)

(** C8. When the request fails in transport or the response has a
    non-success status, [fetchState] logs the error and returns [null]
    without throwing, and [refresh] then completes leaving the document,
    hence the three tables, as they were. *)
Theorem fetch_failure_absorbed (f : fetched) (now : string) (w : world)
  (H : fetch_failed f = true) :
  fetchState f w = (with_log w "fetchState failed" (failure_of f), Ok VNull) /\
  refresh f now w = (with_log w "fetchState failed" (failure_of f), Ok tt) /\
  doc (refresh f now w).1 = doc w.
Proof.
  assert (E : fetchState f w
              = (with_log w "fetchState failed" (failure_of f), Ok VNull)).
  { destruct f as [|[] st b]; try discriminate H; reflexivity. }
  assert (R : refresh f now w
              = (with_log w "fetchState failed" (failure_of f), Ok tt)).
  { unfold refresh, bind. by rewrite E. }
  split; [done|]. split; [done|]. by rewrite R.
Qed.

Lemma fetch_failure_absorbed_witness :
  let w := {| doc := {| el_current_status := [table_of currentHeaders []];
                        el_status_history := []; el_transmissions := [];
                        el_last_updated := "Last loaded: earlier" |};
              console := [] |} in
  fetch_failed (Response false "Service Unavailable" Malformed) = true /\
  doc (refresh (Response false "Service Unavailable" Malformed) "later" w).1
  = doc w.
Proof.
  intros w. split; [reflexivity|].
  exact (proj2 (proj2 (fetch_failure_absorbed
                         (Response false "Service Unavailable" Malformed)
                         "later" w eq_refl))).
Defined.

(** ** Idempotence of the rebuild *)

Section Idempotence.
Lemma renderState_doc_shape now data :
  exists (cur hist tx : option (list table)) (lu : option string),
    forall w',
      doc (renderState now data w').1 =
      {| el_current_status := default (el_current_status (doc w')) cur;
         el_status_history := default (el_status_history (doc w')) hist;
         el_transmissions := default (el_transmissions (doc w')) tx;
         el_last_updated := default (el_last_updated (doc w')) lu |} /\
      (forall now', exists lu',
         doc (renderState now' data w').1 =
         {| el_current_status := default (el_current_status (doc w')) cur;
            el_status_history := default (el_status_history (doc w')) hist;
            el_transmissions := default (el_transmissions (doc w')) tx;
            el_last_updated := default (el_last_updated (doc w')) lu' |}).
Proof.
  assert (K : forall d : document,
    d = {| el_current_status := el_current_status d;
           el_status_history := el_status_history d;
           el_transmissions := el_transmissions d;
           el_last_updated := el_last_updated d |}) by (by intros []).
  destruct (Js.ToBoolean data) eqn:Hd.
  2:{ exists None, None, None, None. intros w'. split; [|intros now'; exists None];
      rewrite renderState_phases, Hd; cbn; apply K. }
  destruct (current_rows data) as [crows|e] eqn:Hc.
  2:{ exists None, None, None, None. intros w'. split; [|intros now'; exists None];
      rewrite renderState_phases, Hd, Hc; cbn; apply K. }
  destruct (cells crows) as [cb|e] eqn:Hcb.
  2:{ exists (Some []), None, None, None. intros w'.
      split; [|intros now'; exists None];
      rewrite renderState_phases, Hd, Hc, makeTable_eq, Hcb; reflexivity. }
  destruct (cells (history_rows data).1) as [hb|e] eqn:Hhb.
  2:{ exists (Some [table_of currentHeaders cb]), (Some []), None, None. intros w'.
      split; [|intros now'; exists None];
      rewrite renderState_phases, Hd, Hc, makeTable_eq, Hcb; cbn [negb];
      rewrite makeTable_eq, Hhb; by destruct (history_rows data).2. }
  destruct (transmission_rows data) as [trows|e] eqn:Ht.
  2:{ exists (Some [table_of currentHeaders cb]), (Some [table_of histHeaders hb]), None, None.
      intros w'. split; [|intros now'; exists None];
      rewrite renderState_phases, Hd, Hc, makeTable_eq, Hcb; cbn [negb];
      rewrite makeTable_eq, Hhb, Ht; by destruct (history_rows data).2. }
  destruct (cells trows) as [tb|e] eqn:Htb.
  2:{ exists (Some [table_of currentHeaders cb]), (Some [table_of histHeaders hb]),
        (Some []), None.
      intros w'. split; [|intros now'; exists None];
      rewrite renderState_phases, Hd, Hc, makeTable_eq, Hcb; cbn [negb];
      rewrite makeTable_eq, Hhb, Ht, makeTable_eq, Htb; by destruct (history_rows data).2. }
  exists (Some [table_of currentHeaders cb]), (Some [table_of histHeaders hb]),
    (Some [table_of txHeaders tb]), (Some ("Last loaded: " +:+ now)).
  intros w'. split; [|intros now'; exists (Some ("Last loaded: " +:+ now'))];
    rewrite renderState_phases, Hd, Hc, makeTable_eq, Hcb; cbn [negb];
    rewrite makeTable_eq, Hhb, Ht, makeTable_eq, Htb; by destruct (history_rows data).2.
Qed.
End Idempotence.

(** A rendering that completes replaces the content of the three
    containers: what they hold afterwards does not depend on what they held
    before. *)
Lemma render_full_replace (now : string) (data : value) (w w' : world) :
  Js.ToBoolean data = true -> (renderState now data w).2 = Ok tt ->
  tables (doc (renderState now data w).1)
  = tables (doc (renderState now data w').1).
Proof.
  intros Hd. rewrite !renderState_phases, Hd. cbn [negb].
  destruct (current_rows data) as [crows|e]; [|done].
  rewrite !makeTable_eq.
  destruct (cells crows) as [cb|e]; [|done].
  rewrite !makeTable_eq.
  destruct (cells (history_rows data).1) as [hb|e];
    [|by destruct (history_rows data).2].
  destruct (transmission_rows data) as [trows|e];
    [|by destruct (history_rows data).2].
  rewrite !makeTable_eq.
  destruct (cells trows) as [tb|e]; by destruct (history_rows data).2.
Qed.

(** C9. Rendering the same snapshot a second time leaves the three tables,
    and so the text of their cells, exactly as the first rendering left
    them, whatever the document held before. *)
Theorem render_idempotent (now1 now2 : string) (data : value) (w : world) :
  let w1 := (renderState now1 data w).1 in
  let w2 := (renderState now2 data w1).1 in
  tables (doc w2) = tables (doc w1) /\
  visible_text (doc w2) = visible_text (doc w1).
Proof.
  intros w1 w2.
  destruct (renderState_doc_shape now1 data) as (cur & hist & tx & lu & Hshape).
  assert (T : tables (doc w2) = tables (doc w1)).
  { subst w1 w2.
    destruct (Hshape (renderState now1 data w).1) as [_ H2].
    destruct (H2 now2) as [lu2 ->].
    destruct (Hshape w) as [-> _].
    unfold tables. cbn. by destruct cur, hist, tx. }
  split; [done|]. unfold tables in T. injection T as E1 E2 E3.
  unfold visible_text. by rewrite E1, E2, E3.
Qed.
(** ** Well-formed snapshots *)

Section WellFormed.
Lemma scalar_ToString v : scalar v = true -> exists s, Js.ToString v = Ok s.
Proof. destruct v; try done; by eexists. Qed.

Lemma scalar_ToNumber v : scalar v = true -> exists n, Js.ToNumber v = Ok n.
Proof. destruct v; try done; by eexists. Qed.

Lemma formatTimestamp_text v :
  text_or_absent v = true -> exists r, formatTimestamp v = Ok (VStr r).
Proof.
  destruct v; try done; intros _; try (by eexists).
  apply formatTimestamp_string.
Qed.

Lemma formatLocationStatus_scalar v :
  scalar v = true -> exists r, formatLocationStatus v = Ok (VStr r).
Proof.
  intros H. unfold formatLocationStatus.
  destruct (negb (Js.ToBoolean v) && negb (Js.is_number_zero v)); [by eexists|].
  destruct v; try done; try (by eexists).
  repeat case_match; by eexists.
Qed.

Lemma formatStatusCode_scalar v :
  scalar v = true -> exists r, formatStatusCode v = Ok (VStr r).
Proof.
  intros H. unfold formatStatusCode.
  destruct (Js.is_nullish v || Js.is_empty_string v); [by eexists|].
  destruct (scalar_ToNumber v H) as [n ->]. cbn [rbind].
  destruct (scalar_ToString v H) as [s ->]. cbn [rbind].
  repeat case_match; by eexists.
Qed.

Lemma make_cell_scalar v : scalar v = true -> exists c, make_cell (Json v) = Ok c.
Proof.
  destruct v; try done; intros _; cbn; try (by eexists).
  case_match; by eexists.
Qed.

Lemma make_cell_builtin b : exists c, make_cell (Builtin b) = Ok c.
Proof. by eexists. Qed.

Lemma make_cell_text s : exists c, make_cell (Json (VStr s)) = Ok c.
Proof. by apply make_cell_scalar. Qed.

Lemma or_elseJ_cases j d :
  or_elseJ j d = j /\ Js.truthy j = true \/ or_elseJ j d = Json d.
Proof. unfold or_elseJ. destruct (Js.truthy j); auto. Qed.
End WellFormed.
Section SnapshotShape.
Variable data : value.
Hypothesis wf : wf_snapshot data = true.

Lemma wf_is_object : exists o, data = VObj o.
Proof using wf. destruct data; try done. by eexists. Qed.

Lemma wf_truthy : Js.ToBoolean data = true.
Proof using wf. by destruct wf_is_object as [o ->]. Qed.

Lemma wf_Get f : Js.Get data f = Ok (field_of data f).
Proof using wf. by destruct wf_is_object as [o ->]. Qed.

Lemma wf_parts :
  (let s := field_of data Js.status_by_team in
   absent s = true \/
   exists o, s = VObj o /\ forall k h, o !! k = Some h -> wf_history h = true) /\
  (let l := field_of data Js.location_by_team in
   absent l = true \/
   exists o, l = VObj o /\ forall k v, o !! k = Some v -> scalar v = true) /\
  (let t := field_of data Js.transmissions in
   absent t = true \/
   exists ts, t = VArr ts /\ Forall (fun x => wf_transmission x = true) ts).
Proof using wf.
  destruct wf_is_object as [o ->]. revert wf. unfold wf_snapshot.
  intros H. apply andb_prop in H as [H Ht]. apply andb_prop in H as [Hs Hl].
  repeat split; cbv zeta.
  - apply orb_prop in Hs as [Hs|Hs]; [by left|right].
    destruct (field_of (VObj o) Js.status_by_team) as [| | | | | |o'] eqn:E; try done.
    exists o'. split; [done|]. intros k h Hk.
    rewrite forallb_forall in Hs.
    apply (Hs (k, h)). apply list_elem_of_In. by apply elem_of_map_to_list.
  - apply orb_prop in Hl as [Hl|Hl]; [by left|right].
    destruct (field_of (VObj o) Js.location_by_team) as [| | | | | |o'] eqn:E; try done.
    exists o'. split; [done|]. intros k h Hk.
    rewrite forallb_forall in Hl.
    apply (Hl (k, h)). apply list_elem_of_In. by apply elem_of_map_to_list.
  - apply orb_prop in Ht as [Ht|Ht]; [by left|right].
    destruct (field_of (VObj o) Js.transmissions) as [| | | | |ts|] eqn:E; try done.
    exists ts. split; [done|]. apply Forall_forall. intros x Hx.
    rewrite forallb_forall in Ht. apply Ht. by apply list_elem_of_In.
Qed.

Lemma wf_status_of : status_of data = VObj (teams data).
Proof using wf.
  unfold status_of, teams. rewrite wf_Get.
  destruct wf_parts as ([Hs|(o & -> & _)] & _); [|done].
  by destruct (field_of data Js.status_by_team).
Qed.

Lemma wf_locs_of : locs_of data = VObj (locations data).
Proof using wf.
  unfold locs_of, locations. rewrite wf_Get.
  destruct wf_parts as (_ & [Hs|(o & -> & _)] & _); [|done].
  by destruct (field_of data Js.location_by_team).
Qed.

Lemma wf_team_history team h :
  teams data !! team = Some h -> wf_history h = true.
Proof using wf.
  unfold teams. destruct wf_parts as ([Hs|(o & E & H)] & _).
  - destruct (field_of data Js.status_by_team); try done.
  - rewrite E. apply H.
Qed.

Lemma wf_location team v :
  locations data !! team = Some v -> scalar v = true.
Proof using wf.
  unfold locations. destruct wf_parts as (_ & [Hs|(o & E & H)] & _).
  - destruct (field_of data Js.location_by_team); try done.
  - rewrite E. apply H.
Qed.

Lemma wf_sorted_teams :
  sorted_teams data = sort_keys (map_to_list (teams data)).*1.
Proof using wf. unfold sorted_teams. by rewrite wf_status_of. Qed.

Lemma sorted_teams_perm : sorted_teams data ≡ₚ (map_to_list (teams data)).*1.
Proof using wf. rewrite wf_sorted_teams. apply merge_sort_Permutation. Qed.

Lemma sorted_teams_sorted : StronglySorted String.le (sorted_teams data).
Proof using wf. rewrite wf_sorted_teams. apply StronglySorted_merge_sort; apply _. Qed.

Lemma sorted_teams_NoDup : NoDup (sorted_teams data).
Proof using wf. rewrite sorted_teams_perm. apply NoDup_fst_map_to_list. Qed.

Lemma sorted_teams_elem team :
  team ∈ sorted_teams data <-> is_Some (teams data !! team).
Proof using wf.
  rewrite sorted_teams_perm, list_elem_of_fmap. split.
  - intros ([k h] & -> & H). apply elem_of_map_to_list in H. by eexists.
  - intros [h H]. exists (team, h). split; [done|]. by apply elem_of_map_to_list.
Qed.


Lemma wf_history_events team :
  team ∈ sorted_teams data ->
  or_else (Js.GetOwn (status_of data) team) (VArr []) = VArr (history_of data team)
  /\ Forall (fun e => wf_event e = true) (history_of data team).
Proof using wf.
  intros [h Hh]%sorted_teams_elem. rewrite wf_status_of. unfold history_of.
  cbn [Js.GetOwn]. rewrite Hh. cbn [default].
  pose proof (wf_team_history _ _ Hh) as Hw.
  destruct h; try done; cbn; split; try done.
  apply Forall_forall. intros x Hx. cbn in Hw. rewrite forallb_forall in Hw.
  apply Hw. by apply list_elem_of_In.
Qed.
End SnapshotShape.
Section Rows.
Lemma wf_event_inv e :
  wf_event e = true ->
  Js.ToBoolean e = true /\ (forall f, Js.Get e f = Ok (field_of e f)) /\
  text_or_absent (field_of e Js.timestamp) = true /\
  scalar (field_of e Js.location) = true /\
  scalar (field_of e Js.location_status) = true /\
  scalar (field_of e Js.transit) = true /\
  scalar (field_of e Js.status_code) = true.
Proof.
  destruct e; try done. unfold wf_event. intros H.
  repeat (apply andb_prop in H as [H ?]). by repeat split.
Qed.

Lemma wf_transmission_inv t :
  wf_transmission t = true ->
  (forall f, Js.Get t f = Ok (field_of t f)) /\
  text_or_absent (field_of t Js.timestamp) = true /\
  scalar (field_of t Js.dest) = true /\
  scalar (field_of t Js.src) = true /\
  scalar (field_of t Js.msg) = true.
Proof.
  destruct t; try done. unfold wf_transmission. intros H.
  repeat (apply andb_prop in H as [H ?]). by repeat split.
Qed.

Ltac cell_ok :=
  match goal with
  | |- exists c, make_cell (Json (VStr _)) = Ok c => apply make_cell_text
  | |- exists c, make_cell (Json _) = Ok c => by apply make_cell_scalar
  | |- exists c, make_cell (Builtin _) = Ok c => apply make_cell_builtin
  end.

Lemma history_row_wf team e :
  wf_event e = true ->
  exists row, history_row team e = Ok row /\ HistoryRowSpec (team, e) row /\
              exists cs, mapM make_cell row = Ok cs.
Proof.
  intros (_ & HG & Ht & Hl & Hls & Htr & Hsc)%wf_event_inv.
  unfold history_row. rewrite !HG. cbn [rbind].
  destruct (formatTimestamp_text _ Ht) as [ts Hts].
  destruct (formatLocationStatus_scalar _ Hls) as [ls Hlss].
  destruct (formatStatusCode_scalar _ Hsc) as [sc Hscs].
  rewrite Hts, Hlss, Hscs. cbn [rbind].
  eexists. split; [done|]. split.
  - by exists (VStr ts), (VStr ls), (VStr sc).
  - apply mapM_total. repeat constructor; cell_ok.
Qed.

Lemma transmission_row_wf t :
  wf_transmission t = true ->
  exists row, transmission_row t = Ok row /\ exists cs, mapM make_cell row = Ok cs.
Proof.
  intros (HG & Ht & Hd & Hs & Hm)%wf_transmission_inv.
  unfold transmission_row. rewrite !HG. cbn [rbind].
  destruct (formatTimestamp_text _ Ht) as [ts ->]. cbn [rbind].
  eexists. split; [done|].
  apply mapM_total. repeat constructor; cell_ok.
Qed.

Variable data : value.
Hypothesis wf : wf_snapshot data = true.

Lemma current_location_cell team :
  exists c, make_cell (current_location data team) = Ok c.
Proof using wf.
  unfold current_location. cbn [Js.GetV].
  destruct (locations data !! team) as [v|] eqn:E.
  - destruct (or_elseJ_cases (Json v) (VStr "")) as [[-> _] | ->]; [|cell_ok].
    apply make_cell_scalar. by eapply wf_location.
  - destruct (or_elseJ_cases (Js.inherited KObject team) (VStr "")) as [[-> _] | ->];
      [|cell_ok].
    unfold Js.inherited. repeat case_match; cell_ok.
Qed.

Lemma current_row_wf team :
  team ∈ sorted_teams data ->
  exists row, current_row (status_of data) (locs_of data) team = Ok row /\
              CurrentRowSpec data team row /\
              exists cs, mapM make_cell row = Ok cs.
Proof using wf.
  intros Hteam. destruct (wf_history_events data wf team Hteam) as [Hh Hev].
  unfold current_row. rewrite Hh. cbn [current_of rbind].
  rewrite (wf_locs_of data wf).
  assert (HL : Js.GetV (VObj (locations data)) team = Ok
                 match locations data !! team with
                 | Some x => Json x
                 | None => Js.inherited KObject team
                 end) by (cbn; by destruct (locations data !! team)).
  assert (HC : current_location data team =
               or_elseJ match locations data !! team with
                        | Some x => Json x
                        | None => Js.inherited KObject team
                        end (VStr "")) by (unfold current_location; by rewrite HL).
  destruct (current_location_cell team) as [cl Hcl].
  destruct (last (history_of data team)) as [e|] eqn:El;
    unfold default, from_option, id.
  - assert (He : wf_event e = true).
    { apply last_Some in El as [l' El]. rewrite El in Hev.
      apply Forall_app in Hev as [_ Hev]. by inversion Hev. }
    apply wf_event_inv in He as (Hb & HG & Ht & Hl & Hls & Htr & Hsc).
    rewrite Hb, !HG. cbn [rbind].
    destruct (formatTimestamp_text _ Ht) as [ts Hts].
    destruct (formatLocationStatus_scalar _ Hls) as [ls Hlss].
    destruct (formatStatusCode_scalar _ Hsc) as [sc Hscs].
    rewrite Hts, HL, Hlss, Hscs. cbn [rbind]. rewrite <- HC.
    eexists. split; [done|]. split.
    + exists (VStr ls), (field_of e Js.transit), (VStr sc), (VStr ts).
      by rewrite El.
    + apply mapM_total. repeat constructor; try cell_ok. by exists cl.
  - cbn [Js.ToBoolean]. rewrite HL. cbn [rbind]. rewrite <- HC.
    eexists. split; [done|]. split.
    + exists (VStr ""), (VStr ""), (VStr ""), (VStr ""). by rewrite El.
    + apply mapM_total. repeat constructor; try cell_ok. by exists cl.
Qed.
End Rows.
(** ** The history loop *)

Section HistoryLoop.
Lemma forEach_app {S A} (body : A -> M S unit) l1 l2 acc :
  forEach body (l1 ++ l2) acc =
  match forEach body l1 acc with
  | (acc', Ok _) => forEach body l2 acc'
  | (acc', Throw e) => (acc', Throw e)
  end.
Proof.
  revert acc. induction l1 as [|a l1 IH]; intros acc; [done|].
  cbn [app forEach]. unfold bind.
  destruct (body a acc) as [acc1 [[]|e]]; [apply IH|done].
Qed.

Lemma forEach_events team es acc :
  forEach (push_each build) (map (Event team) es) acc
  = forEach (push_each (history_row team)) es acc.
Proof.
  revert acc. induction es as [|e es IH]; intros acc; [done|].
  cbn [map forEach]. unfold bind.
  change (push_each build (Event team e) acc)
    with (push_each (history_row team) e acc).
  destruct (push_each (history_row team) e acc) as [acc1 [[]|err]]; [apply IH|done].
Qed.

(** The nested loops of the [try] block build the rows of the items one
    after the other. *)
Lemma history_loop_flat s ts acc :
  history_loop s ts acc
  = forEach (push_each build) (flat_map (items_of s) ts) acc.
Proof.
  revert acc. induction ts as [|team ts IH]; intros acc; [done|].
  cbn [flat_map]. rewrite forEach_app.
  unfold history_loop. cbn [forEach]. unfold bind at 1. unfold bind at 1.
  unfold lift at 1. unfold items_of.
  destruct (as_array (or_else (Js.GetOwn s team) (VArr []))) as [es|e] eqn:E.
  - rewrite forEach_events.
    destruct (forEach (push_each (history_row team)) es acc) as [acc1 [[]|err]];
      [apply IH|done].
  - destruct (or_else (Js.GetOwn s team) (VArr [])); try discriminate E;
      by injection E as <-.
Qed.

Lemma history_rows_flat data :
  history_rows data = forEach (push_each build) (items data) [].
Proof. apply history_loop_flat. Qed.

(** When the row of an item cannot be built, the rows of the items before
    it are what the loop leaves, and the exception is the one of that
    item. *)
Lemma history_rows_until_failure data pre i post rows e :
  items data = pre ++ i :: post ->
  mapM build pre = Ok rows -> build i = Throw e ->
  history_rows data = (rows, Throw e).
Proof.
  intros Hi Hpre He. rewrite history_rows_flat, Hi.
  by rewrite (forEach_push_prefix build pre i post rows e []).
Qed.

Lemma history_rows_complete data rows :
  mapM build (items data) = Ok rows -> history_rows data = (rows, Ok tt).
Proof.
  intros H. rewrite history_rows_flat.
  by rewrite (forEach_push_ok build _ rows []).
Qed.
End HistoryLoop.

Section WellFormedRender.
Variable data : value.
Hypothesis wf : wf_snapshot data = true.

Lemma wf_items :
  items data = map (fun te => Event te.1 te.2) (pairs data (sorted_teams data)).
Proof using wf.
  unfold items, pairs.
  assert (H : Forall (fun team => team ∈ sorted_teams data) (sorted_teams data))
    by (by apply Forall_forall).
  induction H as [|team ts Hteam _ IH]; [done|].
  cbn [flat_map]. rewrite map_app, <- IH. f_equal.
  destruct (wf_history_events data wf team Hteam) as [Hh _].
  unfold items_of. rewrite Hh. cbn [as_array].
  by rewrite map_map.
Qed.

Lemma wf_pairs_events te :
  te ∈ pairs data (sorted_teams data) -> wf_event te.2 = true.
Proof using wf.
  unfold pairs. rewrite list_elem_of_In, in_flat_map.
  intros (team & Hteam%list_elem_of_In & Hte).
  apply in_map_iff in Hte as (e & <- & He%list_elem_of_In).
  destruct (wf_history_events data wf team Hteam) as [_ Hev].
  rewrite Forall_forall in Hev. by apply Hev.
Qed.

Lemma wf_current_rows :
  exists rows body,
    current_rows data = Ok rows /\ cells rows = Ok body /\
    Forall2 (CurrentRowSpec data) (sorted_teams data) rows.
Proof using wf.
  unfold current_rows, cells.
  assert (H : Forall (fun team => team ∈ sorted_teams data) (sorted_teams data))
    by (by apply Forall_forall).
  induction H as [|team ts Hteam _ (rows & body & Hr & Hb & Hs)].
  - by exists [], [].
  - destruct (current_row_wf data wf team Hteam) as (row & Hrow & Hspec & cs & Hcs).
    exists (row :: rows), (cs :: body). cbn [mapM].
    rewrite Hrow, Hr, Hcs, Hb. cbn [rbind]. repeat split; by try constructor.
Qed.

Lemma wf_history_rows :
  exists rows body,
    history_rows data = (rows, Ok tt) /\ cells rows = Ok body /\
    Forall2 HistoryRowSpec (pairs data (sorted_teams data)) rows.
Proof using wf.
  assert (G : exists rows body,
    mapM build (items data) = Ok rows /\ cells rows = Ok body /\
    Forall2 HistoryRowSpec (pairs data (sorted_teams data)) rows).
  { rewrite wf_items. unfold cells.
    pose proof wf_pairs_events as H. revert H.
    generalize (pairs data (sorted_teams data)). intros l H.
    induction l as [|[team e] l IH]; [by exists [], []|].
    destruct IH as (rows & body & Hr & Hb & Hs).
    { intros te Hte. apply H. by right. }
    destruct (history_row_wf team e) as (row & Hrow & Hspec & cs & Hcs).
    { apply (H (team, e)). by left. }
    exists (row :: rows), (cs :: body). cbn [map mapM build fst snd].
    rewrite Hrow, Hr, Hcs, Hb. cbn [rbind]. repeat split; by try constructor. }
  destruct G as (rows & body & Hr & Hb & Hs).
  exists rows, body. split; [by apply history_rows_complete|done].
Qed.

Lemma wf_transmission_rows :
  exists rows body, transmission_rows data = Ok rows /\ cells rows = Ok body.
Proof using wf.
  unfold transmission_rows, cells. rewrite (wf_Get data wf). cbn [rbind].
  destruct (wf_parts data wf) as (_ & _ & Ht). cbv zeta in Ht.
  assert (G : exists ts, or_else (field_of data Js.transmissions) (VArr []) = VArr ts
                         /\ Forall (fun x => wf_transmission x = true) ts).
  { destruct Ht as [Ha|(ts & -> & Hts)]; [|by exists ts].
    exists []. split; [|done]. by destruct (field_of data Js.transmissions). }
  destruct G as (ts & -> & Hts). cbn [as_array rbind].
  induction Hts as [|t ts Ht' _ (rows & body & Hr & Hb)]; [by exists [], []|].
  destruct (transmission_row_wf t Ht') as (row & Hrow & cs & Hcs).
  exists (row :: rows), (cs :: body). cbn [mapM].
  by rewrite Hrow, Hr, Hcs, Hb.
Qed.

(** A well-formed snapshot is rendered completely: the three containers
    hold one table each and nothing is thrown or logged. *)
Lemma renderState_wf now w :
  exists crows cbody hrows hbody trows tbody,
    current_rows data = Ok crows /\ cells crows = Ok cbody /\
    Forall2 (CurrentRowSpec data) (sorted_teams data) crows /\
    history_rows data = (hrows, Ok tt) /\ cells hrows = Ok hbody /\
    Forall2 HistoryRowSpec (pairs data (sorted_teams data)) hrows /\
    transmission_rows data = Ok trows /\ cells trows = Ok tbody /\
    renderState now data w =
    (with_doc w
       {| el_current_status := [table_of currentHeaders cbody];
          el_status_history := [table_of histHeaders hbody];
          el_transmissions := [table_of txHeaders tbody];
          el_last_updated := "Last loaded: " +:+ now |}, Ok tt).
Proof using wf.
  destruct wf_current_rows as (crows & cbody & Hc & Hcb & Hcs).
  destruct wf_history_rows as (hrows & hbody & Hh & Hhb & Hhs).
  destruct wf_transmission_rows as (trows & tbody & Ht & Htb).
  exists crows, cbody, hrows, hbody, trows, tbody.
  repeat (split; [done|]).
  rewrite renderState_phases, (wf_truthy data wf), Hc. cbn [negb].
  rewrite makeTable_eq, Hcb, Hh. cbn [fst snd].
  rewrite makeTable_eq, Hhb, Ht, makeTable_eq, Htb.
  reflexivity.
Qed.
End WellFormedRender.
(** ** The Current Status and Status History tables *)

Section Counting.
Lemma pairs_length data ts :
  length (pairs data ts)
  = sum_list_with (fun team => length (history_of data team)) ts.
Proof.
  unfold pairs. induction ts as [|team ts IH]; [done|].
  cbn [flat_map sum_list_with]. by rewrite length_app, length_map, IH.
Qed.

Lemma sum_list_with_perm {A} (f : A -> nat) l1 l2 :
  l1 ≡ₚ l2 -> sum_list_with f l1 = sum_list_with f l2.
Proof. induction 1; cbn; lia. Qed.

Lemma sum_list_with_ext_in {A} (f g : A -> nat) l :
  (forall x, x ∈ l -> f x = g x) -> sum_list_with f l = sum_list_with g l.
Proof.
  induction l as [|a l IH]; intros H; [done|]. cbn.
  rewrite (H a) by (by left). rewrite IH; [done|].
  intros x Hx. apply H. by right.
Qed.

Lemma history_total data ts :
  ts ≡ₚ (map_to_list (teams data)).*1 ->
  sum_list_with (fun team => length (history_of data team)) ts
  = sum_list_with (fun kv => length (events kv.2)) (map_to_list (teams data)).
Proof.
  intros ->%(sum_list_with_perm _).
  generalize (fun k h => proj1 (elem_of_map_to_list (teams data) k h)).
  generalize (map_to_list (teams data)). intros l H.
  induction l as [|[k h] l IH]; [done|]. cbn [fmap list_fmap sum_list_with fst snd].
  rewrite IH by (intros k' h' Hin; apply H; by right).
  unfold history_of at 1. by rewrite (H k h) by (by left).
Qed.
End Counting.


(** ** Failures while the history rows are built *)


(** C3, amended.  When the row of an item of the history loop cannot be
    built, the exception is caught and logged once; the rows built before
    it are kept and are the rows of the Status History table, the failing
    row and every later row are not built; the Current Status table and
    the Transmissions table are rendered, and [renderState] completes. *)
Theorem history_failure_contained (now : string) (data : value) (w : world)
  (pre post : list item) (i : item) (e : error)
  (crows hrows trows : list (list jsval)) (cbody hbody tbody : list (list cell))
  (Hdata : Js.ToBoolean data = true)
  (Hc : current_rows data = Ok crows) (Hcb : cells crows = Ok cbody)
  (Hitems : items data = pre ++ i :: post)
  (Hpre : mapM build pre = Ok hrows) (Hfail : build i = Throw e)
  (Hhb : cells hrows = Ok hbody)
  (Ht : transmission_rows data = Ok trows) (Htb : cells trows = Ok tbody) :
  history_rows data = (hrows, Throw e) /\
  renderState now data w =
  ({| doc := {| el_current_status := [table_of currentHeaders cbody];
                el_status_history := [table_of histHeaders hbody];
                el_transmissions := [table_of txHeaders tbody];
                el_last_updated := "Last loaded: " +:+ now |};
      console := console w ++
                 [{| label := "Error building status history rows";
                     logged := e |}] |}, Ok tt).
Proof.
  pose proof (history_rows_until_failure data pre i post hrows e Hitems Hpre Hfail)
    as Hh.
  split; [done|].
  rewrite renderState_phases, Hdata, Hc. cbn [negb].
  rewrite makeTable_eq, Hcb, Hh. cbn [fst snd].
  rewrite makeTable_eq, Hhb, Ht, makeTable_eq, Htb.
  reflexivity.
Qed.

Lemma history_failure_contained_witness :
  renderState "now" snapshot_with_null_event blank =
  ({| doc :=
        {| el_current_status :=
             [table_of currentHeaders
                [[plain "A"; plain "HQ"; plain "50%"; plain "bus";
                  plain "4 - ok"; plain "2024-01-01 00:00:00.000 UTC"];
                 [plain "B"; plain ""; plain "50%"; plain "bus";
                  plain "4 - ok"; plain "2024-01-01 00:00:00.000 UTC"]]];
           el_status_history :=
             [table_of histHeaders
                [[plain "A"; plain "2024-01-01 00:00:00.000 UTC"; plain "";
                  plain "50%"; plain "bus"; plain "4 - ok"]]];
           el_transmissions := [table_of txHeaders []];
           el_last_updated := "Last loaded: now" |};
      console := [{| label := "Error building status history rows";
                     logged := TypeError |}] |}, Ok tt).
Proof.
  refine (proj2 (history_failure_contained "now" snapshot_with_null_event blank
            [Event "A" sample_event]
            [Event "A" sample_event; Event "B" sample_event]
            (Event "A" VNull) TypeError
            [sample_current_row "A" "HQ"; sample_current_row "B" ""]
            [sample_history_row "A"] []
            [[plain "A"; plain "HQ"; plain "50%"; plain "bus";
              plain "4 - ok"; plain "2024-01-01 00:00:00.000 UTC"];
             [plain "B"; plain ""; plain "50%"; plain "bus";
              plain "4 - ok"; plain "2024-01-01 00:00:00.000 UTC"]]
            [[plain "A"; plain "2024-01-01 00:00:00.000 UTC"; plain "";
              plain "50%"; plain "bus"; plain "4 - ok"]]
            [] _ _ _ _ _ _ _ _ _));
    vm_compute; reflexivity.
Defined.

(** The snapshot in which team A has a [null] entry between two events and
    team B has one event: building each row under its own guard would give
    the three rows of the proper events, but the loop stops at the [null]
    entry and the table has the first row only. *)
Lemma history_failure_drops_later_rows :
  items snapshot_with_null_event
  = [Event "A" sample_event; Event "A" VNull; Event "A" sample_event;
     Event "B" sample_event] /\
  rows_skipping_failures (items snapshot_with_null_event)
  = [sample_history_row "A"; sample_history_row "A"; sample_history_row "B"] /\
  history_rows snapshot_with_null_event
  = ([sample_history_row "A"], Throw TypeError) /\
  (history_rows snapshot_with_null_event).1
  <> rows_skipping_failures (items snapshot_with_null_event) /\
  el_status_history (doc (renderState "now" snapshot_with_null_event blank).1)
  = [table_of histHeaders
       [[plain "A"; plain "2024-01-01 00:00:00.000 UTC"; plain "";
         plain "50%"; plain "bus"; plain "4 - ok"]]].
Proof.
  refine (conj _ (conj _ (conj _ (conj _ _)))); try (vm_compute; reflexivity).
  vm_compute. discriminate.
Qed.

(** ** Teams, locations and the prototype chain *)

Example sample_snapshot_rendered :
  renderState "now" sample_snapshot blank =
  ({| doc :=
        {| el_current_status :=
             [table_of currentHeaders
                [[plain "A"; plain "HQ"; plain "50%"; plain "bus";
                  plain "4 - ok"; plain "2024-01-01 00:00:00.000 UTC"]]];
           el_status_history :=
             [table_of histHeaders
                [[plain "A"; plain "2024-01-01 00:00:00.000 UTC"; plain "";
                  plain "50%"; plain "bus"; plain "4 - ok"]]];
           el_transmissions := [table_of txHeaders []];
           el_last_updated := "Last loaded: now" |};
      console := [] |}, Ok tt).
Proof. vm_compute. reflexivity. Qed.

(** A team that has no key in [status_by_team] is not among the teams the
    rows are built for, whatever [location_by_team] holds for it. *)
Lemma location_only_team_has_no_row (data : value) (team : string) :
  wf_snapshot data = true -> teams data !! team = None ->
  team ∉ sorted_teams data.
Proof.
  intros Hwf Hnone Hin. apply (sorted_teams_elem data Hwf) in Hin as [h Hh].
  congruence.
Qed.

(** For a team whose name no object inherits, a location that is missing
    or falsy gives the empty string in the Current Location column. *)
Lemma falsy_location_is_empty (data : value) (team : string) :
  Js.inherited KObject team = Json VUndefined ->
  (forall v, locations data !! team = Some v -> Js.ToBoolean v = false) ->
  current_location data team = Json (VStr "") /\
  make_cell (current_location data team) = Ok (plain "").
Proof.
  intros Hinh Hfalsy. unfold current_location. cbn [Js.GetV].
  destruct (locations data !! team) as [v|] eqn:E.
  - unfold or_elseJ. cbn [Js.truthy]. by rewrite (Hfalsy v eq_refl).
  - rewrite Hinh. by unfold or_elseJ.
Qed.

(** C10 at a team called [constructor] that has no entry in
    [location_by_team]: the lookup finds the member that every object
    inherits, and the Current Location cell shows its text instead of the
    empty string. *)
Lemma inherited_location_displayed :
  wf_snapshot snapshot_team_constructor = true /\
  locations snapshot_team_constructor !! "constructor" = None /\
  current_rows snapshot_team_constructor
  = Ok [[Json (VStr "constructor"); Builtin (Native "Object");
         Json (VStr ""); Json (VStr ""); Json (VStr ""); Json (VStr "")]] /\
  el_current_status (doc (renderState "now" snapshot_team_constructor blank).1)
  = [table_of currentHeaders
       [[plain "constructor"; plain "function Object() { [native code] }";
         plain ""; plain ""; plain ""; plain ""]]].
Proof. refine (conj _ (conj _ (conj _ _))); vm_compute; reflexivity. Qed.

(** ** String conversion and the kinds of exception *)

Section Printable.
Lemma value_ind_nested (P : value -> Prop) :
  P VUndefined -> P VNull -> (forall b, P (VBool b)) -> (forall x, P (VNum x)) ->
  (forall s, P (VStr s)) -> (forall l, Forall P l -> P (VArr l)) ->
  (forall o, P (VObj o)) -> forall v, P v.
Proof.
  intros Hu Hn Hb Hx Hs Ha Ho. fix IH 1.
  intros [| |b|x|s|l|o];
    [exact Hu|exact Hn|apply Hb|apply Hx|apply Hs| |apply Ho].
  apply Ha. induction l as [|v l IHl]; constructor; [apply IH|apply IHl].
Qed.

Lemma ToString_array l :
  Js.ToString (VArr l) =
  let* parts :=
    mapM (fun x => match x with
                   | VUndefined | VNull => Ok ""
                   | _ => Js.ToString x
                   end) l in
  Ok (Js.join "," parts).
Proof.
  cbn [Js.ToString]. f_equal. induction l as [|x l IH]; [done|].
  cbn [mapM]. by rewrite IH.
Qed.

(** [ToString] succeeds exactly on the printable values, and what it throws
    otherwise is a [TypeError]. *)
Lemma ToString_printable v :
  (printable v = true -> exists s, Js.ToString v = Ok s) /\
  (printable v = false -> Js.ToString v = Throw TypeError).
Proof.
  induction v as [| | | | |l IH|o] using value_ind_nested;
    try (split; [by eexists|done]).
  - rewrite ToString_array. cbn [printable].
    induction IH as [|x l [Hx1 Hx2] _ [IH1 IH2]]; [split; [by eexists|done]|].
    cbn [forallb mapM]. split.
    + intros [Hp Hl]%andb_prop. destruct (IH1 Hl) as [s Hs].
      destruct (Hx1 Hp) as [sx Hsx].
      assert (exists sx', match x with
                          | VUndefined | VNull => Ok ""
                          | _ => Js.ToString x
                          end = Ok sx') as [sx' ->]
        by (destruct x; by eexists).
      cbn [rbind].
      destruct (mapM _ l) as [ps|]; [|by cbn in Hs]. by eexists.
    + intros H. apply andb_false_iff in H as [Hp|Hl].
      * specialize (Hx2 Hp). destruct x; try discriminate Hp; by rewrite Hx2.
      * specialize (IH2 Hl).
        destruct (match x with
                  | VUndefined | VNull => Ok ""
                  | _ => Js.ToString x
                  end) as [sx|e] eqn:Ex.
        -- cbn [rbind]. destruct (mapM _ l) as [ps|e]; [done|].
           cbn [rbind] in *. done.
        -- cbn [rbind]. f_equal. destruct (printable x) eqn:Hp.
           ++ destruct (Hx1 eq_refl) as [sx Hsx].
              destruct x; try discriminate Ex; congruence.
           ++ specialize (Hx2 eq_refl). destruct x; try discriminate Hp; congruence.
  - cbn. destruct (o !! "toString"); split; try done; by eexists.
Qed.

Lemma ToString_throws v e : Js.ToString v = Throw e -> e = TypeError.
Proof.
  destruct (printable v) eqn:Hp.
  - destruct (proj1 (ToString_printable v) Hp) as [s ->]. done.
  - rewrite (proj2 (ToString_printable v) Hp). congruence.
Qed.

Lemma ToNumber_throws v e : Js.ToNumber v = Throw e -> e = TypeError.
Proof.
  destruct v; try done; cbn [Js.ToNumber];
    (destruct (Js.ToString _) eqn:E; [done|]); cbn; intros [= <-];
    by apply ToString_throws in E.
Qed.

Lemma Get_throws v f e : Js.Get v f = Throw e -> e = TypeError.
Proof. destruct v; cbn; congruence. Qed.

Lemma formatTimestamp_throws v e : formatTimestamp v = Throw e -> e = TypeError.
Proof.
  unfold formatTimestamp. destruct (Js.ToBoolean v) eqn:Hb; cbn [negb]; [|done].
  destruct v; try congruence.
  destruct (formatTimestamp_string s) as [r Hr]. unfold formatTimestamp in Hr.
  rewrite Hb in Hr. cbn [negb] in Hr. by rewrite Hr.
Qed.
End Printable.

Section OnlyTypeError.
Ltac step_with L :=
  match goal with
  | |- (let* _ := ?r in _) = Throw _ -> _ =>
      let E := fresh "E" in
      destruct r eqn:E; cbn [rbind]; [|intros [= <-]; eapply L; exact E]
  end.

Lemma formatStatusCode_throws v e : formatStatusCode v = Throw e -> e = TypeError.
Proof.
  unfold formatStatusCode. destruct (_ || _); [done|].
  step_with ToNumber_throws. repeat case_match; try done.
  step_with ToString_throws. done.
Qed.

Lemma formatLocationStatus_throws v e :
  formatLocationStatus v = Throw e -> e = TypeError.
Proof.
  unfold formatLocationStatus. destruct (_ && _); [done|].
  destruct v; try (step_with ToString_throws; done). repeat case_match; done.
Qed.

Lemma current_of_throws v e : current_of v = Throw e -> e = TypeError.
Proof.
  unfold current_of. destruct v; try done; cbn; try congruence;
    repeat case_match; try done; step_with ToNumber_throws; done.
Qed.

Lemma GetV_throws v k e : Js.GetV v k = Throw e -> e = TypeError.
Proof. destruct v; cbn; repeat case_match; congruence. Qed.

Lemma as_array_throws v e : as_array v = Throw e -> e = TypeError.
Proof. destruct v; cbn; congruence. Qed.

Lemma current_row_throws s locs team e :
  current_row s locs team = Throw e -> e = TypeError.
Proof.
  unfold current_row. step_with current_of_throws.
  destruct (Js.ToBoolean a).
  - step_with Get_throws. step_with formatTimestamp_throws.
    step_with GetV_throws. step_with Get_throws.
    step_with formatLocationStatus_throws. step_with Get_throws.
    step_with Get_throws. step_with formatStatusCode_throws. done.
  - step_with GetV_throws. done.
Qed.

Lemma history_row_throws team ev e :
  history_row team ev = Throw e -> e = TypeError.
Proof.
  unfold history_row. step_with Get_throws. step_with formatTimestamp_throws.
  step_with Get_throws. step_with Get_throws.
  step_with formatLocationStatus_throws. step_with Get_throws.
  step_with Get_throws. step_with formatStatusCode_throws. done.
Qed.

Lemma transmission_row_throws t e :
  transmission_row t = Throw e -> e = TypeError.
Proof.
  unfold transmission_row. step_with Get_throws.
  step_with formatTimestamp_throws. step_with Get_throws.
  step_with Get_throws. step_with Get_throws. done.
Qed.

Lemma build_throws i e : build i = Throw e -> e = TypeError.
Proof. destruct i; cbn; [apply history_row_throws|congruence]. Qed.

Lemma make_cell_throws c e : make_cell c = Throw e -> e = TypeError.
Proof.
  destruct c as [v|b]; [|done].
  destruct v; unfold make_cell, Js.ToStringJ; try done; try (by case_match);
    step_with ToString_throws; done.
Qed.

Lemma mapM_throws {A B} (f : A -> result B) l e :
  (forall a e', f a = Throw e' -> e' = TypeError) ->
  mapM f l = Throw e -> e = TypeError.
Proof.
  intros Hf. induction l as [|a l IH]; [done|]. cbn [mapM].
  destruct (f a) eqn:Ea; cbn [rbind]; [|intros [= <-]; by eapply Hf].
  destruct (mapM f l); cbn [rbind]; [done|]. intros [= <-]. by apply IH.
Qed.

Lemma cells_throws rows e : cells rows = Throw e -> e = TypeError.
Proof.
  apply mapM_throws. intros row e'. apply mapM_throws. apply make_cell_throws.
Qed.

Lemma forEach_push_throws {A B} (f : A -> result B) l acc acc' e :
  (forall a e', f a = Throw e' -> e' = TypeError) ->
  forEach (push_each f) l acc = (acc', Throw e) -> e = TypeError.
Proof.
  intros Hf. revert acc. induction l as [|a l IH]; intros acc; [done|].
  cbn [forEach]. unfold bind, push_each at 1, bind, lift, push, modify.
  destruct (f a) eqn:Ea; [apply IH|]. intros [= _ <-]. by eapply Hf.
Qed.

Lemma history_rows_throws data e :
  (history_rows data).2 = Throw e -> e = TypeError.
Proof.
  rewrite history_rows_flat.
  destruct (forEach _ _ _) as [acc r] eqn:E. cbn. intros ->.
  eapply forEach_push_throws; [|exact E]. apply build_throws.
Qed.

Lemma current_rows_throws data e : current_rows data = Throw e -> e = TypeError.
Proof. apply mapM_throws. intros a e'. apply current_row_throws. Qed.

Lemma transmission_rows_throws data e :
  transmission_rows data = Throw e -> e = TypeError.
Proof.
  unfold transmission_rows.
  step_with Get_throws. step_with as_array_throws.
  apply mapM_throws. apply transmission_row_throws.
Qed.
End OnlyTypeError.

(** ** More on [makeTable] *)

Section Cells.
Lemma make_cell_printable c :
  (printableJ c = true -> exists cell, make_cell c = Ok cell) /\
  (printableJ c = false -> make_cell c = Throw TypeError).
Proof.
  destruct c as [v|b]; [|split; [by eexists|done]].
  cbn [printableJ]. destruct (ToString_printable v) as [H1 H2]. split.
  - intros Hp. destruct (H1 Hp) as [s Hs].
    destruct v; unfold make_cell, Js.ToStringJ; try rewrite Hs;
      try case_match; by eexists.
  - intros Hp. specialize (H2 Hp).
    destruct v; try discriminate Hp; unfold make_cell, Js.ToStringJ; by rewrite H2.
Qed.

Lemma cells_printable rows :
  Forall (Forall (fun c => printableJ c = true)) rows ->
  exists body, cells rows = Ok body.
Proof.
  intros H. apply mapM_total. eapply Forall_impl; [exact H|].
  intros row Hrow. apply mapM_total. eapply Forall_impl; [exact Hrow|].
  intros c Hc. by apply make_cell_printable.
Qed.

Lemma mapM_Exists_throw {A B} (f : A -> result B) l :
  (forall a e, f a = Throw e -> e = TypeError) ->
  Exists (fun a => f a = Throw TypeError) l -> mapM f l = Throw TypeError.
Proof.
  intros Hf H. destruct (mapM f l) as [bs|e] eqn:E.
  - exfalso. apply mapM_Forall2 in E. revert bs E.
    induction H as [a l Ha|a l _ IH]; intros bs E; inversion E; subst.
    + congruence.
    + eauto.
  - f_equal. by eapply mapM_throws.
Qed.

Lemma cells_unprintable rows :
  Exists (Exists (fun c => printableJ c = false)) rows ->
  cells rows = Throw TypeError.
Proof.
  intros H. apply mapM_Exists_throw.
  { intros row e. apply mapM_throws. apply make_cell_throws. }
  eapply Exists_impl; [exact H|]. intros row Hrow. cbv beta in *.
  apply mapM_Exists_throw; [apply make_cell_throws|].
  eapply Exists_impl; [exact Hrow|]. intros c Hc. by apply make_cell_printable.
Qed.
End Cells.

(** X1. When every cell value can be turned into text, [makeTable] leaves
    in its container exactly one table, whatever the container held: the
    given headers, one body row per row and one cell per value, each cell
    built from its value by the cell rule; the other two containers, the
    status line and the console are untouched. *)
Theorem makeTable_replaces (c : container) (h : list string)
  (rows : list (list jsval)) (w : world)
  (Hp : Forall (Forall (fun x => printableJ x = true)) rows) :
  exists body,
    (makeTable c h rows w).2 = Ok tt /\
    children c (doc (makeTable c h rows w).1) = [table_of h body] /\
    Forall2 (Forall2 (fun x cl => make_cell x = Ok cl)) rows body /\
    Forall2 (fun row cs => length cs = length row) rows body /\
    (forall c', c' <> c ->
       children c' (doc (makeTable c h rows w).1) = children c' (doc w)) /\
    el_last_updated (doc (makeTable c h rows w).1) = el_last_updated (doc w) /\
    console (makeTable c h rows w).1 = console w.
Proof.
  destruct (cells_printable rows Hp) as [body Hb]. exists body.
  rewrite makeTable_eq, Hb. cbn [fst snd with_doc doc console].
  repeat split.
  - apply children_set.
  - apply mapM_Forall2 in Hb.
    eapply Forall2_impl; [exact Hb|]. intros row cs Hcs. cbv beta in Hcs.
    by apply mapM_Forall2 in Hcs.
  - apply mapM_Forall2 in Hb.
    eapply Forall2_impl; [exact Hb|]. intros row cs Hcs. cbv beta in Hcs.
    by apply mapM_length in Hcs.
  - intros c' Hc'. by destruct c, c'.
  - by destruct c.
Qed.

Lemma makeTable_replaces_witness :
  exists body,
    (makeTable StatusHistory histHeaders
       [[Json (VStr "A"); Json VNull; Json (num 7)]] populated).2 = Ok tt /\
    children StatusHistory
      (doc (makeTable StatusHistory histHeaders
              [[Json (VStr "A"); Json VNull; Json (num 7)]] populated).1)
    = [table_of histHeaders body].
Proof.
  destruct (makeTable_replaces StatusHistory histHeaders
              [[Json (VStr "A"); Json VNull; Json (num 7)]] populated)
    as (body & H1 & H2 & _).
  - repeat constructor.
  - exists body. split; [exact H1|exact H2].
Defined.

(** X2. When some cell value cannot be turned into text (an object
    carrying its own [toString] entry, possibly nested in arrays),
    [makeTable] throws a TypeError and leaves its container empty: the
    table that was shown there is gone and no new one is attached. *)
Theorem makeTable_unprintable (c : container) (h : list string)
  (rows : list (list jsval)) (w : world)
  (Hu : Exists (Exists (fun x => printableJ x = false)) rows) :
  makeTable c h rows w = (with_doc w (set_children c [] (doc w)), Throw TypeError).
Proof.
  rewrite makeTable_eq. by rewrite (cells_unprintable rows Hu).
Qed.

Lemma makeTable_unprintable_witness :
  children Transmissions
    (doc (makeTable Transmissions txHeaders
            [[Json (VStr "t"); Json (VObj {[ "toString" := VNull ]})]]
            populated).1) = [] /\
  children Transmissions (doc populated) <> [].
Proof.
  split.
  - rewrite (makeTable_unprintable Transmissions txHeaders
              [[Json (VStr "t"); Json (VObj {[ "toString" := VNull ]})]]
              populated).
    + reflexivity.
    + constructor. apply Exists_cons_tl. constructor. reflexivity.
  - vm_compute. discriminate.
Defined.

(** X3. The cell rule of [makeTable]: a cell is shown in the fixed-width
    style exactly when its value is a string that starts with an opening
    and ends with a closing brace; [null] and [undefined] give an empty
    cell; every other value gives its string form, a string verbatim, and
    the style never changes the text. *)
Theorem make_cell_rule (c : jsval) (cl : cell) (H : make_cell c = Ok cl) :
  (monospace cl = true <-> exists s, c = Json (VStr s) /\ braced s = true) /\
  (c = Json VNull \/ c = Json VUndefined -> text cl = "") /\
  (c <> Json VNull -> c <> Json VUndefined -> Js.ToStringJ c = Ok (text cl)) /\
  (forall s, c = Json (VStr s) -> text cl = s).
Proof.
  destruct c as [v|b].
  - destruct v; unfold make_cell, Js.ToStringJ in *.
    all: try (injection H as <-; cbn [text monospace];
              repeat split; try done;
              try (by intros (? & [=] & _)); try (by intros [[=]|[=]])).
    all: try (destruct (Js.ToString _) eqn:E; cbn [rbind] in H; [|done];
              injection H as <-; cbn [text monospace];
              repeat split; try done; try (by intros (? & [=] & _));
              try (by intros [[=]|[=]])).
    unfold braced. case_match eqn:Hb; injection H as <-; cbn [text monospace].
    + repeat split; try done; try (by intros [= ->]); try (by intros [[=]|[=]]).
      * intros _. by eexists.
      * by intros; simplify_eq.
    + repeat split; try done; try (by intros [= ->]); try (by intros [[=]|[=]]).
      * intros (s' & [= <-] & Hs'). unfold braced in Hs'. congruence.
      * by intros; simplify_eq.
  - unfold make_cell, Js.ToStringJ in *. injection H as <-. cbn.
    repeat split; try done; try (by intros [[=]|[=]]). by intros (? & [=] & _).
Qed.

Lemma make_cell_rule_witness :
  (monospace {| text := "{x}"; monospace := true |} = true <->
     exists s, Json (VStr "{x}") = Json (VStr s) /\ braced s = true) /\
  text {| text := "{x}"; monospace := true |} = "{x}".
Proof.
  destruct (make_cell_rule (Json (VStr "{x}")) {| text := "{x}"; monospace := true |} eq_refl)
    as (H1 & _ & _ & H4).
  split; [exact H1|]. by apply H4.
Defined.

(** ** More on [formatTimestamp] *)

Section Rendered.
Lemma pattern_head s :
  matches_pattern s = true ->
  match Str.chars s with
  | a :: _ :: _ :: _ :: e :: _ => Str.is_digit a && Str.is_digit e
  | _ => false
  end = true.
Proof.
  unfold matches_pattern. generalize (Str.chars s). intros l.
  do 16 (destruct l as [|? l]; [discriminate|]).
  destruct l; [|discriminate]. cbn [forallb]. intros H.
  repeat match goal with
  | H : _ && _ = true |- _ => apply andb_prop in H as [? ?]
  end.
  by apply andb_true_intro.
Qed.

Lemma year_string_head y rest :
  match Str.chars (Date.year_string y +:+ "-" +:+ rest) with
  | a :: _ :: _ :: _ :: e :: _ => Str.is_digit a && Str.is_digit e
  | _ => false
  end = false.
Proof.
  unfold Date.year_string. rewrite chars_app.
  destruct ((0 <=? y) && (y <=? 9999)).
  - rewrite chars_pad. pose proof (digits_length 4 y) as L.
    destruct (Str.digits 4 y) as [|a [|b [|c [|d [|? ?]]]]]; try discriminate L.
    cbn. apply andb_false_r.
  - by destruct (y <? 0).
Qed.

Lemma replace_first_year c b y rest :
  Str.is_digit c = false -> Ascii.eqb "-" c = false -> Ascii.eqb "+" c = false ->
  Str.replace_first c b (Date.year_string y +:+ "-" +:+ rest)
  = Date.year_string y +:+ "-" +:+ Str.replace_first c b rest.
Proof.
  intros Hc Hm Hp. unfold Date.year_string.
  destruct ((0 <=? y) && (y <=? 9999)).
  - rewrite replace_first_pad by done.
    change ("-" +:+ rest) with (String "-" "" +:+ rest).
    by rewrite replace_first_skip.
  - assert (E : forall sg : string, sg = "-" \/ sg = "+" ->
       Str.replace_first c b ((sg +:+ Str.pad 6 (Z.abs y)) +:+ "-" +:+ rest)
       = (sg +:+ Str.pad 6 (Z.abs y)) +:+ "-" +:+ Str.replace_first c b rest).
    { intros sg [-> | ->].
      - change (("-" +:+ ?p) +:+ ?r) with (String "-" "" +:+ (p +:+ r)).
        rewrite replace_first_skip, replace_first_pad by done.
        change ("-" +:+ rest) with (String "-" "" +:+ rest).
        by rewrite replace_first_skip.
      - change (("+" +:+ ?p) +:+ ?r) with (String "+" "" +:+ (p +:+ r)).
        rewrite replace_first_skip, replace_first_pad by done.
        change ("-" +:+ rest) with (String "-" "" +:+ rest).
        by rewrite replace_first_skip. }
    apply E. destruct (y <? 0); auto.
Qed.

(** What [formatTimestamp] makes of a matching string does not match. *)
Lemma rendered_no_match t iso :
  Date.toISOString (Some t) = Ok iso ->
  Re.exec (Str.replace_first "Z" " UTC" (Str.replace_first "T" " " iso)) = None.
Proof.
  intros [= <-]. apply exec_matches_pattern.
  rewrite (replace_first_year "T") by done.
  rewrite (replace_first_year "Z") by done.
  destruct (matches_pattern _) eqn:E; [|done].
  apply pattern_head in E. by rewrite year_string_head in E.
Qed.

Lemma formatTimestamp_no_match s :
  Re.exec s = None -> formatTimestamp (VStr s) = Ok (VStr s).
Proof.
  intros E. unfold formatTimestamp. rewrite E. cbn [Js.ToBoolean].
  destruct (String.eqb_spec s "") as [->|]; done.
Qed.
End Rendered.

(** X4. [formatTimestamp] never fails on a string: every string, matching
    or not, with fields in or out of the calendar (month 99, day 00),
    gives a string, the date never leaving the range of [Date].  It fails
    exactly on the truthy values that are not strings, with a TypeError. *)
Theorem formatTimestamp_outcome (v : value) :
  ((exists r, formatTimestamp v = Ok (VStr r)) <->
   (Js.ToBoolean v = false \/ Js.typeof_string v = true)) /\
  (formatTimestamp v = Throw TypeError <->
   (Js.ToBoolean v = true /\ Js.typeof_string v = false)) /\
  (forall e, formatTimestamp v = Throw e -> e = TypeError).
Proof.
  refine (conj _ (conj _ _)).
  - split.
    + intros [r Hr]. destruct (Js.ToBoolean v) eqn:Hb; [right|by left].
      destruct (Js.typeof_string v) eqn:Ht; [done|].
      rewrite formatTimestamp_non_string in Hr; done.
    + intros [Hb|Ht].
      * exists "". unfold formatTimestamp. by rewrite Hb.
      * destruct v; try discriminate Ht. apply formatTimestamp_string.
  - split.
    + intros H. destruct (Js.ToBoolean v) eqn:Hb.
      * split; [done|]. destruct v; try done.
        destruct (formatTimestamp_string s) as [r Hr]. congruence.
      * unfold formatTimestamp in H. by rewrite Hb in H.
    + intros [Hb Ht]. by apply formatTimestamp_non_string.
  - intros e. apply formatTimestamp_throws.
Qed.

(** X5. [formatTimestamp] is idempotent: what it returns it returns
    unchanged when applied again, so a timestamp that has been formatted
    once is never parsed a second time. *)
Theorem formatTimestamp_idempotent (v r : value)
  (H : formatTimestamp v = Ok r) : formatTimestamp r = Ok r.
Proof.
  unfold formatTimestamp in H. destruct (Js.ToBoolean v) eqn:Hb; cbn [negb] in H.
  - destruct v; try discriminate H.
    destruct (Re.exec s) as [gs|] eqn:E.
    + apply exec_Some_groups in E as (g1 & g2 & g3 & g4 & g5 & g6 & -> & B1 & B2 & B3 & B4 & B5 & B6).
      destruct (UTC_in_range _ _ _ _ _ _ B1 B2 B3 B4 B5 B6) as [t Ht].
      rewrite Ht in H.
      destruct (Date.toISOString (Some t)) as [iso|] eqn:Hiso; [|done].
      cbn [rbind] in H. injection H as <-.
      pose proof (rendered_no_match t iso Hiso) as Hn.
      by apply formatTimestamp_no_match.
    + injection H as <-. by apply formatTimestamp_no_match.
  - by injection H as <-.
Qed.

Lemma formatTimestamp_idempotent_witness :
  formatTimestamp (VStr "2024-01-15 13:30:00.000 UTC")
  = Ok (VStr "2024-01-15 13:30:00.000 UTC").
Proof.
  apply (formatTimestamp_idempotent (VStr "20240115T133000Z")).
  vm_compute. reflexivity.
Defined.

Section TwoDigitYear.
Lemma stamp_truthy y mo d h mi s : Js.ToBoolean (VStr (stamp y mo d h mi s)) = true.
Proof.
  unfold Js.ToBoolean, stamp.
  match goal with |- negb (String.eqb ?x "") = true => destruct (String.eqb_spec x "") as [E|]; [|done] end.
  apply (f_equal Str.chars) in E. rewrite chars_app, chars_pad in E.
  apply (f_equal (@length _)) in E. rewrite length_app, digits_length in E.
  simpl in E. lia.
Qed.

Lemma instant_rendering y mo d h mi s :
  valid_datetime y mo d h mi s ->
  (let* iso := Date.toISOString (Date.TimeClip (instant y mo d h mi s)) in
   Ok (VStr (Str.replace_first "Z" " UTC" (Str.replace_first "T" " " iso))))
  = Ok (VStr (rendering y mo d h mi s)).
Proof.
  intros Hv. rewrite (round_trip_clip _ _ _ _ _ _ Hv).
  unfold Date.toISOString.
  rewrite (round_trip_year _ _ _ _ _ _ Hv), (round_trip_month _ _ _ _ _ _ Hv),
    (round_trip_date _ _ _ _ _ _ Hv).
  destruct (round_trip_clock _ _ _ _ _ _ Hv) as (-> & -> & -> & ->).
  destruct Hv as (Hy & Hmo & Hd & Hh & Hmi & Hs).
  unfold Date.year_string. replace ((0 <=? y) && (y <=? 9999)) with true by lia.
  replace (mo - 1 + 1) with mo by lia.
  cbn [rbind]. unfold rendering.
  repeat first [ rewrite (replace_first_pad "T") by done
               | rewrite (replace_first_skip "T") by done ].
  rewrite (replace_first_hit "T").
  change (" " +:+ ?x) with (String " " "" +:+ x).
  repeat first [ rewrite (replace_first_pad "Z") by done
               | rewrite (replace_first_skip "Z") by done ].
  reflexivity.
Qed.
End TwoDigitYear.

(** X6. A year field from 00 to 99 is read as a year of the twentieth
    century: for a calendar date and time of day with such a year field,
    [formatTimestamp] renders the year 1900 plus the field. *)
Theorem formatTimestamp_two_digit_year (y mo d h mi s : Z)
  (Hy : 0 <= y <= 99) (Hv : valid_datetime (1900 + y) mo d h mi s) :
  formatTimestamp (VStr (stamp y mo d h mi s))
  = Ok (VStr (rendering (1900 + y) mo d h mi s)).
Proof.
  unfold formatTimestamp. rewrite stamp_truthy. cbn [negb].
  rewrite exec_stamp.
  pose proof Hv as (_ & Hmo & Hd & Hh & Hmi & Hs).
  pose proof (DaysInMonth_le (1900 + y) mo).
  rewrite (to_int_pad 4 y), (to_int_pad 2 mo), (to_int_pad 2 d), (to_int_pad 2 h),
    (to_int_pad 2 mi), (to_int_pad 2 s) by (simpl; lia).
  unfold Date.UTC, Date.MakeFullYear.
  replace ((0 <=? y) && (y <=? 99)) with true by lia.
  fold (instant (1900 + y) mo d h mi s).
  by apply instant_rendering.
Qed.

Lemma formatTimestamp_two_digit_year_witness :
  formatTimestamp (VStr "00520229T235959Z")
  = Ok (VStr "1952-02-29 23:59:59.000 UTC").
Proof.
  apply (formatTimestamp_two_digit_year 52 2 29 23 59 59).
  - lia.
  - repeat split; by vm_compute.
Defined.

(** ** More on [formatLocationStatus] and [formatStatusCode] *)

Section LocationStatusFacts.
Lemma up_to_no_sep c l : existsb (Ascii.eqb c) (up_to c l) = false.
Proof.
  induction l as [|a l IH]; [done|]. cbn [up_to].
  destruct (Ascii.eqb a c) eqn:E; [done|]. cbn [existsb].
  rewrite IH, orb_false_r. by rewrite Ascii.eqb_sym.
Qed.

Lemma second_piece_no_space rest : has_space (second_piece rest) = false.
Proof. unfold has_space, second_piece. rewrite chars_of_chars. apply up_to_no_sep. Qed.

Lemma prefix_app p s : String.prefix p s = true -> exists rest, s = p +:+ rest.
Proof.
  revert s. induction p as [|c p IH]; intros s H.
  - by exists s.
  - destruct s as [|a s]; [done|]. cbn [String.prefix] in H.
    destruct (ascii_dec c a) as [->|]; [|done].
    destruct (IH s H) as [rest ->]. by exists rest.
Qed.

Lemma percentage_has_space s :
  Str.startsWith s "percentage " = true -> has_space s = true.
Proof.
  intros H. apply prefix_app in H as [rest ->].
  unfold has_space. rewrite chars_app. rewrite existsb_app.
  by replace (existsb (Ascii.eqb " ") (Str.chars "percentage ")) with true.
Qed.

Lemma formatLocationStatus_plain s :
  Str.startsWith s "percentage " = false ->
  formatLocationStatus (VStr s) = Ok (VStr s).
Proof.
  intros H. unfold formatLocationStatus. rewrite H. cbn.
  by destruct (String.eqb_spec s "") as [->|].
Qed.

Lemma formatLocationStatus_string s :
  formatLocationStatus (VStr s) = Ok (VStr s) \/
  exists rest, s = "percentage " +:+ rest /\ second_piece rest <> "" /\
               formatLocationStatus (VStr s) = Ok (VStr (second_piece rest)).
Proof.
  destruct (Str.startsWith s "percentage ") eqn:Hp.
  - pose proof Hp as Hp'. apply prefix_app in Hp' as [rest ->].
    unfold formatLocationStatus. rewrite Hp.
    assert (Js.ToBoolean (VStr ("percentage " +:+ rest)) = true) as -> by done.
    cbn [negb andb].
    destruct (split_percentage rest) as [tl ->].
    destruct (String.eqb_spec (second_piece rest) "") as [E|E]; [by left|].
    right. by exists rest.
  - left. by apply formatLocationStatus_plain.
Qed.
End LocationStatusFacts.

(** X7. On strings [formatLocationStatus] is idempotent and never fails:
    it returns a string, and applied to that string it returns it
    unchanged, since what it extracts from a percentage string has no
    space left in it. *)
Theorem formatLocationStatus_idempotent (s : string) :
  exists t,
    formatLocationStatus (VStr s) = Ok (VStr t) /\
    formatLocationStatus (VStr t) = Ok (VStr t) /\
    (t = s \/ has_space t = false).
Proof.
  destruct (formatLocationStatus_string s) as [H|(rest & -> & Hne & H)].
  - exists s. auto.
  - exists (second_piece rest). refine (conj H (conj _ _)).
    + apply formatLocationStatus_plain.
      destruct (Str.startsWith (second_piece rest) "percentage ") eqn:E; [|done].
      apply percentage_has_space in E. by rewrite second_piece_no_space in E.
    + right. apply second_piece_no_space.
Qed.

Section NormaliserFailures.
Lemma nullish_printable v :
  Js.is_nullish v || Js.is_empty_string v = true -> printable v = true.
Proof. by destruct v. Qed.

Lemma ToNumber_printable v :
  (printable v = true -> exists n, Js.ToNumber v = Ok n) /\
  (printable v = false -> Js.ToNumber v = Throw TypeError).
Proof.
  destruct (ToString_printable v) as [H1 H2]. split; intros Hp.
  - destruct (H1 Hp) as [s Hs].
    destruct v; cbn [Js.ToNumber]; try rewrite Hs; by eexists.
  - specialize (H2 Hp).
    destruct v; try discriminate Hp; cbn [Js.ToNumber]; by rewrite H2.
Qed.

Lemma formatStatusCode_printable v :
  (printable v = true -> exists r, formatStatusCode v = Ok (VStr r)) /\
  (printable v = false -> formatStatusCode v = Throw TypeError).
Proof.
  unfold formatStatusCode. split; intros Hp.
  - destruct (Js.is_nullish v || Js.is_empty_string v); [by eexists|].
    destruct (proj1 (ToNumber_printable v) Hp) as [n ->]. cbn [rbind].
    destruct (proj1 (ToString_printable v) Hp) as [s ->]. cbn [rbind].
    repeat case_match; by eexists.
  - destruct (Js.is_nullish v || Js.is_empty_string v) eqn:E.
    + apply nullish_printable in E. congruence.
    + by rewrite (proj2 (ToNumber_printable v) Hp).
Qed.

Lemma formatLocationStatus_printable v :
  (printable v = true -> exists r, formatLocationStatus v = Ok (VStr r)) /\
  (printable v = false -> formatLocationStatus v = Throw TypeError).
Proof.
  split; intros Hp.
  - destruct v; try (destruct (formatLocationStatus_string s) as [->|(? & _ & _ & ->)];
                     by eexists).
    all: unfold formatLocationStatus;
      destruct (negb _ && negb _); [by eexists|];
      destruct (proj1 (ToString_printable _) Hp) as [s ->]; by eexists.
  - pose proof (proj2 (ToString_printable v) Hp) as Hs.
    destruct v; try discriminate Hp; unfold formatLocationStatus;
      cbn [Js.ToBoolean negb andb]; by rewrite Hs.
Qed.
End NormaliserFailures.

(** X8. [formatStatusCode] and [formatLocationStatus] fail on the same
    values, and only with a TypeError: the objects that carry an own
    [toString] entry and the arrays that contain one, however deep.  On
    every other value each of them returns a string. *)
Theorem normalisers_fail_on_unprintable (v : value) :
  ((exists r, formatStatusCode v = Ok (VStr r)) <-> printable v = true) /\
  ((exists r, formatLocationStatus v = Ok (VStr r)) <-> printable v = true) /\
  (formatStatusCode v = Throw TypeError <-> printable v = false) /\
  (formatLocationStatus v = Throw TypeError <-> printable v = false) /\
  (forall e, formatStatusCode v = Throw e \/ formatLocationStatus v = Throw e ->
             e = TypeError).
Proof.
  destruct (formatStatusCode_printable v) as [C1 C2].
  destruct (formatLocationStatus_printable v) as [L1 L2].
  destruct (printable v) eqn:Hp.
  - destruct (C1 eq_refl) as [rc Hc]. destruct (L1 eq_refl) as [rl Hl].
    rewrite Hc, Hl. repeat split; try done; try (by eexists).
    by intros e [|].
  - rewrite (C2 eq_refl), (L2 eq_refl).
    repeat split; try done; try (by intros [? ?]).
    intros e [[= <-]|[= <-]]; done.
Qed.

Section StatusCodeIntegers.
Lemma is_text_spec r s : is_text r s = true <-> r = Ok (VStr s).
Proof.
  unfold is_text. split.
  - destruct r as [[]|]; try done. by intros ->%String.eqb_eq.
  - intros ->. apply String.eqb_refl.
Qed.

Lemma integer_codes_checked :
  forallb (fun n => is_text (formatStatusCode (num n)) (code_label n) &&
                    is_text (formatStatusCode (VStr (decimal n))) (code_label n))
          (seqZ 0 10000) = true.
Proof. vm_compute. reflexivity. Qed.
End StatusCodeIntegers.

(** X9. For every integer code from 0 to 9999, given as a number or as
    its decimal numeral in a string, [formatStatusCode] gives the same
    text: ["4 - ok"] for 4, ["6 - not ok"] for 6, and the decimal numeral
    for every other code. *)
Theorem formatStatusCode_integers (n : Z) (Hn : 0 <= n < 10000) :
  formatStatusCode (num n) = Ok (VStr (code_label n)) /\
  formatStatusCode (VStr (decimal n)) = Ok (VStr (code_label n)).
Proof.
  pose proof integer_codes_checked as H.
  rewrite forallb_forall in H. specialize (H n).
  rewrite <- list_elem_of_In, elem_of_seqZ in H.
  specialize (H ltac:(lia)). apply andb_prop in H as [H1 H2].
  by apply is_text_spec in H1, H2.
Qed.

Lemma formatStatusCode_integers_witness :
  formatStatusCode (num 112) = Ok (VStr "112") /\
  formatStatusCode (VStr "112") = Ok (VStr "112").
Proof. apply (formatStatusCode_integers 112). lia. Defined.

(** ** The outcomes of [renderState] *)

Section Outcomes.
(** The world after the [try] block of the Status History rows. *)
Lemma history_log data w :
  match (history_rows data).2 with
  | Throw err => with_log w "Error building status history rows" err
  | Ok _ => w
  end = w \/
  match (history_rows data).2 with
  | Throw err => with_log w "Error building status history rows" err
  | Ok _ => w
  end = {| doc := doc w; console := console w ++ [history_log_entry] |}.
Proof.
  destruct (history_rows data).2 as [|err] eqn:E; [by left|right].
  apply history_rows_throws in E as ->. reflexivity.
Qed.

Lemma document_eta d :
  d = {| el_current_status := el_current_status d;
         el_status_history := el_status_history d;
         el_transmissions := el_transmissions d;
         el_last_updated := el_last_updated d |}.
Proof. by destruct d. Qed.
End Outcomes.

Ltac render_stages data w :=
  let crows := fresh "crows" in let cb := fresh "cb" in
  let hb := fresh "hb" in let trows := fresh "trows" in let tb := fresh "tb" in
  let e := fresh "e" in
  let Hd := fresh "Hd" in let Hc := fresh "Hc" in let Hcb := fresh "Hcb" in
  let Hhb := fresh "Hhb" in let Ht := fresh "Ht" in let Htb := fresh "Htb" in
  rewrite ?renderState_phases;
  destruct (Js.ToBoolean data) eqn:Hd; cbn [negb];
  [destruct (current_rows data) as [crows|e] eqn:Hc;
   [rewrite ?makeTable_eq;
    destruct (cells crows) as [cb|e] eqn:Hcb;
    [rewrite ?makeTable_eq;
     destruct (cells (history_rows data).1) as [hb|e] eqn:Hhb;
     [destruct (transmission_rows data) as [trows|e] eqn:Ht;
      [rewrite ?makeTable_eq;
       destruct (cells trows) as [tb|e] eqn:Htb|]|]|]|]|].

Section OnlyTypeErrorEscapes.
Lemma renderState_throws now data w e :
  (renderState now data w).2 = Throw e -> e = TypeError.
Proof.
  render_stages data w; cbn [snd]; try done; intros [= <-].
  - by eapply cells_throws.
  - by eapply transmission_rows_throws.
  - by eapply cells_throws.
  - by eapply cells_throws.
  - by eapply current_rows_throws.
Qed.

Lemma renderState_console now data w :
  console (renderState now data w).1 = console w \/
  console (renderState now data w).1 = console w ++ [history_log_entry].
Proof.
  render_stages data w; cbn [fst with_doc console]; auto;
    by destruct (history_log data
                   (with_doc w (set_children CurrentStatus
                                  [table_of currentHeaders cb] (doc w))))
      as [-> | ->]; auto.
Qed.
End OnlyTypeErrorEscapes.

(** X10. Whatever the snapshot, [renderState] throws nothing but a
    TypeError, and it writes at most one entry to the console: the
    TypeError caught while building the Status History rows. *)
Theorem renderState_errors (now : string) (data : value) (w : world) :
  (forall e, (renderState now data w).2 = Throw e -> e = TypeError) /\
  (console (renderState now data w).1 = console w \/
   console (renderState now data w).1 = console w ++ [history_log_entry]).
Proof.
  split; [intros e; apply renderState_throws|apply renderState_console].
Qed.

(** X11. The outcomes of [renderState].  When it returns, either the
    snapshot was falsy and nothing changed, or each container holds one
    table with its headers and the status line reads the time of the
    rendering.  When it throws, the status line is as before and the
    tables are in one of five states, in the order of the code: nothing
    touched; Current Status emptied; Current Status shown and Status
    History emptied; both shown and Transmissions untouched; both shown
    and Transmissions emptied. *)
Theorem renderState_outcomes (now : string) (data : value) (w : world) :
  match (renderState now data w).2 with
  | Ok _ =>
      (Js.ToBoolean data = false /\ (renderState now data w).1 = w) \/
      (exists cb hb tb,
         doc (renderState now data w).1 =
         {| el_current_status := [table_of currentHeaders cb];
            el_status_history := [table_of histHeaders hb];
            el_transmissions := [table_of txHeaders tb];
            el_last_updated := "Last loaded: " +:+ now |})
  | Throw _ =>
      el_last_updated (doc (renderState now data w).1) = el_last_updated (doc w) /\
      ((renderState now data w).1 = w \/
       tables (doc (renderState now data w).1)
       = ([], el_status_history (doc w), el_transmissions (doc w)) \/
       (exists cb,
          tables (doc (renderState now data w).1)
          = ([table_of currentHeaders cb], [], el_transmissions (doc w))) \/
       (exists cb hb,
          tables (doc (renderState now data w).1)
          = ([table_of currentHeaders cb], [table_of histHeaders hb],
             el_transmissions (doc w))) \/
       (exists cb hb,
          tables (doc (renderState now data w).1)
          = ([table_of currentHeaders cb], [table_of histHeaders hb], [])))
  end.
Proof.
  render_stages data w; cbn [fst snd].
  - right. exists cb, hb, tb. by destruct (history_rows data).2.
  - split; [by destruct (history_rows data).2|].
    right; right; right; right. exists cb, hb. by destruct (history_rows data).2.
  - split; [by destruct (history_rows data).2|].
    right; right; right; left. exists cb, hb. by destruct (history_rows data).2.
  - split; [by destruct (history_rows data).2|].
    right; right; left. exists cb. by destruct (history_rows data).2.
  - split; [done|]. right; left. done.
  - split; [done|]. by left.
  - by left.
Qed.

Section Rectangular.
Lemma current_row_length s locs team row :
  current_row s locs team = Ok row -> length row = 6%nat.
Proof.
  unfold current_row. intros H.
  repeat match type of H with
  | (let* _ := ?r in _) = Ok _ => destruct r; cbn [rbind] in H; [|done]
  | (if ?b then _ else _) = Ok _ => destruct b
  end; by injection H as <-.
Qed.

Lemma history_row_length team ev row :
  history_row team ev = Ok row -> length row = 6%nat.
Proof.
  unfold history_row. intros H.
  repeat match type of H with
  | (let* _ := ?r in _) = Ok _ => destruct r; cbn [rbind] in H; [|done]
  end; by injection H as <-.
Qed.

Lemma transmission_row_length t row :
  transmission_row t = Ok row -> length row = 4%nat.
Proof.
  unfold transmission_row. intros H.
  repeat match type of H with
  | (let* _ := ?r in _) = Ok _ => destruct r; cbn [rbind] in H; [|done]
  end; by injection H as <-.
Qed.

Lemma mapM_Forall {A B} (f : A -> result B) (P : B -> Prop) l rows :
  (forall a b, f a = Ok b -> P b) -> mapM f l = Ok rows -> Forall P rows.
Proof.
  intros Hf H. apply mapM_Forall2 in H.
  induction H; constructor; eauto.
Qed.

Lemma forEach_push_Forall {A B} (f : A -> result B) (P : B -> Prop) l acc :
  (forall a b, f a = Ok b -> P b) -> Forall P acc ->
  Forall P (forEach (push_each f) l acc).1.
Proof.
  intros Hf. revert acc. induction l as [|a l IH]; intros acc Hacc; [done|].
  cbn [forEach]. unfold bind, push_each at 1, bind, lift, push, modify.
  destruct (f a) as [b|e] eqn:Ha; [|done].
  apply IH. apply Forall_app. split; [done|]. repeat constructor. eauto.
Qed.

Lemma cells_Forall n rows body :
  Forall (fun r => length r = n) rows -> cells rows = Ok body ->
  Forall (fun r => length r = n) body.
Proof.
  intros Hr Hb. apply mapM_Forall2 in Hb.
  induction Hb as [|row cs rows body Hcs _ IH]; [done|].
  apply Forall_cons_1 in Hr as [Hrow Hr]. constructor; [|by apply IH].
  apply mapM_length in Hcs. congruence.
Qed.

Lemma current_rows_rectangular data rows :
  current_rows data = Ok rows -> Forall (fun r => length r = 6%nat) rows.
Proof. apply mapM_Forall. apply current_row_length. Qed.

Lemma history_rows_rectangular data :
  Forall (fun r => length r = 6%nat) (history_rows data).1.
Proof.
  rewrite history_rows_flat. apply forEach_push_Forall; [|done].
  intros [team ev|team] row; [apply history_row_length|done].
Qed.

Lemma transmission_rows_rectangular data rows :
  transmission_rows data = Ok rows -> Forall (fun r => length r = 4%nat) rows.
Proof.
  unfold transmission_rows.
  destruct (Js.Get data Js.transmissions); [|done]. cbn [rbind].
  destruct (as_array _); [|done]. cbn [rbind].
  apply mapM_Forall. apply transmission_row_length.
Qed.
End Rectangular.

(** X12. Whatever the snapshot and whether or not the rendering fails, a
    container [renderState] has touched is empty or holds a single table
    with the headers of that container and, in each body row, as many
    cells as there are headers: six, six and four. *)
Theorem renderState_tables_rectangular (now : string) (data : value)
  (w : world) (c : container) :
  children c (doc (renderState now data w).1) = children c (doc w) \/
  children c (doc (renderState now data w).1) = [] \/
  exists body,
    children c (doc (renderState now data w).1) = [table_of (headers_of c) body] /\
    Forall (fun r => length r = length (headers_of c)) body.
Proof.
  pose proof (history_rows_rectangular data) as Hh.
  render_stages data w; cbn [fst snd]; try (by left);
    pose proof (current_rows_rectangular _ _ Hc) as Hcr;
    try pose proof (cells_Forall _ _ _ Hcr Hcb) as Hcbr;
    try pose proof (cells_Forall _ _ _ Hh Hhb) as Hhbr;
    try pose proof (transmission_rows_rectangular _ _ Ht) as Htr;
    try pose proof (cells_Forall _ _ _ Htr Htb) as Htbr;
    destruct (history_rows data).2; destruct c; cbn; eauto.
Qed.

(** ** Failures outside the [try] block *)

Section Abort.
Lemma status_of_object o st :
  o !! "status_by_team" = Some (VObj st) -> status_of (VObj o) = VObj st.
Proof.
  intros H. unfold status_of, Js.Get. cbn [Js.field_name]. rewrite H.
  reflexivity.
Qed.

Lemma sorted_teams_object o st team :
  o !! "status_by_team" = Some (VObj st) -> is_Some (st !! team) ->
  team ∈ sorted_teams (VObj o).
Proof.
  intros H [h Hh]. unfold sorted_teams. rewrite (status_of_object o st H).
  cbn [Js.keys]. unfold sort_keys. rewrite merge_sort_Permutation.
  apply list_elem_of_fmap. exists (team, h). split; [done|].
  by apply elem_of_map_to_list.
Qed.

Lemma current_rows_abort data team :
  team ∈ sorted_teams data ->
  current_row (status_of data) (locs_of data) team = Throw TypeError ->
  current_rows data = Throw TypeError.
Proof.
  intros Hin Hrow. apply mapM_Exists_throw; [apply current_row_throws|].
  apply Exists_exists. by exists team.
Qed.
End Abort.

(** X13. When the newest event of some team carries a timestamp that is
    neither falsy nor a string (a number, say), [renderState] throws a
    TypeError before it touches the page: the three tables, the status
    line and the console are exactly as they were, although the same
    failure in the Status History rows would have been caught. *)
Theorem newest_timestamp_failure_aborts (now : string)
  (o st ev : gmap string value) (team : string) (l : list value) (ts : value)
  (w : world)
  (Hs : o !! "status_by_team" = Some (VObj st))
  (Ht : st !! team = Some (VArr l))
  (Hl : last l = Some (VObj ev))
  (Hts : ev !! "timestamp" = Some ts)
  (Hb : Js.ToBoolean ts = true) (Hn : Js.typeof_string ts = false) :
  renderState now (VObj o) w = (w, Throw TypeError).
Proof.
  rewrite renderState_phases. cbn [Js.ToBoolean negb].
  rewrite (current_rows_abort (VObj o) team); [done| |].
  - eapply sorted_teams_object; [done|by eexists].
  - rewrite (status_of_object o st Hs). unfold current_row.
    cbn [Js.GetOwn]. rewrite Ht.
    change (or_else (default VUndefined (Some (VArr l))) (VArr [])) with (VArr l).
    cbn [current_of rbind]. rewrite Hl.
    change (default VNull (Some (VObj ev))) with (VObj ev).
    cbn [Js.ToBoolean Js.Get Js.field_name]. rewrite Hts.
    change (default VUndefined (Some ts)) with ts. cbn [rbind].
    by rewrite (formatTimestamp_non_string ts Hb Hn).
Qed.

Lemma newest_timestamp_failure_aborts_witness :
  renderState "now" snapshot_numeric_timestamp populated
  = (populated, Throw TypeError).
Proof.
  apply (newest_timestamp_failure_aborts "now" _
           (list_to_map [("A", VArr [sample_event]);
                         ("B", VArr [obj [("timestamp", num 20240101)]])])
           (list_to_map [("timestamp", num 20240101)])
           "B" [obj [("timestamp", num 20240101)]] (num 20240101));
    by vm_compute.
Defined.

(** ** The Transmissions table *)

Section TransmissionsTable.


End TransmissionsTable.



Section NotArray.
Lemma insert_transmissions_status o t :
  status_of (VObj (<["transmissions" := t]> o)) = status_of (VObj o).
Proof.
  unfold status_of, Js.Get. cbn [Js.field_name].
  by rewrite lookup_insert_ne.
Qed.

Lemma insert_transmissions_locs o t :
  locs_of (VObj (<["transmissions" := t]> o)) = locs_of (VObj o).
Proof.
  unfold locs_of, Js.Get. cbn [Js.field_name].
  by rewrite lookup_insert_ne.
Qed.

Lemma insert_transmissions_rows o t :
  current_rows (VObj (<["transmissions" := t]> o)) = current_rows (VObj o) /\
  history_rows (VObj (<["transmissions" := t]> o)) = history_rows (VObj o).
Proof.
  unfold current_rows, history_rows, sorted_teams.
  by rewrite insert_transmissions_status, insert_transmissions_locs.
Qed.

Lemma transmission_rows_not_array o t :
  Js.ToBoolean t = true -> (forall l, t <> VArr l) ->
  transmission_rows (VObj (<["transmissions" := t]> o)) = Throw TypeError.
Proof.
  intros Hb Ha. unfold transmission_rows, Js.Get. cbn [Js.field_name].
  rewrite lookup_insert_eq.
  change (default VUndefined (Some t)) with t. cbn [rbind].
  unfold or_else. rewrite Hb.
  destruct t; try done. by destruct (Ha l).
Qed.
End NotArray.

(** X15. When [transmissions] holds a truthy value that is not an array
    (an object keyed by index, a string) in an otherwise well-formed
    snapshot, [renderState] shows the Current Status and Status History
    tables of the snapshot and then throws a TypeError: the Transmissions
    table and the status line stay as they were, and nothing is logged. *)
Theorem transmissions_not_array (now : string) (o : gmap string value)
  (t : value) (w : world)
  (Hwf : wf_snapshot (VObj o) = true)
  (Hb : Js.ToBoolean t = true) (Ha : forall l, t <> VArr l) :
  let data := VObj (<["transmissions" := t]> o) in
  (renderState now data w).2 = Throw TypeError /\
  el_current_status (doc (renderState now data w).1)
  = el_current_status (doc (renderState now (VObj o) w).1) /\
  el_status_history (doc (renderState now data w).1)
  = el_status_history (doc (renderState now (VObj o) w).1) /\
  el_transmissions (doc (renderState now data w).1) = el_transmissions (doc w) /\
  el_last_updated (doc (renderState now data w).1) = el_last_updated (doc w) /\
  console (renderState now data w).1 = console w.
Proof.
  intros data.
  destruct (renderState_wf (VObj o) Hwf now w)
    as (crows & cbody & hrows & hbody & trows & tbody
        & Hc & Hcb & Hcs & Hh & Hhb & Hhs & Ht & Htb & ->).
  subst data. rewrite renderState_phases. cbn [Js.ToBoolean negb].
  destruct (insert_transmissions_rows o t) as [-> ->].
  rewrite Hc, makeTable_eq, Hcb, Hh. cbn [fst snd].
  rewrite makeTable_eq, Hhb, (transmission_rows_not_array o t Hb Ha).
  by repeat split.
Qed.

Lemma transmissions_not_array_witness :
  (renderState "now" snapshot_transmissions_object populated).2 = Throw TypeError /\
  el_transmissions (doc (renderState "now" snapshot_transmissions_object populated).1)
  = el_transmissions (doc populated).
Proof.
  destruct (transmissions_not_array "now"
              (list_to_map
                 [("status_by_team", obj [("A", VArr [sample_event])]);
                  ("location_by_team", obj [("A", VStr "HQ")])])
              (obj [("0", sample_event)]) populated)
    as (H1 & _ & _ & H2 & _).
  - by vm_compute.
  - reflexivity.
  - intros l. discriminate.
  - split; [exact H1|exact H2].
Defined.

(** ** The two status tables agree *)

Section Agreement.
Lemma Forall2_elem_l {A B} (P : A -> B -> Prop) l k a :
  Forall2 P l k -> a ∈ l -> exists b, b ∈ k /\ P a b.
Proof.
  intros H Ha. induction H as [|x y l k Hxy _ IH]; [by apply elem_of_nil in Ha|].
  apply elem_of_cons in Ha as [->|Ha].
  - exists y. split; [by left|done].
  - destruct (IH Ha) as (b & Hb & HP). exists b. split; [by right|done].
Qed.

Lemma last_elem {A} (l : list A) a : last l = Some a -> a ∈ l.
Proof.
  intros [l' ->]%last_Some. apply elem_of_app. right. by left.
Qed.

Lemma history_team data team ev :
  ev ∈ history_of data team -> is_Some (teams data !! team).
Proof.
  unfold history_of. destruct (teams data !! team); [by eexists|].
  intros H. by apply elem_of_nil in H.
Qed.
End Agreement.

(** X16. For a well-formed snapshot, the Current Status row of a team with
    events repeats the last Status History row of that team: the same
    formatted location status, transit, formatted status code and
    formatted timestamp appear in both rows. *)
Theorem current_row_repeats_history (data : value) (team : string) (ev : value)
  (Hwf : wf_snapshot data = true)
  (Hlast : last (history_of data team) = Some ev) :
  exists crows hrows (loc : jsval) (ts ls tr sc : value),
    current_rows data = Ok crows /\
    history_rows data = (hrows, Ok tt) /\
    [Json (VStr team); loc; Json ls; Json tr; Json sc; Json ts] ∈ crows /\
    [Json (VStr team); Json ts; Json (field_of ev Js.location); Json ls;
     Json tr; Json sc] ∈ hrows.
Proof.
  destruct (wf_current_rows data Hwf) as (crows & cbody & Hc & _ & Hcs).
  destruct (wf_history_rows data Hwf) as (hrows & hbody & Hh & _ & Hhs).
  pose proof (last_elem _ _ Hlast) as Hev.
  assert (Hteam : team ∈ sorted_teams data).
  { apply (sorted_teams_elem data Hwf). by eapply history_team. }
  destruct (Forall2_elem_l _ _ _ team Hcs Hteam)
    as (crow & Hcrow & ls & tr & sc & ts & -> & Hspec).
  rewrite Hlast in Hspec. destruct Hspec as (Hls & -> & Hsc & Hts).
  assert (Hpair : (team, ev) ∈ pairs data (sorted_teams data)).
  { unfold pairs. apply list_elem_of_In, in_flat_map. exists team.
    split; [by apply list_elem_of_In|].
    apply in_map. by apply list_elem_of_In. }
  destruct (Forall2_elem_l _ _ _ (team, ev) Hhs Hpair)
    as (hrow & Hhrow & ts' & ls' & sc' & -> & Hts' & Hls' & Hsc').
  cbn [fst snd] in *.
  assert (ts' = ts) as -> by congruence.
  assert (ls' = ls) as -> by congruence.
  assert (sc' = sc) as -> by congruence.
  exists crows, hrows, (current_location data team), ts, ls,
    (field_of ev Js.transit), sc.
  by repeat split.
Qed.

Lemma current_row_repeats_history_witness :
  exists crows hrows (loc : jsval) (ts ls tr sc : value),
    current_rows sample_snapshot = Ok crows /\
    history_rows sample_snapshot = (hrows, Ok tt) /\
    [Json (VStr "A"); loc; Json ls; Json tr; Json sc; Json ts] ∈ crows /\
    [Json (VStr "A"); Json ts; Json (field_of sample_event Js.location); Json ls;
     Json tr; Json sc] ∈ hrows.
Proof.
  apply (current_row_repeats_history sample_snapshot "A" sample_event);
    by vm_compute.
Defined.

(** ** [refresh] and the page *)

Section Refresh.
Lemma refresh_data st v now w :
  Js.ToBoolean v = true ->
  refresh (Response true st (Parsed v)) now w = renderState now v w.
Proof. intros H. unfold refresh, bind. cbn. by rewrite H. Qed.

Lemma refresh_no_data f now w :
  no_data f = true ->
  (refresh f now w).2 = Ok tt /\ doc (refresh f now w).1 = doc w.
Proof.
  destruct f as [|[] st [v|]]; cbn [no_data]; intros H; try done.
  unfold refresh, bind. cbn. apply negb_true_iff in H. by rewrite H.
Qed.

Lemma session_app rs1 rs2 w :
  session (rs1 ++ rs2) w = session rs2 (session rs1 w).
Proof. apply fold_left_app. Qed.

Lemma session_no_data rs w :
  Forall (fun r : request => no_data r.1 = true) rs ->
  doc (session rs w) = doc w.
Proof.
  intros H. revert w. induction H as [|[f now] rs Hr _ IH]; intros w; [done|].
  change (session ((f, now) :: rs) w) with (session rs (after_refresh w (f, now))).
  rewrite IH. unfold after_refresh. by apply refresh_no_data.
Qed.

(** Whether a rendering completes depends on the snapshot only. *)
Lemma renderState_result now now' data w w' :
  (renderState now data w).2 = (renderState now' data w').2.
Proof.
  rewrite !renderState_phases.
  destruct (Js.ToBoolean data); cbn [negb]; [|done].
  destruct (current_rows data) as [crows|e]; [|done].
  rewrite !makeTable_eq. destruct (cells crows) as [cb|e]; [|done].
  rewrite !makeTable_eq.
  destruct (cells (history_rows data).1) as [hb|e]; [|done].
  destruct (transmission_rows data) as [trows|e]; [|done].
  rewrite !makeTable_eq. by destruct (cells trows) as [tb|e].
Qed.
End Refresh.

(** X17. A refresh whose fetch brings nothing to render (a transport
    failure, a status that is not a success, a body that is not JSON, or a
    falsy JSON value such as [null]) completes without throwing and leaves
    the document as it was.  A body that is not JSON is logged as a
    SyntaxError under ["fetchState failed"]; a falsy JSON value is not
    logged at all. *)
Theorem refresh_without_data (f : fetched) (now : string) (w : world)
  (H : no_data f = true) :
  (refresh f now w).2 = Ok tt /\
  doc (refresh f now w).1 = doc w /\
  (forall st, f = Response true st Malformed ->
     console (refresh f now w).1
     = console w ++ [{| label := "fetchState failed"; logged := SyntaxError |}]) /\
  (forall st v, f = Response true st (Parsed v) -> (refresh f now w).1 = w).
Proof.
  destruct (refresh_no_data f now w H) as [H1 H2].
  refine (conj H1 (conj H2 (conj _ _))).
  - by intros st ->.
  - intros st v ->. cbn [no_data] in H. apply negb_true_iff in H.
    unfold refresh, bind. cbn. by rewrite H.
Qed.

Lemma refresh_without_data_witness :
  doc (refresh (Response true "OK" Malformed) "now" populated).1 = doc populated /\
  (refresh (Response true "OK" (Parsed VNull)) "now" populated).1 = populated.
Proof.
  split.
  - by apply (refresh_without_data (Response true "OK" Malformed) "now" populated).
  - destruct (refresh_without_data (Response true "OK" (Parsed VNull)) "now"
                populated eq_refl) as (_ & _ & _ & H).
    by apply (H "OK" VNull).
Defined.

Section FetchBoundary.
Lemma fetchState_cases f w :
  (exists st v, f = Response true st (Parsed v) /\ fetchState f w = (w, Ok v)) \/
  (exists e, fetchState f w = (with_log w "fetchState failed" e, Ok VNull)).
Proof.
  destruct f as [|[] st [v|]]; [right|left|right|right|right];
    try (by eexists); by exists st, v.
Qed.
End FetchBoundary.

(** X20. Nothing but a rendering failure crosses [refresh]: [fetchState]
    never throws and never touches the document, whatever the fetch
    settles to, and when [refresh] throws, the exception is a TypeError
    of [renderState] on a truthy body of a successful response. *)
Theorem refresh_errors (f : fetched) (now : string) (w : world) :
  (exists v, (fetchState f w).2 = Ok v) /\
  doc (fetchState f w).1 = doc w /\
  (forall e, (refresh f now w).2 = Throw e ->
     e = TypeError /\
     exists st v, f = Response true st (Parsed v) /\ Js.ToBoolean v = true /\
                  (renderState now v w).2 = Throw TypeError).
Proof.
  destruct (fetchState_cases f w) as [(st & v & -> & E)|[e0 E]].
  - rewrite E. refine (conj _ (conj _ _)); [by eexists|done|].
    intros e. unfold refresh, bind. rewrite E.
    destruct (Js.ToBoolean v) eqn:Hv; [|done].
    intros He. pose proof (renderState_throws _ _ _ _ He) as ->.
    split; [done|]. by exists st, v.
  - rewrite E. refine (conj _ (conj _ _)); [by eexists|done|].
    intros e. unfold refresh, bind. by rewrite E.
Qed.

(** X18. The display is that of the last snapshot that was rendered
    completely: after any refreshes, one that renders a snapshot to the
    end, and then any number of refreshes that bring nothing to render,
    the three tables are those of that snapshot rendered on an empty
    page. *)
Theorem stale_display (before after : list request) (st now : string)
  (v : value) (w : world)
  (Hv : Js.ToBoolean v = true)
  (Hok : (renderState now v blank).2 = Ok tt)
  (Hafter : Forall (fun r : request => no_data r.1 = true) after) :
  tables (doc (session (before ++ (Response true st (Parsed v), now) :: after) w))
  = tables (doc (renderState now v blank).1).
Proof.
  rewrite session_app.
  change (session (?r :: after) ?x) with (session after (after_refresh x r)).
  unfold tables at 1.
  rewrite session_no_data by done. unfold after_refresh. cbn [fst snd].
  rewrite refresh_data by done.
  apply render_full_replace; [done|].
  by rewrite (renderState_result now now v _ blank).
Qed.

Lemma stale_display_witness :
  tables (doc (session [(Response true "OK" (Parsed snapshot_with_null_event), "t0");
                        (Response true "OK" (Parsed sample_snapshot), "t1");
                        (Rejected, "t2");
                        (Response false "Bad Gateway" Malformed, "t3")] populated))
  = tables (doc (renderState "t1" sample_snapshot blank).1).
Proof.
  apply (stale_display
           [(Response true "OK" (Parsed snapshot_with_null_event), "t0")]
           [(Rejected, "t2"); (Response false "Bad Gateway" Malformed, "t3")]
           "OK" "t1" sample_snapshot populated).
  - reflexivity.
  - by vm_compute.
  - repeat constructor.
Defined.

Section Page.


End Page.



(** ** [formatStatusCode], input by input *)

Section NotNumeric.
Lemma skip_ws_last l c :
  Num.StrWhiteSpaceChar c = false ->
  exists l', Num.skip_ws (l ++ [c]) = l' ++ [c].
Proof.
  intros Hc. induction l as [|a l IH]; cbn [app Num.skip_ws].
  - rewrite Hc. by exists [].
  - destruct (Num.StrWhiteSpaceChar a); [done|]. by exists (a :: l).
Qed.

Lemma trim_head c r :
  Num.StrWhiteSpaceChar c = false -> exists r', Num.trim (c :: r) = c :: r'.
Proof.
  intros Hc. unfold Num.trim. cbn [Num.skip_ws]. rewrite Hc. cbn [rev].
  destruct (skip_ws_last (rev r) c Hc) as [l' ->].
  exists (rev l'). by rewrite rev_app_distr.
Qed.

Lemma literal_head c r :
  not_numeric (String c "") = true ->
  Num.NonDecimalIntegerLiteral (c :: r) = None /\
  Num.StrDecimalLiteral (c :: r) = Num.NaN.
Proof.
  destruct c as [[] [] [] [] [] [] [] []]; intros H; try discriminate H;
    split; reflexivity.
Qed.

Lemma not_numeric_NaN s :
  not_numeric s = true -> Num.StringToNumber s = Num.NaN /\ s <> "".
Proof.
  destruct s as [|c s]; [done|]. intros H. split; [|done].
  assert (Hc : Num.StrWhiteSpaceChar c = false).
  { unfold not_numeric, is_whitespace in H.
    destruct (Num.StrWhiteSpaceChar c); [discriminate H|done]. }
  unfold Num.StringToNumber. change (Str.chars (String c s)) with (c :: Str.chars s).
  destruct (trim_head c (Str.chars s) Hc) as [r' ->].
  destruct (literal_head c r' H) as [-> ->]. done.
Qed.
End NotNumeric.

Section StatusCodeCases.
Lemma formatStatusCode_number x :
  formatStatusCode (VNum x) = Ok (VStr (number_label x)).
Proof.
  unfold formatStatusCode, number_label. cbn [Js.is_nullish Js.is_empty_string orb
    Js.ToNumber Js.ToString rbind].
  destruct (Num.isNaN x) eqn:Hx; cbn [negb].
  - destruct x; try discriminate Hx. reflexivity.
  - destruct (Num.eqb x (Num.of_Z 4)); [done|].
    by destruct (Num.eqb x (Num.of_Z 6)).
Qed.

Lemma formatStatusCode_text s :
  s <> "" ->
  formatStatusCode (VStr s)
  = Ok (VStr (if Num.isNaN (Num.StringToNumber s) then s
              else number_label (Num.StringToNumber s))).
Proof.
  intros Hs. unfold formatStatusCode, number_label.
  cbn [Js.is_nullish Js.is_empty_string orb Js.ToNumber Js.ToString rbind].
  destruct (String.eqb_spec s ""); [done|].
  destruct (Num.isNaN (Num.StringToNumber s)); cbn [negb]; [done|].
  destruct (Num.eqb (Num.StringToNumber s) (Num.of_Z 4)); [done|].
  by destruct (Num.eqb (Num.StringToNumber s) (Num.of_Z 6)).
Qed.
End StatusCodeCases.

(** C4. [formatStatusCode] gives the empty string for empty or null
    input.  Every integer code from 0 to 9999, as a number or as its
    decimal numeral in a string, gives ["4 - ok"] for 4, ["6 - not ok"]
    for 6 and its decimal numeral otherwise; any number gives one of the
    two labels or its string form.  A string that [Number] reads as a
    number is treated as that number, and any other string, in particular
    one that starts like no numeric literal, comes back unchanged.  Every
    value that has a string form gives a string. *)
Theorem formatStatusCode_spec :
  (forall code, empty_or_null code -> formatStatusCode code = Ok (VStr "")) /\
  (forall n, 0 <= n < 10000 ->
     formatStatusCode (num n) = Ok (VStr (code_label n)) /\
     formatStatusCode (VStr (decimal n)) = Ok (VStr (code_label n))) /\
  (forall x, formatStatusCode (VNum x) = Ok (VStr (number_label x))) /\
  (forall s, not_numeric s = true -> formatStatusCode (VStr s) = Ok (VStr s)) /\
  (forall s, s <> "" ->
     formatStatusCode (VStr s)
     = Ok (VStr (if Num.isNaN (Num.StringToNumber s) then s
                 else number_label (Num.StringToNumber s)))) /\
  (forall code, printable code = true ->
     exists r, formatStatusCode code = Ok (VStr r)).
Proof.
  refine (conj _ (conj _ (conj _ (conj _ (conj _ _))))).
  - intros code H. apply empty_or_null_test in H.
    unfold formatStatusCode. by rewrite H.
  - intros n Hn. pose proof integer_codes_checked as H.
    rewrite forallb_forall in H. specialize (H n).
    rewrite <- list_elem_of_In, elem_of_seqZ in H.
    specialize (H ltac:(lia)). apply andb_prop in H as [H1 H2].
    by apply is_text_spec in H1, H2.
  - apply formatStatusCode_number.
  - intros s Hs. destruct (not_numeric_NaN s Hs) as [Hn Hne].
    by rewrite formatStatusCode_text, Hn.
  - apply formatStatusCode_text.
  - intros code. apply formatStatusCode_printable.
Qed.

Lemma formatStatusCode_spec_witness :
  formatStatusCode VNull = Ok (VStr "") /\
  formatStatusCode (VStr "") = Ok (VStr "") /\
  formatStatusCode (num 4) = Ok (VStr "4 - ok") /\
  formatStatusCode (VStr "4") = Ok (VStr "4 - ok") /\
  formatStatusCode (num 6) = Ok (VStr "6 - not ok") /\
  formatStatusCode (VStr "6") = Ok (VStr "6 - not ok") /\
  formatStatusCode (num 7) = Ok (VStr "7") /\
  formatStatusCode (VStr "7") = Ok (VStr "7") /\
  formatStatusCode (VStr "n/a") = Ok (VStr "n/a").
Proof.
  destruct formatStatusCode_spec as (He & Hi & _ & Hs & _).
  refine (conj _ (conj _ (conj _ (conj _ (conj _ (conj _ (conj _ (conj _ _)))))))).
  - apply He. by left.
  - apply He. by right; right.
  - apply (Hi 4). lia.
  - apply (Hi 4). lia.
  - apply (Hi 6). lia.
  - apply (Hi 6). lia.
  - apply (Hi 7). lia.
  - apply (Hi 7). lia.
  - apply Hs. reflexivity.
Defined.

(** ** The text of the Current Status and Status History tables *)

Section CellText.
Lemma make_cell_display v c :
  scalar v = true -> make_cell (Json v) = Ok c -> text c = display_text v.
Proof.
  destruct v; try done; unfold make_cell, Js.ToStringJ; cbn [Js.ToString rbind];
    intros _ H; try (by injection H as <-).
  by destruct (_ && _); injection H as <-.
Qed.

Lemma formatTimestamp_VStr v r : formatTimestamp v = Ok r -> exists s, r = VStr s.
Proof.
  intros H. destruct (Js.ToBoolean v) eqn:Hb.
  - destruct (Js.typeof_string v) eqn:Ht.
    + destruct v; try discriminate Ht.
      destruct (formatTimestamp_string s) as [t Hs]. exists t. congruence.
    + rewrite (formatTimestamp_non_string v Hb Ht) in H. done.
  - unfold formatTimestamp in H. rewrite Hb in H. cbn [negb] in H.
    injection H as <-. by eexists.
Qed.

Lemma formatLocationStatus_VStr v r :
  formatLocationStatus v = Ok r -> exists s, r = VStr s.
Proof.
  intros H. destruct (printable v) eqn:Hp.
  - destruct (proj1 (formatLocationStatus_printable v) Hp) as [s Hs].
    exists s. congruence.
  - rewrite (proj2 (formatLocationStatus_printable v) Hp) in H. done.
Qed.

Lemma formatStatusCode_VStr v r :
  formatStatusCode v = Ok r -> exists s, r = VStr s.
Proof.
  intros H. destruct (printable v) eqn:Hp.
  - destruct (proj1 (formatStatusCode_printable v) Hp) as [s Hs].
    exists s. congruence.
  - rewrite (proj2 (formatStatusCode_printable v) Hp) in H. done.
Qed.




Lemma mapM_cells6 (a b c d e f : jsval) cs :
  mapM make_cell [a; b; c; d; e; f] = Ok cs ->
  exists ca cb cc cd ce cf,
    cs = [ca; cb; cc; cd; ce; cf] /\
    make_cell a = Ok ca /\ make_cell b = Ok cb /\ make_cell c = Ok cc /\
    make_cell d = Ok cd /\ make_cell e = Ok ce /\ make_cell f = Ok cf.
Proof.
  intros H. apply mapM_Forall2 in H.
  repeat match goal with
  | H : Forall2 _ (_ :: _) _ |- _ => apply Forall2_cons_inv_l in H as (? & ? & ? & H & ->)
  | H : Forall2 _ [] _ |- _ => apply Forall2_nil_inv_l in H as ->
  end.
  by repeat eexists.
Qed.

Lemma Forall2_compose {A B C} (P : A -> B -> Prop) (Q : B -> C -> Prop)
  (R : A -> C -> Prop) la lb lc :
  (forall a b c, a ∈ la -> P a b -> Q b c -> R a c) ->
  Forall2 P la lb -> Forall2 Q lb lc -> Forall2 R la lc.
Proof.
  intros H HP. revert lc. induction HP as [|a b la lb Hab _ IH]; intros lc HQ.
  - apply Forall2_nil_inv_l in HQ as ->. constructor.
  - apply Forall2_cons_inv_l in HQ as (c & lc' & Hbc & HQ & ->).
    constructor.
    + eapply H; [by left|done..].
    + apply IH; [|done]. intros. eapply H; [by right|done..].
Qed.
End CellText.

Section TableText.
Variable data : value.
Hypothesis wf : wf_snapshot data = true.



Lemma history_cells te row cs :
  te ∈ pairs data (sorted_teams data) ->
  HistoryRowSpec te row -> mapM make_cell row = Ok cs ->
  HistoryCellsSpec te cs.
Proof using wf.
  intros Hte (ts & ls & sc & -> & Hts & Hls & Hsc) Hcs.
  apply mapM_cells6 in Hcs
    as (c1 & c2 & c3 & c4 & c5 & c6 & -> & H1 & H2 & H3 & H4 & H5 & H6).
  pose proof (wf_pairs_events data wf te Hte) as He.
  apply wf_event_inv in He as (_ & _ & _ & Sl & _ & Stra & _).
  exists ts, ls, sc. refine (conj _ (conj Hts (conj Hls Hsc))).
  apply formatLocationStatus_VStr in Hls as [? ->].
  apply formatStatusCode_VStr in Hsc as [? ->].
  apply formatTimestamp_VStr in Hts as [? ->].
  cbn [map]. rewrite (make_cell_display (VStr te.1) c1 eq_refl H1).
  by rewrite (make_cell_display (VStr _) c2 eq_refl H2), (make_cell_display _ _ Sl H3),
    (make_cell_display (VStr _) c4 eq_refl H4), (make_cell_display _ _ Stra H5),
    (make_cell_display (VStr _) c6 eq_refl H6).
Qed.


Lemma history_table_text hrows hbody :
  Forall2 HistoryRowSpec (pairs data (sorted_teams data)) hrows ->
  cells hrows = Ok hbody ->
  Forall2 HistoryCellsSpec (pairs data (sorted_teams data)) hbody.
Proof using wf.
  intros Hs Hb. apply mapM_Forall2 in Hb.
  eapply Forall2_compose; [|exact Hs|exact Hb].
  intros te row cs Hte. by apply history_cells.
Qed.
End TableText.


(** C7. For every snapshot of the data model the Status History container
    holds one table with one row per (team, event) pair, so as many rows
    as the histories have events in total; the pairs come team by team in
    ascending order of the team identifiers and, within a team, in stored
    order.  The cells of the row of a pair read: the team, the formatted
    timestamp, the location, the formatted location status, the transit
    and the formatted status code of the event. *)
Theorem status_history_table (now : string) (data : value) (w : world)
  (Hwf : wf_snapshot data = true) :
  exists (ts : list string) (body : list (list cell)),
    el_status_history (doc (renderState now data w).1)
    = [table_of histHeaders body] /\
    length body
    = sum_list_with (fun kv => length (events kv.2)) (map_to_list (teams data)) /\
    StronglySorted String.le ts /\ NoDup ts /\
    (forall team, team ∈ ts <-> is_Some (teams data !! team)) /\
    Forall2 HistoryCellsSpec (pairs data ts) body.
Proof.
  destruct (renderState_wf data Hwf now w)
    as (crows & cbody & hrows & hbody & trows & tbody
        & Hc & Hcb & Hcs & Hh & Hhb & Hhs & Ht & Htb & ->).
  exists (sorted_teams data), hbody.
  pose proof (history_table_text data Hwf hrows hbody Hhs Hhb) as Htext.
  repeat split; try done.
  - rewrite <- (Forall2_length _ _ _ Htext), pairs_length.
    apply history_total. by apply sorted_teams_perm.
  - by apply sorted_teams_sorted.
  - by apply sorted_teams_NoDup.
  - by apply sorted_teams_elem.
  - by apply sorted_teams_elem.
Qed.


Lemma status_history_table_witness :
  wf_snapshot roster_snapshot = true /\
  exists ts body,
    el_status_history (doc (renderState "now" roster_snapshot populated).1)
    = [table_of histHeaders body] /\
    map (map text) body
    = [["alpha"; "yesterday"; "Camp"; "0"; "12"; "7"];
       ["bravo"; "2024-01-01 00:00:00.000 UTC"; ""; "50%"; "bus"; "4 - ok"];
       ["bravo"; "2024-01-02 03:04:05.000 UTC"; "Ridge"; "75%"; "foot";
        "6 - not ok"]] /\
    length body
    = sum_list_with (fun kv => length (events kv.2))
        (map_to_list (teams roster_snapshot)) /\
    StronglySorted String.le ts /\
    (forall team, team ∈ ts <-> is_Some (teams roster_snapshot !! team)) /\
    Forall2 HistoryCellsSpec (pairs roster_snapshot ts) body.
Proof.
  assert (H : wf_snapshot roster_snapshot = true) by (vm_compute; reflexivity).
  split; [exact H|].
  destruct (status_history_table "now" roster_snapshot populated H)
    as (ts & body & Hdoc & Hlen & Hs & _ & He & Hf).
  exists ts, body. refine (conj Hdoc (conj _ (conj Hlen (conj Hs (conj He Hf))))).
  clear -Hdoc. vm_compute in Hdoc. injection Hdoc as <-. reflexivity.
Defined.
